(** * The LaTeX rendering command of sir-lancebot

    A shallow embedding of [bot/exts/fun/latex/_latex_cog.py]: the fence
    stripping regular expression and [_prepare_input], the MD5 cache key,
    the two HTTP clients, and the [latex] command that orchestrates them
    over the cache directory.

    Python [str] values are sequences of Unicode code points, [bytes] are
    sequences of bytes, the cache directory is a finite map from paths to
    file contents, and everything the command does to the outside world
    (file system, HTTP, chat messages) is recorded in an event trace. *)

From Stdlib Require Import ZArith NArith Ascii String List Lia.
From stdpp Require Import base option list gmap strings.

Local Open Scope N_scope.

(** ** Python strings *)

(** A [str] is a sequence of code points. *)
Abbreviation pystr := (list N).

(** The code points of an ASCII literal of the source. *)
Definition py (s : string) : pystr :=
  List.map N_of_ascii (list_ascii_of_string s).

Definition BACKTICK : N := 96.
Definition NEWLINE : N := 10.

(** ** Regular expressions, as the [re] module runs them

    Only the constructs that [FORMATTED_CODE_REGEX] uses.  The matcher is a
    backtracking one: alternatives are tried left to right, a greedy
    repetition tries one more iteration before it tries to stop, a lazy one
    tries to stop first, and the first complete match wins. *)

Inductive regex : Type :=
  | REmpty
  | RChar (c : N)
  | RSet (p : N -> bool)
  | RSeq (r1 r2 : regex)
  | RAlt (r1 r2 : regex)
  | RStar (greedy : bool) (r : regex)
  | RGroup (name : string) (r : regex)
  | RBackref (name : string)
  | RCond (name : string) (r_yes r_no : regex).

(** [r?] and [r+], both greedy. *)
Definition ROpt (r : regex) : regex := RAlt r REmpty.
Definition RPlus (r : regex) : regex := RSeq r (RStar true r).

Fixpoint RLit (cs : pystr) : regex :=
  match cs with
  | [] => REmpty
  | c :: cs' => RSeq (RChar c) (RLit cs')
  end.

(** The groups that took part in the match so far, by name. *)
Abbreviation groups := (gmap string (list N)).

(** What is left of the input, and the groups, at the point reached. *)
Abbreviation mstate := (list N * gmap string (list N))%type.

Definition orelse {A} (x y : option A) : option A :=
  match x with
  | Some _ => x
  | None => y
  end.

(** [starts_with v s]: [v] is a prefix of [s]. *)
Fixpoint starts_with (v s : pystr) : bool :=
  match v, s with
  | [], _ => true
  | x :: v', y :: s' => N.eqb x y && starts_with v' s'
  | _ :: _, [] => false
  end.

(** The loop of a repetition over the matcher [body] of what is repeated.
    A greedy repetition tries one more iteration before it tries to go on
    with [k]; a lazy one tries [k] first.  An iteration only counts when
    it consumed input, as in [re], so [n] iterations suffice when [n]
    exceeds the length of the input. *)
Fixpoint star_loop
    (body : pystr -> groups -> (pystr -> groups -> option mstate) -> option mstate)
    (greedy : bool) (k : pystr -> groups -> option mstate)
    (n : nat) (s : pystr) (g : groups) {struct n} : option mstate :=
  match n with
  | O => None
  | S n' =>
      let again :=
        body s g (fun s1 g1 =>
          if (length s1 <? length s)%nat
          then star_loop body greedy k n' s1 g1
          else None) in
      if greedy then orelse again (k s g) else orelse (k s g) again
  end.

(** [rmatch r s g k] matches [r] at the front of [s] with groups [g] and
    hands what is left to the continuation [k]; when [k] fails, it
    backtracks into [r]. *)
Fixpoint rmatch (r : regex) (s : pystr) (g : groups)
    (k : pystr -> groups -> option mstate) {struct r} : option mstate :=
  match r with
  | REmpty => k s g
  | RChar c =>
      match s with
      | x :: s' => if N.eqb x c then k s' g else None
      | [] => None
      end
  | RSet p =>
      match s with
      | x :: s' => if p x then k s' g else None
      | [] => None
      end
  | RSeq r1 r2 => rmatch r1 s g (fun s1 g1 => rmatch r2 s1 g1 k)
  | RAlt r1 r2 => orelse (rmatch r1 s g k) (rmatch r2 s g k)
  | RStar greedy r1 => star_loop (rmatch r1) greedy k (S (length s)) s g
  | RGroup name r1 =>
      rmatch r1 s g (fun s1 g1 =>
        k s1 (<[name := take (length s - length s1)%nat s]> g1))
  | RBackref name =>
      match g !! name with
      | Some v => if starts_with v s then k (drop (length v) s) g else None
      | None => None
      end
  | RCond name r_yes r_no =>
      match g !! name with
      | Some _ => rmatch r_yes s g k
      | None => rmatch r_no s g k
      end
  end.

(** [pattern.match(text)]: a match anchored at position 0, not required to
    reach the end of [text].  The result is the end position of the match
    and its groups. *)
Definition accept (s : pystr) (g : groups) : option mstate := Some (s, g).

Definition re_match (r : regex) (text : pystr) : option (nat * groups) :=
  match rmatch r text ∅ accept with
  | Some (rest, g) => Some ((length text - length rest)%nat, g)
  | None => None
  end.

(** *** The character classes of the pattern *)

(** [\s] on [str] patterns: the code points for which [str.isspace] holds. *)
Definition is_space (c : N) : bool :=
  ((9 <=? c) && (c <=? 13)) || ((28 <=? c) && (c <=? 32))
  || (c =? 133) || (c =? 160) || (c =? 5760)
  || ((8192 <=? c) && (c <=? 8202))
  || (c =? 8232) || (c =? 8233) || (c =? 8239) || (c =? 8287) || (c =? 12288).

(** [[ \t]] *)
Definition is_blank (c : N) : bool := (c =? 32) || (c =? 9).

(** [[a-z]] under [re.IGNORECASE]: both cases of the ASCII letters and the
    four code points whose case folding is an ASCII letter (U+0130, U+0131,
    U+017F, U+212A). *)
Definition is_letter (c : N) : bool :=
  ((97 <=? c) && (c <=? 122)) || ((65 <=? c) && (c <=? 90))
  || (c =? 304) || (c =? 305) || (c =? 383) || (c =? 8490).

(** [.] under [re.DOTALL] *)
Definition any_char (c : N) : bool := true.

(** *** [FORMATTED_CODE_REGEX]

    [re.IGNORECASE] changes nothing for the backtick and the newline, which
    have no case, nor for the back reference, whose group only ever holds
    backticks; it is accounted for in [is_letter]. *)

(** [(?P<delim>(?P<block>```)|``?)] *)
Definition RE_DELIM : regex :=
  RGroup "delim"
    (RAlt (RGroup "block" (RLit [BACKTICK; BACKTICK; BACKTICK]))
          (RSeq (RChar BACKTICK) (ROpt (RChar BACKTICK)))).

(** [(?(block)(?:(?P<lang>[a-z]+)\n)?)] *)
Definition RE_LANG : regex :=
  RCond "block"
    (ROpt (RSeq (RGroup "lang" (RPlus (RSet is_letter))) (RChar NEWLINE)))
    REmpty.

(** [(?:[ \t]*\n)*] *)
Definition RE_BLANK_LINES : regex :=
  RStar true (RSeq (RStar true (RSet is_blank)) (RChar NEWLINE)).

(** [(?P<code>.*?)] *)
Definition RE_CODE : regex := RGroup "code" (RStar false (RSet any_char)).

(** [\s*] *)
Definition RE_TRAILING : regex := RStar true (RSet is_space).

(** [(?P=delim)] *)
Definition RE_CLOSE : regex := RBackref "delim".

Definition FORMATTED_CODE_REGEX : regex :=
  RSeq RE_DELIM
    (RSeq RE_LANG
      (RSeq RE_BLANK_LINES
        (RSeq RE_CODE
          (RSeq RE_TRAILING RE_CLOSE)))).

(** [match.group("code")] is [None] in Python for a group that took no part
    in the match; [re_match_fence] below shows that this never happens for
    this pattern, so the empty string stands for it here. *)
Definition group (name : string) (g : groups) : pystr :=
  default [] (g !! name).

Definition _prepare_input (text : pystr) : pystr :=
  match re_match FORMATTED_CODE_REGEX text with
  | Some (_, g) => group "code" g
  | None => text
  end.

(** *** What a match is

    [matches r w g g']: the pattern [r] can consume exactly [w] when the
    groups are [g], and the groups are [g'] afterwards.  This says which
    matches exist; [rmatch] picks the one that [re] returns. *)
Inductive matches : regex -> pystr -> groups -> groups -> Prop :=
  | MEmpty g : matches REmpty [] g g
  | MChar c g : matches (RChar c) [c] g g
  | MSet (p : N -> bool) x g : p x = true -> matches (RSet p) [x] g g
  | MSeq r1 r2 w1 w2 g g1 g2 :
      matches r1 w1 g g1 -> matches r2 w2 g1 g2 ->
      matches (RSeq r1 r2) (w1 ++ w2) g g2
  | MAltL r1 r2 w g g' : matches r1 w g g' -> matches (RAlt r1 r2) w g g'
  | MAltR r1 r2 w g g' : matches r2 w g g' -> matches (RAlt r1 r2) w g g'
  | MStarStop greedy r g : matches (RStar greedy r) [] g g
  | MStarMore greedy r w1 w2 g g1 g2 :
      matches r w1 g g1 -> w1 <> [] -> matches (RStar greedy r) w2 g1 g2 ->
      matches (RStar greedy r) (w1 ++ w2) g g2
  | MGroup name r w g g' :
      matches r w g g' -> matches (RGroup name r) w g (<[name := w]> g')
  | MBackref name v g : g !! name = Some v -> matches (RBackref name) v g g
  | MCondYes name r_yes r_no v w g g' :
      g !! name = Some v -> matches r_yes w g g' ->
      matches (RCond name r_yes r_no) w g g'
  | MCondNo name r_yes r_no w g g' :
      g !! name = None -> matches r_no w g g' ->
      matches (RCond name r_yes r_no) w g g'.

(** *** The shape of a fence *)

Definition TRIPLE : pystr := [BACKTICK; BACKTICK; BACKTICK].

(** One to three backticks. *)
Definition is_delimiter (d : pystr) : Prop :=
  d = [BACKTICK] \/ d = [BACKTICK; BACKTICK] \/ d = TRIPLE.

(** Nothing, or after a triple backtick, letters and a newline. *)
Definition language_line (d l : pystr) : Prop :=
  l = [] \/
  (d = TRIPLE /\
   exists letters, letters <> [] /\ Forall (fun c => is_letter c = true) letters
                   /\ l = letters ++ [NEWLINE]).

(** Lines of spaces and tabs, each ended by its newline. *)
Inductive blank_lines : pystr -> Prop :=
  | BlankNone : blank_lines []
  | BlankLine blanks more :
      Forall (fun c => is_blank c = true) blanks -> blank_lines more ->
      blank_lines (blanks ++ [NEWLINE] ++ more).

Definition spaces (w : pystr) : Prop := Forall (fun c => is_space c = true) w.

(** [fence d l b c w]: opening delimiter, language line, blank lines, the
    code, trailing whitespace, and the same delimiter again. *)
Definition fence_text (d l b c w : pystr) : pystr := d ++ l ++ b ++ c ++ w ++ d.

Definition well_formed_fence (d l b w : pystr) : Prop :=
  is_delimiter d /\ language_line d l /\ blank_lines b /\ spaces w.

(** A body that the search for the closing backtick reads through to its
    end: no backtick in it, and its last character is not whitespace. *)
Inductive no_close : pystr -> Prop :=
  | NoCloseLast z : z <> BACKTICK -> is_space z = false -> no_close [z]
  | NoCloseCons y u : y <> BACKTICK -> no_close u -> no_close (y :: u).

(** *** What is shown of the matcher

    [sound_for r m]: a result of the matcher [m] comes from a match of [r]
    at the front of the input, followed by a success of the continuation. *)
Definition sound_for (r : regex)
    (m : pystr -> groups -> (pystr -> groups -> option mstate) -> option mstate)
    : Prop :=
  forall s g k res,
    m s g k = Some res ->
    exists w s' g', s = w ++ s' /\ matches r w g g' /\ k s' g' = Some res.

(** [complete_at r w g g']: where [r] has the match [w] and the
    continuation succeeds after it, the matcher finds some match; the same
    for the loop of a repetition, with any number of iterations left that
    exceeds the length of the input. *)
Definition complete_at (r : regex) (w : pystr) (g g' : groups) : Prop :=
  (forall s' k, k s' g' <> None -> rmatch r (w ++ s') g k <> None)
  /\ (forall greedy r1, r = RStar greedy r1 ->
        forall n s' k, (length (w ++ s') < n)%nat -> k s' g' <> None ->
          star_loop (rmatch r1) greedy k n (w ++ s') g <> None).

(** ** The cache key: [hashlib.md5(query.encode()).hexdigest()] *)

Abbreviation bytes := (list Byte.byte).

Definition byte_of_N (n : N) : Byte.byte :=
  default Byte.x00 (Byte.of_N (n mod 256)).

(** [str.encode()], that is UTF-8.  It raises [UnicodeEncodeError] on a
    surrogate code point; [None] stands for that. *)
Definition encode_char (c : N) : option bytes :=
  if c <? 128 then Some [byte_of_N c]
  else if c <? 2048 then
    Some [byte_of_N (N.lor 192 (N.shiftr c 6));
          byte_of_N (N.lor 128 (N.land c 63))]
  else if (55296 <=? c) && (c <=? 57343) then None
  else if c <? 65536 then
    Some [byte_of_N (N.lor 224 (N.shiftr c 12));
          byte_of_N (N.lor 128 (N.land (N.shiftr c 6) 63));
          byte_of_N (N.lor 128 (N.land c 63))]
  else if c <? 1114112 then
    Some [byte_of_N (N.lor 240 (N.shiftr c 18));
          byte_of_N (N.lor 128 (N.land (N.shiftr c 12) 63));
          byte_of_N (N.lor 128 (N.land (N.shiftr c 6) 63));
          byte_of_N (N.lor 128 (N.land c 63))]
  else None.

Fixpoint encode (s : pystr) : option bytes :=
  match s with
  | [] => Some []
  | c :: s' =>
      match encode_char c, encode s' with
      | Some b, Some bs => Some (b ++ bs)
      | _, _ => None
      end
  end.

(** MD5 (RFC 1321) on 32-bit words held in [N], wrap-around written out. *)
Module MD5.

Definition w32 (x : N) : N := x mod 4294967296.
Definition add32 (x y : N) : N := w32 (x + y).
Definition not32 (x : N) : N := N.lxor (w32 x) 4294967295.
Definition rotl32 (x s : N) : N :=
  w32 (N.lor (N.shiftl x s) (N.shiftr (w32 x) (32 - s))).

Definition K : list N :=
  [ 0xd76aa478; 0xe8c7b756; 0x242070db; 0xc1bdceee;
    0xf57c0faf; 0x4787c62a; 0xa8304613; 0xfd469501;
    0x698098d8; 0x8b44f7af; 0xffff5bb1; 0x895cd7be;
    0x6b901122; 0xfd987193; 0xa679438e; 0x49b40821;
    0xf61e2562; 0xc040b340; 0x265e5a51; 0xe9b6c7aa;
    0xd62f105d; 0x02441453; 0xd8a1e681; 0xe7d3fbc8;
    0x21e1cde6; 0xc33707d6; 0xf4d50d87; 0x455a14ed;
    0xa9e3e905; 0xfcefa3f8; 0x676f02d9; 0x8d2a4c8a;
    0xfffa3942; 0x8771f681; 0x6d9d6122; 0xfde5380c;
    0xa4beea44; 0x4bdecfa9; 0xf6bb4b60; 0xbebfbc70;
    0x289b7ec6; 0xeaa127fa; 0xd4ef3085; 0x04881d05;
    0xd9d4d039; 0xe6db99e5; 0x1fa27cf8; 0xc4ac5665;
    0xf4292244; 0x432aff97; 0xab9423a7; 0xfc93a039;
    0x655b59c3; 0x8f0ccc92; 0xffeff47d; 0x85845dd1;
    0x6fa87e4f; 0xfe2ce6e0; 0xa3014314; 0x4e0811a1;
    0xf7537e82; 0xbd3af235; 0x2ad7d2bb; 0xeb86d391 ].

Definition S : list N :=
  [ 7; 12; 17; 22; 7; 12; 17; 22; 7; 12; 17; 22; 7; 12; 17; 22;
    5; 9; 14; 20; 5; 9; 14; 20; 5; 9; 14; 20; 5; 9; 14; 20;
    4; 11; 16; 23; 4; 11; 16; 23; 4; 11; 16; 23; 4; 11; 16; 23;
    6; 10; 15; 21; 6; 10; 15; 21; 6; 10; 15; 21; 6; 10; 15; 21 ].

(** The message, a 1 bit, zeros up to 56 modulo 64 bytes, and the bit
    length on 64 bits, little-endian. *)
Definition le_bytes (count : nat) (x : N) : list N :=
  List.map (fun i => N.land (N.shiftr x (8 * N.of_nat i)) 255) (seq 0 count).

Definition pad (msg : list N) : list N :=
  let len := N.of_nat (length msg) in
  let zeros := N.to_nat ((119 - len mod 64) mod 64) in
  msg ++ [128] ++ repeat 0 zeros ++ le_bytes 8 ((8 * len) mod 2 ^ 64).

Fixpoint le_word (bs : list N) : N :=
  match bs with
  | [] => 0
  | b :: bs' => b + 256 * le_word bs'
  end.

(** The sixteen words of a 64-byte block. *)
Definition words (block : list N) : list N :=
  List.map (fun i => le_word (take 4 (drop (4 * i) block))) (seq 0 16).

Definition state : Type := N * N * N * N.

Definition step (M : list N) (st : state) (i : nat) : state :=
  let '(A, B, C, D) := st in
  let '(F, g) :=
    if (i <? 16)%nat then
      (N.lor (N.land B C) (N.land (not32 B) D), i)
    else if (i <? 32)%nat then
      (N.lor (N.land D B) (N.land (not32 D) C), ((5 * i + 1) mod 16)%nat)
    else if (i <? 48)%nat then
      (N.lxor (N.lxor B C) D, ((3 * i + 5) mod 16)%nat)
    else
      (N.lxor C (N.lor B (not32 D)), ((7 * i) mod 16)%nat) in
  let F := add32 (add32 (add32 F A) (nth i K 0)) (nth g M 0) in
  (D, add32 B (rotl32 F (nth i S 0)), B, C).

Definition compress (st : state) (block : list N) : state :=
  let '(a0, b0, c0, d0) := st in
  let '(A, B, C, D) := fold_left (step (words block)) (seq 0 64) st in
  (add32 a0 A, add32 b0 B, add32 c0 C, add32 d0 D).

Fixpoint blocks (count : nat) (bs : list N) : list (list N) :=
  match count with
  | O => []
  | Datatypes.S count' => take 64 bs :: blocks count' (drop 64 bs)
  end.

Definition init : state :=
  (0x67452301, 0xefcdab89, 0x98badcfe, 0x10325476).

Definition digest (msg : bytes) : bytes :=
  let padded := pad (List.map Byte.to_N msg) in
  let '(a, b, c, d) :=
    fold_left compress (blocks (length padded / 64) padded) init in
  List.map byte_of_N (le_bytes 4 a ++ le_bytes 4 b ++ le_bytes 4 c ++ le_bytes 4 d).

Definition hex_digit (n : N) : N := if n <? 10 then 48 + n else 87 + n.

(** [.hexdigest()]: two lowercase hexadecimal digits per byte. *)
Definition hexdigest (msg : bytes) : pystr :=
  flat_map (fun b => let n := Byte.to_N b in [hex_digit (n / 16); hex_digit (n mod 16)])
           (digest msg).

End MD5.

Definition md5_hexdigest (data : bytes) : pystr := MD5.hexdigest data.

(** ** The world of the command *)

Definition LATEX_API_URL : pystr := py "https://rtex.probablyaweb.site/api/v2".
Definition PASTEBIN_URL : pystr := py "https://paste.pythondiscord.com".

(** Paths are taken relative to [THIS_DIR], the directory of the module. *)
Definition CACHE_DIRECTORY : pystr := py "cache".

(** [CACHE_DIRECTORY / f"{query_hash}.png"] *)
Definition cache_path (query_hash : pystr) : pystr :=
  CACHE_DIRECTORY ++ py "/" ++ query_hash ++ py ".png".

(** The cache directory: which files exist, and what they hold. *)
Abbreviation filesystem := (gmap (list N) (list Byte.byte)).

Inductive exn : Type :=
  | InvalidLatexError (logs : pystr)
  | ClientResponseError (status : N)
  | ContentTypeError
  | TypeError
  | KeyError (key : pystr)
  | ValueError
  | UnicodeEncodeError
  | FileNotFoundError (path : pystr)
  | HTTPException (status : N).

Inductive result (A : Type) : Type :=
  | Ok (a : A)
  | Raise (e : exn).
Arguments Ok {A} a.
Arguments Raise {A} e.

(** The form fields [{"code": query, "format": "png"}]. *)
Record payload : Type := Payload { code : pystr; format : pystr }.

(** What the command does to the outside world, in the order it does it.
    A message is recorded when the chat has taken it. *)
Inductive event : Type :=
  | EExists (path : pystr)
  | EOpen (path : pystr)
  | EWrite (path : pystr) (data : bytes)
  | EClose (path : pystr)
  | EUnlink (path : pystr)
  | ERenderPost (url : pystr) (data : payload)
  | ERenderGet (url : pystr) (data : payload)
  | EPastePost (url : pystr) (data : pystr)
  | ESendEmbed (title description : pystr)
  | ESendFile (path filename : pystr) (content : bytes).

(** A parsed JSON body.  The fields the command reads hold strings, as both
    services document; any body that is not an object is [JOther]. *)
Inductive json : Type :=
  | JDict (d : gmap (list N) (list N))
  | JOther.

(** The outcome of a request made with [raise_for_status=True]: a status
    of 400 or more raises [ClientResponseError]; otherwise the body is
    there.  For a JSON endpoint the body is what [response.json()] gives,
    [None] when it is not JSON at all. *)
Inductive http (A : Type) : Type :=
  | HttpError (status : N)
  | HttpOk (body : A).
Arguments HttpError {A} status.
Arguments HttpOk {A} body.

(** The two services, as seen from [bot.http_session]. *)
Record network : Type := Network {
  render_post : pystr -> payload -> http (option json);
  render_get : pystr -> payload -> http bytes;
  paste_post : pystr -> pystr -> http (option json)
}.

(** What is handed to [ctx.send]: an embed, or a file under a name. *)
Inductive message : Type :=
  | Embed (title description : pystr)
  | File (filename : pystr) (content : bytes).

(** What [ctx.send] does with a message: the chat takes it, or the call
    raises [discord.HTTPException] with the status of the refusal. *)
Inductive delivery : Type :=
  | Delivered
  | Refused (status : N).

(** The chat, as seen from the [ctx] of an invocation, which hands it one
    message at most. *)
Record channel : Type := Channel {
  send : message -> delivery
}.

(** [string.Template]: literal text, [$name] placeholders, and what the
    template syntax rejects. *)
Inductive template_part : Type :=
  | TText (s : pystr)
  | TVar (name : pystr)
  | TInvalid.

Abbreviation template := (list template_part).

(** [TEMPLATE.substitute(text=query)]: [KeyError] for a placeholder other
    than [text], [ValueError] for an invalid one. *)
Fixpoint substitute (t : template) (text : pystr) : result pystr :=
  match t with
  | [] => Ok []
  | part :: t' =>
      let head :=
        match part with
        | TText s => Ok s
        | TVar name => if bool_decide (name = py "text") then Ok text else Raise (KeyError name)
        | TInvalid => Raise ValueError
        end in
      match head with
      | Raise e => Raise e
      | Ok s =>
          match substitute t' text with
          | Raise e => Raise e
          | Ok rest => Ok (s ++ rest)
          end
      end
  end.

(** ** Effects: the file system is threaded through, the events are
    collected, and an exception ends the computation. *)

Definition M (A : Type) : Type :=
  filesystem -> result A * filesystem * list event.

Definition ret {A} (a : A) : M A := fun fs => (Ok a, fs, []).

Definition raise {A} (e : exn) : M A := fun fs => (Raise e, fs, []).

Definition bind {A B} (m : M A) (f : A -> M B) : M B :=
  fun fs =>
    match m fs with
    | (Ok a, fs1, t1) =>
        match f a fs1 with
        | (r, fs2, t2) => (r, fs2, t1 ++ t2)
        end
    | (Raise e, fs1, t1) => (Raise e, fs1, t1)
    end.

Notation "'do' x <- m ; f" := (bind m (fun x => f))
  (at level 10, x name, m at level 100, f at level 200,
   format "'[v' 'do'  x  <-  m ; '/' f ']'").
Notation "'do_' m ; f" := (bind m (fun _ => f))
  (at level 10, m at level 100, f at level 200,
   format "'[v' 'do_'  m ; '/' f ']'").

(** [try: m] with the outcome as a value, for the handlers to inspect. *)
Definition attempt {A} (m : M A) : M (result A) :=
  fun fs => match m fs with (r, fs1, t1) => (Ok r, fs1, t1) end.

Definition of_result {A} (r : result A) : M A :=
  match r with
  | Ok a => ret a
  | Raise e => raise e
  end.

Definition emit (e : event) : M unit := fun fs => (Ok tt, fs, [e]).

(** *** The file system *)

(** [image_path.exists()] *)
Definition path_exists (path : pystr) : M bool :=
  fun fs => (Ok (bool_decide (is_Some (fs !! path))), fs, [EExists path]).

(** [open(path, "wb")]: the file is created, or emptied, at once. *)
Definition open_wb (path : pystr) : M unit :=
  fun fs => (Ok tt, <[path := []]> fs, [EOpen path]).

(** [out_file.write(data)] *)
Definition file_write (path : pystr) (data : bytes) : M unit :=
  fun fs => (Ok tt, alter (fun old => old ++ data) path fs, [EWrite path data]).

Definition file_close (path : pystr) : M unit := emit (EClose path).

(** [with open(path, "wb") as out_file: body]: the file is closed on the
    way out, whether [body] returned or raised. *)
Definition with_open {A} (path : pystr) (body : M A) : M A :=
  do_ open_wb path;
  do r <- attempt body;
  do_ file_close path;
  of_result r.

(** [image_path.unlink()] *)
Definition unlink (path : pystr) : M unit :=
  fun fs =>
    match fs !! path with
    | Some _ => (Ok tt, delete path fs, [EUnlink path])
    | None => (Raise (FileNotFoundError path), fs, [])
    end.

(** *** The chat

    [ctx.send] delivers the message or raises; the typing indicator of
    [ctx.typing()] is not modelled. *)

(** [ctx.send(embed=discord.Embed(title=..., description=...))] *)
Definition send_embed (ctx : channel) (title description : pystr) : M unit :=
  match send ctx (Embed title description) with
  | Delivered => emit (ESendEmbed title description)
  | Refused status => raise (HTTPException status)
  end.

(** [ctx.send(file=discord.File(path, filename))]: [discord.File] opens the
    file for reading, and its content is what is handed to [ctx.send]. *)
Definition send_file (ctx : channel) (path filename : pystr) : M unit :=
  fun fs =>
    match fs !! path with
    | Some content =>
        match send ctx (File filename content) with
        | Delivered => (Ok tt, fs, [ESendFile path filename content])
        | Refused status => (Raise (HTTPException status), fs, [])
        end
    | None => (Raise (FileNotFoundError path), fs, [])
    end.

(** *** JSON *)

(** [await response.json()] *)
Definition response_json (body : option json) : M json :=
  match body with
  | Some j => ret j
  | None => raise ContentTypeError
  end.

(** [response_json[key]] *)
Definition getitem (j : json) (key : pystr) : M pystr :=
  match j with
  | JDict d =>
      match d !! key with
      | Some v => ret v
      | None => raise (KeyError key)
      end
  | JOther => raise TypeError
  end.

(** [key in response_json], decided on objects; on any other body either
    the test or the subscript that follows it raises [TypeError], or the
    test is false. *)
Definition contains (j : json) (key : pystr) : M bool :=
  match j with
  | JDict d => ret (bool_decide (is_Some (d !! key)))
  | JOther => raise TypeError
  end.

Section Latex.

(** [self.bot.http_session], the contents of [template.txt], and the [ctx]
    of the invocation. *)
Variable net : network.
Variable TEMPLATE : template.
Variable ctx : channel.

Definition http_request {A} (ev : event) (reply : http A) : M A :=
  do_ emit ev;
  match reply with
  | HttpError status => raise (ClientResponseError status)
  | HttpOk body => ret body
  end.

(** [Latex._generate_image] *)
Definition _generate_image (query : pystr) (out_file : pystr) : M unit :=
  let data := Payload query (py "png") in
  do body <- http_request (ERenderPost LATEX_API_URL data)
                          (render_post net LATEX_API_URL data);
  do response <- response_json body;
  do status <- getitem response (py "status");
  do_ (if bool_decide (status = py "success") then ret tt
       else
         do logs <- getitem response (py "log");
         raise (InvalidLatexError logs));
  do filename <- getitem response (py "filename");
  let url := LATEX_API_URL ++ py "/" ++ filename in
  do image <- http_request (ERenderGet url data) (render_get net url data);
  file_write out_file image.

(** The body of the [try] of [Latex._upload_to_pastebin]. *)
Definition upload_attempt (text : pystr) : M (option pystr) :=
  let url := PASTEBIN_URL ++ py "/documents" in
  do body <- http_request (EPastePost url text) (paste_post net url text);
  do response <- response_json body;
  do has_key <- contains response (py "key");
  if has_key then
    do key <- getitem response (py "key");
    ret (Some (PASTEBIN_URL ++ py "/" ++ key ++ py ".txt?noredirect"))
  else ret None.

(** [Latex._upload_to_pastebin]: [except Exception: pass], and the
    function then ends without a value. *)
Definition _upload_to_pastebin (text : pystr) : M (option pystr) :=
  do r <- attempt (upload_attempt text);
  match r with
  | Ok url => ret url
  | Raise _ => ret None
  end.

Definition image_path_of (query : pystr) : result pystr :=
  match encode query with
  | Some data =>
      Ok (cache_path (md5_hexdigest data))
  | None => Raise UnicodeEncodeError
  end.

(** How the [if not image_path.exists()] block ends: with the [return]
    of the handler, or by falling through to the last line. *)
Inductive flow : Type := Returned | FellThrough.

(** The handler [except InvalidLatexError as err]; [if logs_paste_url]
    holds for a string that is not empty. *)
Definition on_invalid_latex (logs : pystr) (image_path : pystr) : M flow :=
  do logs_paste_url <- _upload_to_pastebin logs;
  let title := py "Failed to render input." in
  let description :=
    match logs_paste_url with
    | Some ((_ :: _) as url) => py "[View Logs](" ++ url ++ py ")"
    | Some [] | None => py "Couldn't upload logs."
    end in
  do_ send_embed ctx title description;
  do_ unlink image_path;
  ret Returned.

(** The block under [if not image_path.exists()]. *)
Definition render_to_cache (query : pystr) (image_path : pystr) : M flow :=
  do r <- attempt (with_open image_path
                 (do document <- of_result (substitute TEMPLATE query);
                  _generate_image document image_path));
  match r with
  | Ok _ => ret FellThrough
  | Raise (InvalidLatexError logs) => on_invalid_latex logs image_path
  | Raise e => raise e
  end.

(** [Latex.latex] *)
Definition latex (query : pystr) : M unit :=
  let query := _prepare_input query in
  do image_path <- of_result (image_path_of query);
  do cached <- path_exists image_path;
  do fl <- (if negb cached then render_to_cache query image_path
            else ret FellThrough);
  match fl with
  | Returned => ret tt
  | FellThrough => send_file ctx image_path (py "latex.png")
  end.

End Latex.

Arguments py : simpl never.
Arguments _prepare_input : simpl never.
Arguments md5_hexdigest : simpl never.
Arguments encode : simpl never.
Arguments substitute : simpl never.

(** ** Observations on a trace *)

Definition is_notice (e : event) : bool :=
  match e with ESendEmbed _ _ => true | _ => false end.

Definition is_image (e : event) : bool :=
  match e with ESendFile _ _ _ => true | _ => false end.

Definition is_unlink (e : event) : bool :=
  match e with EUnlink _ => true | _ => false end.

Definition is_paste_upload (e : event) : bool :=
  match e with EPastePost _ _ => true | _ => false end.

Definition is_network_call (e : event) : bool :=
  match e with
  | ERenderPost _ _ | ERenderGet _ _ | EPastePost _ _ => true
  | _ => false
  end.

(** The file an event touches, for the events of the file system and for
    the file read to be sent. *)
Definition event_path (e : event) : option pystr :=
  match e with
  | EExists p | EOpen p | EWrite p _ | EClose p | EUnlink p => Some p
  | ESendFile p _ _ => Some p
  | _ => None
  end.

(** The position of the first event that satisfies [f]. *)
Fixpoint first_index (f : event -> bool) (tr : list event) : option nat :=
  match tr with
  | [] => None
  | e :: tr' => if f e then Some O else option_map S (first_index f tr')
  end.

(** Both kinds of event occur, the first [f] before the first [h]. *)
Definition precedes (f h : event -> bool) (tr : list event) : Prop :=
  match first_index f tr, first_index h tr with
  | Some i, Some j => (i < j)%nat
  | _, _ => False
  end.

(** The notice the handler builds from the outcome of the upload. *)
Definition VIEW_LOGS (url : pystr) : pystr := py "[View Logs](" ++ url ++ py ")".
Definition NO_LOGS : pystr := py "Couldn't upload logs.".
Definition FAILED_TITLE : pystr := py "Failed to render input.".
Definition PASTE_DOCUMENTS : pystr := PASTEBIN_URL ++ py "/documents".
Definition paste_view_url (key : pystr) : pystr :=
  PASTEBIN_URL ++ py "/" ++ key ++ py ".txt?noredirect".
Definition png_payload (document : pystr) : payload := Payload document (py "png").
Definition artifact_url (filename : pystr) : pystr :=
  LATEX_API_URL ++ py "/" ++ filename.

(** The description of the failure notice, from what the upload gave. *)
Definition notice_for (url : option pystr) : pystr :=
  match url with
  | Some u => VIEW_LOGS u
  | None => NO_LOGS
  end.

Definition is_open (e : event) : bool :=
  match e with EOpen _ => true | _ => false end.

Definition is_close (e : event) : bool :=
  match e with EClose _ => true | _ => false end.

(** *** Concrete services, for the examples *)

Definition example_template : template :=
  [TText (py "\begin{document}"); TVar (py "text"); TText (py "\end{document}")].

Definition dict_of (fields : list (pystr * pystr)) : json :=
  JDict (list_to_map fields).

(** The rendering service rejects the document; the paste service works. *)
Definition failing_net : network :=
  Network
    (fun _ _ => HttpOk (Some (dict_of [(py "status", py "error"); (py "log", py "boom")])))
    (fun _ _ => HttpError 404)
    (fun _ _ => HttpOk (Some (dict_of [(py "key", py "abc")]))).

(** Both services work; the image is three bytes long. *)
Definition working_net : network :=
  Network
    (fun _ _ => HttpOk (Some (dict_of [(py "status", py "success");
                                       (py "filename", py "out.png")])))
    (fun _ _ => HttpOk [Byte.x89; Byte.x50; Byte.x4e])
    (fun _ _ => HttpOk (Some (dict_of [(py "key", py "abc")]))).

(** The rendering service is down. *)
Definition down_net : network :=
  Network
    (fun _ _ => HttpError 502)
    (fun _ _ => HttpError 502)
    (fun _ _ => HttpError 400).

(** A chat that takes every message, and one that refuses every message. *)
Definition delivering : channel := Channel (fun _ => Delivered).
Definition refusing : channel := Channel (fun _ => Refused 403).

(** The cache path of the query [x]. *)
Definition path_x : pystr := py "cache/9dd4e461268c8034f5c8564e155c67a6.png".

(** The submission, or the download that follows an accepted submission,
    is answered with an HTTP error status. *)
Definition transport_failure (net : network) (document : pystr) (status : N) : Prop :=
  render_post net LATEX_API_URL (png_payload document) = HttpError status
  \/ exists (d : gmap (list N) (list N)) (filename : pystr),
       render_post net LATEX_API_URL (png_payload document) = HttpOk (Some (JDict d))
       /\ d !! py "status" = Some (py "success")
       /\ d !! py "filename" = Some filename
       /\ render_get net (artifact_url filename) (png_payload document)
          = HttpError status.

(** [confined P path m]: whatever [m] does, each of its events satisfies
    [P], and it leaves every file other than [path] as it was. *)
Definition confined {A} (P : event -> Prop) (path : pystr) (m : M A) : Prop :=
  forall fs r fs1 t,
    m fs = (r, fs1, t) ->
    Forall P t /\ forall q, q <> path -> fs1 !! q = fs !! q.

(** What C10 says of an event: a file it touches is the file at [path],
    and a document it submits is the template applied to [query]. *)
Definition keyed_event (TEMPLATE : template) (query path : pystr) (e : event) : Prop :=
  (forall q, event_path e = Some q -> q = path)
  /\ (forall url data, e = ERenderPost url data ->
        substitute TEMPLATE query = Ok (code data)).

(** *** Every way the render client and the command can end *)

(** [render_outcome net document out_file fs r fs' t]: one of the nine ways
    [_generate_image] ends, with its result, the file system it leaves and
    its trace. *)
Inductive render_outcome (net : network) (document out_file : pystr)
    (fs : filesystem) : result unit -> filesystem -> list event -> Prop :=
  | RenderPostError status :
      render_post net LATEX_API_URL (png_payload document) = HttpError status ->
      render_outcome net document out_file fs
        (Raise (ClientResponseError status)) fs
        [ERenderPost LATEX_API_URL (png_payload document)]
  | RenderNotJson :
      render_post net LATEX_API_URL (png_payload document) = HttpOk None ->
      render_outcome net document out_file fs
        (Raise ContentTypeError) fs
        [ERenderPost LATEX_API_URL (png_payload document)]
  | RenderNotObject :
      render_post net LATEX_API_URL (png_payload document) = HttpOk (Some JOther) ->
      render_outcome net document out_file fs
        (Raise TypeError) fs
        [ERenderPost LATEX_API_URL (png_payload document)]
  | RenderNoStatus d :
      render_post net LATEX_API_URL (png_payload document) = HttpOk (Some (JDict d)) ->
      d !! py "status" = None ->
      render_outcome net document out_file fs
        (Raise (KeyError (py "status"))) fs
        [ERenderPost LATEX_API_URL (png_payload document)]
  | RenderNoLog d status :
      render_post net LATEX_API_URL (png_payload document) = HttpOk (Some (JDict d)) ->
      d !! py "status" = Some status -> status <> py "success" ->
      d !! py "log" = None ->
      render_outcome net document out_file fs
        (Raise (KeyError (py "log"))) fs
        [ERenderPost LATEX_API_URL (png_payload document)]
  | RenderInvalid d status logs :
      render_post net LATEX_API_URL (png_payload document) = HttpOk (Some (JDict d)) ->
      d !! py "status" = Some status -> status <> py "success" ->
      d !! py "log" = Some logs ->
      render_outcome net document out_file fs
        (Raise (InvalidLatexError logs)) fs
        [ERenderPost LATEX_API_URL (png_payload document)]
  | RenderNoFilename d :
      render_post net LATEX_API_URL (png_payload document) = HttpOk (Some (JDict d)) ->
      d !! py "status" = Some (py "success") ->
      d !! py "filename" = None ->
      render_outcome net document out_file fs
        (Raise (KeyError (py "filename"))) fs
        [ERenderPost LATEX_API_URL (png_payload document)]
  | RenderGetError d filename status :
      render_post net LATEX_API_URL (png_payload document) = HttpOk (Some (JDict d)) ->
      d !! py "status" = Some (py "success") ->
      d !! py "filename" = Some filename ->
      render_get net (artifact_url filename) (png_payload document)
      = HttpError status ->
      render_outcome net document out_file fs
        (Raise (ClientResponseError status)) fs
        [ERenderPost LATEX_API_URL (png_payload document);
         ERenderGet (artifact_url filename) (png_payload document)]
  | RenderSuccess d filename image :
      render_post net LATEX_API_URL (png_payload document) = HttpOk (Some (JDict d)) ->
      d !! py "status" = Some (py "success") ->
      d !! py "filename" = Some filename ->
      render_get net (artifact_url filename) (png_payload document)
      = HttpOk image ->
      render_outcome net document out_file fs
        (Ok tt) (alter (fun old => old ++ image) out_file fs)
        [ERenderPost LATEX_API_URL (png_payload document);
         ERenderGet (artifact_url filename) (png_payload document);
         EWrite out_file image].

(** [latex_outcome net TEMPLATE ctx raw fs r fs' tr]: one of the nine ways
    an invocation of [latex] ends. *)
Inductive latex_outcome (net : network) (TEMPLATE : template) (ctx : channel)
    (raw : pystr) (fs : filesystem) :
    result unit -> filesystem -> list event -> Prop :=
  | LatexNotEncodable :
      encode (_prepare_input raw) = None ->
      latex_outcome net TEMPLATE ctx raw fs (Raise UnicodeEncodeError) fs []
  | LatexCached path content :
      image_path_of (_prepare_input raw) = Ok path ->
      fs !! path = Some content ->
      send ctx (File (py "latex.png") content) = Delivered ->
      latex_outcome net TEMPLATE ctx raw fs (Ok tt) fs
        [EExists path; ESendFile path (py "latex.png") content]
  | LatexCachedRefused path content refusal :
      image_path_of (_prepare_input raw) = Ok path ->
      fs !! path = Some content ->
      send ctx (File (py "latex.png") content) = Refused refusal ->
      latex_outcome net TEMPLATE ctx raw fs (Raise (HTTPException refusal)) fs
        [EExists path]
  | LatexTemplateError path e :
      image_path_of (_prepare_input raw) = Ok path ->
      fs !! path = None ->
      substitute TEMPLATE (_prepare_input raw) = Raise e ->
      latex_outcome net TEMPLATE ctx raw fs (Raise e) (<[path := []]> fs)
        [EExists path; EOpen path; EClose path]
  | LatexRenderError path document e t :
      image_path_of (_prepare_input raw) = Ok path ->
      fs !! path = None ->
      substitute TEMPLATE (_prepare_input raw) = Ok document ->
      render_outcome net document path (<[path := []]> fs)
        (Raise e) (<[path := []]> fs) t ->
      (forall logs, e <> InvalidLatexError logs) ->
      latex_outcome net TEMPLATE ctx raw fs (Raise e) (<[path := []]> fs)
        (EExists path :: EOpen path :: t ++ [EClose path])
  | LatexInvalid path document logs t url :
      image_path_of (_prepare_input raw) = Ok path ->
      fs !! path = None ->
      substitute TEMPLATE (_prepare_input raw) = Ok document ->
      render_outcome net document path (<[path := []]> fs)
        (Raise (InvalidLatexError logs)) (<[path := []]> fs) t ->
      (forall fs0, (_upload_to_pastebin net logs fs0).1.1 = Ok url) ->
      send ctx (Embed FAILED_TITLE (notice_for url)) = Delivered ->
      latex_outcome net TEMPLATE ctx raw fs (Ok tt) fs
        (EExists path :: EOpen path :: t
         ++ [EClose path; EPastePost PASTE_DOCUMENTS logs;
             ESendEmbed FAILED_TITLE (notice_for url); EUnlink path])
  | LatexInvalidRefused path document logs t url refusal :
      image_path_of (_prepare_input raw) = Ok path ->
      fs !! path = None ->
      substitute TEMPLATE (_prepare_input raw) = Ok document ->
      render_outcome net document path (<[path := []]> fs)
        (Raise (InvalidLatexError logs)) (<[path := []]> fs) t ->
      (forall fs0, (_upload_to_pastebin net logs fs0).1.1 = Ok url) ->
      send ctx (Embed FAILED_TITLE (notice_for url)) = Refused refusal ->
      latex_outcome net TEMPLATE ctx raw fs
        (Raise (HTTPException refusal)) (<[path := []]> fs)
        (EExists path :: EOpen path :: t
         ++ [EClose path; EPastePost PASTE_DOCUMENTS logs])
  | LatexRendered path document image t :
      image_path_of (_prepare_input raw) = Ok path ->
      fs !! path = None ->
      substitute TEMPLATE (_prepare_input raw) = Ok document ->
      render_outcome net document path (<[path := []]> fs)
        (Ok tt) (<[path := image]> fs) t ->
      send ctx (File (py "latex.png") image) = Delivered ->
      latex_outcome net TEMPLATE ctx raw fs (Ok tt) (<[path := image]> fs)
        (EExists path :: EOpen path :: t
         ++ [EClose path; ESendFile path (py "latex.png") image])
  | LatexRenderedRefused path document image t refusal :
      image_path_of (_prepare_input raw) = Ok path ->
      fs !! path = None ->
      substitute TEMPLATE (_prepare_input raw) = Ok document ->
      render_outcome net document path (<[path := []]> fs)
        (Ok tt) (<[path := image]> fs) t ->
      send ctx (File (py "latex.png") image) = Refused refusal ->
      latex_outcome net TEMPLATE ctx raw fs
        (Raise (HTTPException refusal)) (<[path := image]> fs)
        (EExists path :: EOpen path :: t ++ [EClose path]).

(** *** More services and templates, for the examples *)

(** The rendering service reports a failure and gives no log. *)
Definition nolog_net : network :=
  Network
    (fun _ _ => HttpOk (Some (dict_of [(py "status", py "error");
                                       (py "description", py "boom")])))
    (fun _ _ => HttpError 404)
    (fun _ _ => HttpOk (Some (dict_of [(py "key", py "abc")]))).

(** A template with a placeholder that the command does not fill. *)
Definition bad_template : template :=
  [TText (py "\begin{document}"); TVar (py "body"); TText (py "\end{document}")].

(** *** Characters *)

Definition is_backtick (c : N) : bool := c =? BACKTICK.

(** [0-9a-f] *)
Definition is_lower_hex (c : N) : Prop := 48 <= c <= 57 \/ 97 <= c <= 102.

(** *** More of the shape of a fence *)

(** The groups once the opening delimiter [d] is matched. *)
Definition groups_after_delim (d : pystr) : groups :=
  if decide (d = TRIPLE)
  then <["delim" := d]> (<["block" := d]> ∅)
  else <["delim" := d]> ∅.

(** What, after a triple backtick, is not taken for a language line: the
    first character that is not a letter is not a newline, or comes
    first. *)
Definition no_language_line (s : pystr) : Prop :=
  exists word y tail,
    s = word ++ y :: tail
    /\ Forall (fun c => is_letter c = true) word
    /\ is_letter y = false
    /\ (word = [] \/ y <> NEWLINE).

(** * Proofs *)

(** Unfolding the effect combinators, and nothing else. *)
Ltac run :=
  cbv beta iota zeta delta
    [bind ret raise attempt of_result emit http_request response_json getitem
     contains file_write file_close open_wb with_open send_embed].

(** ** The render client *)

Section RenderClient.

Variable net : network.
Variables (document out_file : pystr) (fs : filesystem).

Let post := render_post net LATEX_API_URL (png_payload document).
Let posted := ERenderPost LATEX_API_URL (png_payload document).

Lemma generate_image_post_error status :
  post = HttpError status ->
  _generate_image net document out_file fs
  = (Raise (ClientResponseError status), fs, [posted]).
Proof.
  subst post posted. unfold _generate_image, png_payload.
  intros Hp. run. rewrite Hp. reflexivity.
Qed.

Lemma generate_image_invalid d status logs :
  post = HttpOk (Some (JDict d)) ->
  d !! py "status" = Some status ->
  status <> py "success" ->
  d !! py "log" = Some logs ->
  _generate_image net document out_file fs
  = (Raise (InvalidLatexError logs), fs, [posted]).
Proof.
  subst post posted. unfold _generate_image, png_payload.
  intros Hp Hs Hne Hl. run. rewrite Hp. run. rewrite Hs. run.
  rewrite bool_decide_eq_false_2 by assumption.
  rewrite Hl. reflexivity.
Qed.

Lemma generate_image_get_error d filename status :
  post = HttpOk (Some (JDict d)) ->
  d !! py "status" = Some (py "success") ->
  d !! py "filename" = Some filename ->
  render_get net (artifact_url filename) (png_payload document) = HttpError status ->
  _generate_image net document out_file fs
  = (Raise (ClientResponseError status), fs,
     [posted; ERenderGet (artifact_url filename) (png_payload document)]).
Proof.
  subst post posted. unfold _generate_image, artifact_url, png_payload.
  intros Hp Hs Hf Hg. run. rewrite Hp. run. rewrite Hs. run.
  rewrite bool_decide_eq_true_2 by reflexivity.
  run. rewrite Hf. run. rewrite Hg. reflexivity.
Qed.

Lemma generate_image_success d filename image :
  post = HttpOk (Some (JDict d)) ->
  d !! py "status" = Some (py "success") ->
  d !! py "filename" = Some filename ->
  render_get net (artifact_url filename) (png_payload document) = HttpOk image ->
  _generate_image net document out_file fs
  = (Ok tt, alter (fun old => old ++ image) out_file fs,
     [posted; ERenderGet (artifact_url filename) (png_payload document);
      EWrite out_file image]).
Proof.
  subst post posted. unfold _generate_image, artifact_url, png_payload.
  intros Hp Hs Hf Hg. run. rewrite Hp. run. rewrite Hs. run.
  rewrite bool_decide_eq_true_2 by reflexivity.
  run. rewrite Hf. run. rewrite Hg. reflexivity.
Qed.

End RenderClient.

(** ** The paste client *)

Lemma upload_to_pastebin_run (net : network) (text : pystr) :
  exists r : option pystr,
    (forall fs : filesystem,
       _upload_to_pastebin net text fs
       = (Ok r, fs, [EPastePost PASTE_DOCUMENTS text]))
    /\ forall url : pystr,
         r = Some url <->
         exists (d : gmap (list N) (list N)) (key : pystr),
           paste_post net PASTE_DOCUMENTS text = HttpOk (Some (JDict d))
           /\ d !! py "key" = Some key
           /\ url = paste_view_url key.
Proof.
  unfold _upload_to_pastebin, upload_attempt, PASTE_DOCUMENTS, paste_view_url.
  destruct (paste_post net (PASTEBIN_URL ++ py "/documents") text)
    as [status | [[d |] |]] eqn:Hp.
  - exists None; split; [intros fs; run; reflexivity |].
    intros url; split; [discriminate | intros (d & key & [=] & _)].
  - destruct (d !! py "key") as [key |] eqn:Hk.
    + eexists; split.
      * intros fs. run.
        rewrite bool_decide_eq_true_2 by (rewrite Hk; eexists; reflexivity).
        rewrite Hk. reflexivity.
      * intros url; split.
        -- intros [= <-]. exists d, key. auto.
        -- intros (d' & key' & [= <-] & Hk' & ->). congruence.
    + exists None; split.
      * intros fs. run.
        rewrite bool_decide_eq_false_2 by (rewrite Hk; intros [? [=]]).
        reflexivity.
      * intros url; split; [discriminate |].
        intros (d' & key' & [= <-] & Hk' & _). congruence.
  - exists None; split; [intros fs; run; reflexivity |].
    intros url; split; [discriminate | intros (d & key & [=] & _)].
  - exists None; split; [intros fs; run; reflexivity |].
    intros url; split; [discriminate | intros (d & key & [=] & _)].
Qed.

(** ** The command *)

Lemma paste_view_url_cons (key : pystr) :
  exists c rest, paste_view_url key = c :: rest.
Proof.
  unfold paste_view_url, PASTEBIN_URL.
  change (py "https://paste.pythondiscord.com")
    with (104 :: py "ttps://paste.pythondiscord.com").
  eexists _, _. reflexivity.
Qed.

Section Command.

Variable net : network.
Variable TEMPLATE : template.
Variable ctx : channel.

Lemma with_open_run {A} (path : pystr) (body : M A) (fs : filesystem) :
  with_open path body fs
  = match body (<[path := []]> fs) with
    | (r, fs1, t) => (r, fs1, EOpen path :: t ++ [EClose path])
    end.
Proof.
  run. destruct (body (<[path := []]> fs)) as [[[a | e] fs1] t]; simpl;
    rewrite ?app_nil_r; reflexivity.
Qed.

(** The handler: the upload, then the notice, then the deletion; when the
    chat refuses the notice, the deletion is not reached. *)
Lemma on_invalid_latex_run (logs path : pystr) (fs : filesystem) content :
  fs !! path = Some content ->
  exists r : option pystr,
    (forall fs0, (_upload_to_pastebin net logs fs0).1.1 = Ok r)
    /\ on_invalid_latex net ctx logs path fs
       = match send ctx (Embed FAILED_TITLE (notice_for r)) with
         | Delivered =>
             (Ok Returned, delete path fs,
              [EPastePost PASTE_DOCUMENTS logs;
               ESendEmbed FAILED_TITLE (notice_for r);
               EUnlink path])
         | Refused refusal =>
             (Raise (HTTPException refusal), fs,
              [EPastePost PASTE_DOCUMENTS logs])
         end.
Proof.
  intros Hp. unfold on_invalid_latex.
  destruct (upload_to_pastebin_run net logs) as (r & Hrun & Hr).
  exists r. split; [intros fs0; rewrite Hrun; reflexivity |].
  cbv beta iota zeta delta [bind]. rewrite Hrun. cbv beta iota zeta.
  assert (match r with
          | Some ((_ :: _) as url) => py "[View Logs](" ++ url ++ py ")"
          | _ => py "Couldn't upload logs."
          end = notice_for r) as ->.
  { destruct r as [url |]; [| reflexivity].
    destruct (proj1 (Hr url) eq_refl) as (d & key & _ & _ & ->).
    destruct (paste_view_url_cons key) as (c & rest & ->). reflexivity. }
  unfold send_embed. fold FAILED_TITLE.
  destruct (send ctx (Embed FAILED_TITLE (notice_for r))) as [| refusal].
  - run. unfold unlink. rewrite Hp. reflexivity.
  - reflexivity.
Qed.

(** The three ways the block under [if not image_path.exists()] ends
    after the file was opened, by the outcome of the rendering. *)
Lemma render_to_cache_run (query path : pystr) (fs : filesystem) :
  render_to_cache net TEMPLATE ctx query path fs
  = match (do document <- of_result (substitute TEMPLATE query);
           _generate_image net document path) (<[path := []]> fs) with
    | (Ok _, fs1, t) => (Ok FellThrough, fs1, EOpen path :: t ++ [EClose path])
    | (Raise (InvalidLatexError logs), fs1, t) =>
        match on_invalid_latex net ctx logs path fs1 with
        | (r, fs2, t2) => (r, fs2, (EOpen path :: t ++ [EClose path]) ++ t2)
        end
    | (Raise e, fs1, t) => (Raise e, fs1, EOpen path :: t ++ [EClose path])
    end.
Proof.
  unfold render_to_cache.
  set (body := do document <- of_result (substitute TEMPLATE query);
               _generate_image net document path).
  cbv beta iota zeta delta [bind attempt].
  rewrite with_open_run.
  destruct (body (<[path := []]> fs)) as [[[a | e] fs1] t].
  - run. rewrite ?app_nil_r. reflexivity.
  - destruct e; run; rewrite ?app_nil_r; reflexivity.
Qed.

Lemma latex_hit (raw path : pystr) (fs : filesystem) content :
  image_path_of (_prepare_input raw) = Ok path ->
  fs !! path = Some content ->
  latex net TEMPLATE ctx raw fs
  = match send ctx (File (py "latex.png") content) with
    | Delivered =>
        (Ok tt, fs, [EExists path; ESendFile path (py "latex.png") content])
    | Refused refusal => (Raise (HTTPException refusal), fs, [EExists path])
    end.
Proof.
  intros Hpath Hfs. unfold latex. rewrite Hpath.
  unfold path_exists, send_file. run.
  rewrite bool_decide_eq_true_2 by (rewrite Hfs; eexists; reflexivity).
  cbv beta iota zeta delta [negb ret]. rewrite Hfs.
  destruct (send ctx (File (py "latex.png") content)); reflexivity.
Qed.

Lemma latex_miss (raw path : pystr) (fs : filesystem) :
  image_path_of (_prepare_input raw) = Ok path ->
  fs !! path = None ->
  latex net TEMPLATE ctx raw fs
  = match render_to_cache net TEMPLATE ctx (_prepare_input raw) path fs with
    | (Ok Returned, fs1, t) => (Ok tt, fs1, EExists path :: t)
    | (Ok FellThrough, fs1, t) =>
        match fs1 !! path with
        | Some content =>
            match send ctx (File (py "latex.png") content) with
            | Delivered =>
                (Ok tt, fs1,
                 EExists path :: t ++ [ESendFile path (py "latex.png") content])
            | Refused refusal =>
                (Raise (HTTPException refusal), fs1, EExists path :: t)
            end
        | None => (Raise (FileNotFoundError path), fs1, EExists path :: t)
        end
    | (Raise e, fs1, t) => (Raise e, fs1, EExists path :: t)
    end.
Proof.
  intros Hpath Hfs. unfold latex. rewrite Hpath.
  unfold path_exists, send_file. run.
  rewrite bool_decide_eq_false_2 by (rewrite Hfs; intros [? [=]]).
  cbv beta iota zeta delta [negb].
  destruct (render_to_cache net TEMPLATE ctx (_prepare_input raw) path fs)
    as [[[[|] | e] fs1] t]; run.
  - rewrite ?app_nil_r. reflexivity.
  - destruct (fs1 !! path) as [content |]; [| rewrite ?app_nil_r; reflexivity].
    destruct (send ctx (File (py "latex.png") content));
      rewrite ?app_nil_r; reflexivity.
  - reflexivity.
Qed.

End Command.

(** *** An invocation that misses the cache

    The query normalizes and encodes, the cache has no file for its key,
    and the template takes the query. *)

Section CacheMiss.

Variable net : network.
Variable TEMPLATE : template.
Variable ctx : channel.
Variables (raw path document : pystr) (fs : filesystem).

Hypothesis Hpath : image_path_of (_prepare_input raw) = Ok path.
Hypothesis Hmiss : fs !! path = None.
Hypothesis Hdoc : substitute TEMPLATE (_prepare_input raw) = Ok document.

Let post := render_post net LATEX_API_URL (png_payload document).
Let posted := ERenderPost LATEX_API_URL (png_payload document).
Let got (filename : pystr) :=
  ERenderGet (artifact_url filename) (png_payload document).

Lemma rendering_run :
  (do doc <- of_result (substitute TEMPLATE (_prepare_input raw));
   _generate_image net doc path) (<[path := []]> fs)
  = _generate_image net document path (<[path := []]> fs).
Proof.
  rewrite Hdoc. run.
  destruct (_generate_image net document path (<[path := []]> fs)) as [[r fs1] t].
  reflexivity.
Qed.

(** The rendering service answers, and reports a failure with its log. *)
Lemma latex_invalid_run d status logs :
  post = HttpOk (Some (JDict d)) ->
  d !! py "status" = Some status ->
  status <> py "success" ->
  d !! py "log" = Some logs ->
  exists r : option pystr,
    (forall fs0, (_upload_to_pastebin net logs fs0).1.1 = Ok r)
    /\ latex net TEMPLATE ctx raw fs
       = match send ctx (Embed FAILED_TITLE (notice_for r)) with
         | Delivered =>
             (Ok tt, fs,
              [EExists path; EOpen path; posted; EClose path;
               EPastePost PASTE_DOCUMENTS logs;
               ESendEmbed FAILED_TITLE (notice_for r);
               EUnlink path])
         | Refused refusal =>
             (Raise (HTTPException refusal), <[path := []]> fs,
              [EExists path; EOpen path; posted; EClose path;
               EPastePost PASTE_DOCUMENTS logs])
         end.
Proof.
  intros Hp Hs Hne Hl.
  rewrite (latex_miss _ _ _ _ _ _ Hpath Hmiss), render_to_cache_run, rendering_run.
  rewrite (generate_image_invalid _ _ _ _ d status logs Hp Hs Hne Hl).
  destruct (on_invalid_latex_run net ctx logs path (<[path := []]> fs) []
              (lookup_insert_eq _ _ _)) as (r & Hr & ->).
  exists r. split; [exact Hr |].
  destruct (send ctx (Embed FAILED_TITLE (notice_for r))); [| reflexivity].
  rewrite delete_insert_eq, delete_id by assumption. reflexivity.
Qed.

(** The submission is refused. *)
Lemma latex_post_error_run status :
  post = HttpError status ->
  latex net TEMPLATE ctx raw fs
  = (Raise (ClientResponseError status), <[path := []]> fs,
     [EExists path; EOpen path; posted; EClose path]).
Proof.
  intros Hp.
  rewrite (latex_miss _ _ _ _ _ _ Hpath Hmiss), render_to_cache_run, rendering_run.
  rewrite (generate_image_post_error _ _ _ _ status Hp). reflexivity.
Qed.

(** The submission is accepted, the download of the image is refused. *)
Lemma latex_get_error_run d filename status :
  post = HttpOk (Some (JDict d)) ->
  d !! py "status" = Some (py "success") ->
  d !! py "filename" = Some filename ->
  render_get net (artifact_url filename) (png_payload document) = HttpError status ->
  latex net TEMPLATE ctx raw fs
  = (Raise (ClientResponseError status), <[path := []]> fs,
     [EExists path; EOpen path; posted; got filename; EClose path]).
Proof.
  intros Hp Hs Hf Hg.
  rewrite (latex_miss _ _ _ _ _ _ Hpath Hmiss), render_to_cache_run, rendering_run.
  rewrite (generate_image_get_error _ _ _ _ d filename status Hp Hs Hf Hg).
  reflexivity.
Qed.

(** The image is rendered and downloaded. *)
Lemma latex_success_run d filename image :
  post = HttpOk (Some (JDict d)) ->
  d !! py "status" = Some (py "success") ->
  d !! py "filename" = Some filename ->
  render_get net (artifact_url filename) (png_payload document) = HttpOk image ->
  latex net TEMPLATE ctx raw fs
  = match send ctx (File (py "latex.png") image) with
    | Delivered =>
        (Ok tt, <[path := image]> fs,
         [EExists path; EOpen path; posted; got filename; EWrite path image;
          EClose path; ESendFile path (py "latex.png") image])
    | Refused refusal =>
        (Raise (HTTPException refusal), <[path := image]> fs,
         [EExists path; EOpen path; posted; got filename; EWrite path image;
          EClose path])
    end.
Proof.
  intros Hp Hs Hf Hg.
  rewrite (latex_miss _ _ _ _ _ _ Hpath Hmiss), render_to_cache_run, rendering_run.
  rewrite (generate_image_success _ _ _ _ d filename image Hp Hs Hf Hg).
  rewrite alter_insert_eq, lookup_insert_eq. cbn [app].
  destruct (send ctx (File (py "latex.png") image)); reflexivity.
Qed.

End CacheMiss.

(** ** C1: a logical render failure *)

(** C1, as the specification states it, fails: there is an invocation whose
    rendering request is answered with a status other than "success" and
    which leaves a file at the cache path and sends no failure notice.  The
    answer has no [log] field, so that [KeyError] leaves the render client
    and the handler of [InvalidLatexError] is not entered. *)
Lemma logical_failure_without_log_refuted :
  ~ (forall (net : network) (TEMPLATE : template) (ctx : channel)
            (raw path document : pystr) (fs : filesystem)
            (d : gmap (list N) (list N)) (status : pystr),
       image_path_of (_prepare_input raw) = Ok path ->
       fs !! path = None ->
       substitute TEMPLATE (_prepare_input raw) = Ok document ->
       render_post net LATEX_API_URL (png_payload document) = HttpOk (Some (JDict d)) ->
       d !! py "status" = Some status ->
       status <> py "success" ->
       let run := latex net TEMPLATE ctx raw fs in
       run.1.2 !! path = None
       /\ (exists notice,
             List.filter is_notice run.2 = [ESendEmbed FAILED_TITLE notice])
       /\ List.filter is_image run.2 = []).
Proof.
  intros H.
  pose (d := list_to_map [(py "status", py "error"); (py "description", py "boom")]
             : gmap (list N) (list N)).
  assert (image_path_of (_prepare_input (py "`x`")) = Ok path_x) as H1
    by (vm_compute; reflexivity).
  assert ((∅ : gmap (list N) (list Byte.byte)) !! path_x = None) as H2
    by reflexivity.
  assert (substitute example_template (_prepare_input (py "`x`"))
          = Ok (py "\begin{document}x\end{document}")) as H3
    by (vm_compute; reflexivity).
  assert (render_post nolog_net LATEX_API_URL
            (png_payload (py "\begin{document}x\end{document}"))
          = HttpOk (Some (JDict d))) as H4 by reflexivity.
  assert (d !! py "status" = Some (py "error")) as H5 by (vm_compute; reflexivity).
  assert (py "error" <> py "success") as H6 by (vm_compute; discriminate).
  destruct (H nolog_net example_template delivering (py "`x`") path_x
              (py "\begin{document}x\end{document}") ∅ d
              (py "error") H1 H2 H3 H4 H5 H6) as [Hbad _].
  vm_compute in Hbad. discriminate.
Qed.

(** C1, amended.  When the rendering service answers with a status other
    than "success" and a log, the invocation sends no image and builds one
    failure notice, whose description is the link to the uploaded logs when
    the paste service returned a key and the could-not-upload message
    otherwise.  When the chat takes the notice, the invocation ends
    normally, with exactly that one notice sent and no file at the cache
    path of the query.  When the chat refuses it, the refusal leaves the
    invocation, no notice is sent, and the deletion, which comes after the
    send, is not reached: the empty file stays at the cache path. *)
Theorem logical_failure_notice_and_no_file
    (net : network) (TEMPLATE : template) (ctx : channel)
    (raw path document : pystr)
    (fs : filesystem) (d : gmap (list N) (list N)) (status logs : pystr) :
  image_path_of (_prepare_input raw) = Ok path ->
  fs !! path = None ->
  substitute TEMPLATE (_prepare_input raw) = Ok document ->
  render_post net LATEX_API_URL (png_payload document) = HttpOk (Some (JDict d)) ->
  d !! py "status" = Some status ->
  status <> py "success" ->
  d !! py "log" = Some logs ->
  exists (r : result unit) (fs' : filesystem) (tr : list event) (notice : pystr),
    latex net TEMPLATE ctx raw fs = (r, fs', tr)
    /\ List.filter is_image tr = []
    /\ ((exists d' key,
           paste_post net PASTE_DOCUMENTS logs = HttpOk (Some (JDict d'))
           /\ d' !! py "key" = Some key
           /\ notice = VIEW_LOGS (paste_view_url key))
        \/ ((forall d' key,
               paste_post net PASTE_DOCUMENTS logs = HttpOk (Some (JDict d')) ->
               d' !! py "key" <> Some key)
            /\ notice = NO_LOGS))
    /\ match send ctx (Embed FAILED_TITLE notice) with
       | Delivered =>
           r = Ok tt
           /\ fs' !! path = None
           /\ List.filter is_notice tr = [ESendEmbed FAILED_TITLE notice]
       | Refused refusal =>
           r = Raise (HTTPException refusal)
           /\ fs' !! path = Some []
           /\ List.filter is_notice tr = []
           /\ List.filter is_unlink tr = []
       end.
Proof.
  intros Hpath Hmiss Hdoc Hp Hs Hne Hl.
  destruct (latex_invalid_run net TEMPLATE ctx raw path document fs
              Hpath Hmiss Hdoc d status logs Hp Hs Hne Hl) as (r & Hr & Hrun).
  assert ((exists d' key,
             paste_post net PASTE_DOCUMENTS logs = HttpOk (Some (JDict d'))
             /\ d' !! py "key" = Some key
             /\ notice_for r = VIEW_LOGS (paste_view_url key))
          \/ ((forall d' key,
                 paste_post net PASTE_DOCUMENTS logs = HttpOk (Some (JDict d')) ->
                 d' !! py "key" <> Some key)
              /\ notice_for r = NO_LOGS)) as Hnotice.
  { destruct (upload_to_pastebin_run net logs) as (r' & Hrun' & Hiff).
    assert (r' = r) as ->.
    { specialize (Hr ∅). rewrite Hrun' in Hr. simpl in Hr. congruence. }
    destruct r as [url |].
    - left. destruct (proj1 (Hiff url) eq_refl) as (d' & key & Hpp & Hk & ->).
      exists d', key. auto.
    - right. split; [| reflexivity].
      intros d' key Hpp Hk.
      assert (None = Some (paste_view_url key)) by (apply Hiff; eauto).
      discriminate. }
  destruct (send ctx (Embed FAILED_TITLE (notice_for r))) as [| refusal] eqn:Hsend.
  - eexists _, _, _, (notice_for r). split; [exact Hrun |].
    split; [reflexivity |]. split; [exact Hnotice |].
    rewrite Hsend. split; [reflexivity |]. split; [exact Hmiss | reflexivity].
  - eexists _, _, _, (notice_for r). split; [exact Hrun |].
    split; [reflexivity |]. split; [exact Hnotice |].
    rewrite Hsend. split; [reflexivity |].
    split; [apply lookup_insert_eq |]. split; reflexivity.
Qed.

Lemma logical_failure_notice_and_no_file_witness :
  exists (r : result unit) (fs' : filesystem) (tr : list event) (notice : pystr),
    latex failing_net example_template delivering (py "`x`") ∅ = (r, fs', tr)
    /\ List.filter is_image tr = []
    /\ ((exists d' key,
           paste_post failing_net PASTE_DOCUMENTS (py "boom") = HttpOk (Some (JDict d'))
           /\ d' !! py "key" = Some key
           /\ notice = VIEW_LOGS (paste_view_url key))
        \/ ((forall d' key,
               paste_post failing_net PASTE_DOCUMENTS (py "boom") = HttpOk (Some (JDict d')) ->
               d' !! py "key" <> Some key)
            /\ notice = NO_LOGS))
    /\ match send delivering (Embed FAILED_TITLE notice) with
       | Delivered =>
           r = Ok tt
           /\ fs' !! path_x = None
           /\ List.filter is_notice tr = [ESendEmbed FAILED_TITLE notice]
       | Refused refusal =>
           r = Raise (HTTPException refusal)
           /\ fs' !! path_x = Some []
           /\ List.filter is_notice tr = []
           /\ List.filter is_unlink tr = []
       end.
Proof.
  pose (d := list_to_map [(py "status", py "error"); (py "log", py "boom")]
             : gmap (list N) (list N)).
  assert (image_path_of (_prepare_input (py "`x`")) = Ok path_x) as H1
    by (vm_compute; reflexivity).
  assert ((∅ : gmap (list N) (list Byte.byte)) !! path_x = None) as H2
    by reflexivity.
  assert (substitute example_template (_prepare_input (py "`x`"))
          = Ok (py "\begin{document}x\end{document}")) as H3
    by (vm_compute; reflexivity).
  assert (render_post failing_net LATEX_API_URL
            (png_payload (py "\begin{document}x\end{document}"))
          = HttpOk (Some (JDict d))) as H4 by reflexivity.
  assert (d !! py "status" = Some (py "error")) as H5 by (vm_compute; reflexivity).
  assert (py "error" <> py "success") as H6 by (vm_compute; discriminate).
  assert (d !! py "log" = Some (py "boom")) as H7 by (vm_compute; reflexivity).
  exact (logical_failure_notice_and_no_file failing_net example_template delivering
           (py "`x`") path_x (py "\begin{document}x\end{document}") ∅ d
           (py "error") (py "boom") H1 H2 H3 H4 H5 H6 H7).
Defined.

(** ** C2: the order of the steps of the failure handler *)

(** C2, as the specification states it, fails: there is an invocation that
    enters the failure branch and whose deletion of the cache file does
    not come before the paste upload and the failure notice. *)
Lemma deletion_before_upload_refuted :
  ~ (forall (net : network) (TEMPLATE : template) (ctx : channel)
            (raw path document : pystr)
            (fs : filesystem) (d : gmap (list N) (list N)) (status logs : pystr),
       image_path_of (_prepare_input raw) = Ok path ->
       fs !! path = None ->
       substitute TEMPLATE (_prepare_input raw) = Ok document ->
       render_post net LATEX_API_URL (png_payload document) = HttpOk (Some (JDict d)) ->
       d !! py "status" = Some status ->
       status <> py "success" ->
       d !! py "log" = Some logs ->
       let tr := (latex net TEMPLATE ctx raw fs).2 in
       precedes is_unlink is_paste_upload tr /\ precedes is_unlink is_notice tr).
Proof.
  intros H.
  pose (d := list_to_map [(py "status", py "error"); (py "log", py "boom")]
             : gmap (list N) (list N)).
  assert (image_path_of (_prepare_input (py "`x`")) = Ok path_x) as H1
    by (vm_compute; reflexivity).
  assert ((∅ : gmap (list N) (list Byte.byte)) !! path_x = None) as H2
    by reflexivity.
  assert (substitute example_template (_prepare_input (py "`x`"))
          = Ok (py "\begin{document}x\end{document}")) as H3
    by (vm_compute; reflexivity).
  assert (render_post failing_net LATEX_API_URL
            (png_payload (py "\begin{document}x\end{document}"))
          = HttpOk (Some (JDict d))) as H4 by reflexivity.
  assert (d !! py "status" = Some (py "error")) as H5 by (vm_compute; reflexivity).
  assert (py "error" <> py "success") as H6 by (vm_compute; discriminate).
  assert (d !! py "log" = Some (py "boom")) as H7 by (vm_compute; reflexivity).
  destruct (H failing_net example_template delivering (py "`x`") path_x
              (py "\begin{document}x\end{document}") ∅ d
              (py "error") (py "boom") H1 H2 H3 H4 H5 H6 H7) as [Hbad _].
  vm_compute in Hbad. lia.
Qed.

(** C2, amended.  On a logical render failure the output file is closed,
    then the log upload is attempted, then the failure notice is sent, and
    the cache file is deleted last: the trace of the invocation ends with
    these four events in this order, so the upload and the notice both
    come before the deletion.  When the chat refuses the notice, the trace
    ends with the upload: the invocation stops at the send, and nothing is
    deleted. *)
Theorem failure_steps_order
    (net : network) (TEMPLATE : template) (ctx : channel)
    (raw path document : pystr)
    (fs : filesystem) (d : gmap (list N) (list N)) (status logs : pystr) :
  image_path_of (_prepare_input raw) = Ok path ->
  fs !! path = None ->
  substitute TEMPLATE (_prepare_input raw) = Ok document ->
  render_post net LATEX_API_URL (png_payload document) = HttpOk (Some (JDict d)) ->
  d !! py "status" = Some status ->
  status <> py "success" ->
  d !! py "log" = Some logs ->
  let tr := (latex net TEMPLATE ctx raw fs).2 in
  exists (before : list event) (url : option pystr),
    (forall fs0, (_upload_to_pastebin net logs fs0).1.1 = Ok url)
    /\ precedes is_close is_paste_upload tr
    /\ match send ctx (Embed FAILED_TITLE (notice_for url)) with
       | Delivered =>
           tr = before ++ [EClose path; EPastePost PASTE_DOCUMENTS logs;
                           ESendEmbed FAILED_TITLE (notice_for url); EUnlink path]
           /\ precedes is_paste_upload is_notice tr
           /\ precedes is_notice is_unlink tr
       | Refused _ =>
           tr = before ++ [EClose path; EPastePost PASTE_DOCUMENTS logs]
           /\ List.filter is_notice tr = []
           /\ List.filter is_unlink tr = []
       end.
Proof.
  intros Hpath Hmiss Hdoc Hp Hs Hne Hl tr. subst tr.
  destruct (latex_invalid_run net TEMPLATE ctx raw path document fs
              Hpath Hmiss Hdoc d status logs Hp Hs Hne Hl) as (r & Hr & ->).
  eexists [_; _; _], r. split; [exact Hr |].
  destruct (send ctx (Embed FAILED_TITLE (notice_for r))).
  - split; [cbv [precedes first_index is_close is_paste_upload option_map snd]; lia |].
    split; [reflexivity |].
    cbv [precedes first_index is_paste_upload is_notice is_unlink option_map snd].
    lia.
  - split; [cbv [precedes first_index is_close is_paste_upload option_map snd]; lia |].
    split; [reflexivity |]. split; reflexivity.
Qed.

Lemma failure_steps_order_witness :
  let tr := (latex failing_net example_template delivering (py "`x`") ∅).2 in
  exists (before : list event) (url : option pystr),
    (forall fs0, (_upload_to_pastebin failing_net (py "boom") fs0).1.1 = Ok url)
    /\ precedes is_close is_paste_upload tr
    /\ match send delivering (Embed FAILED_TITLE (notice_for url)) with
       | Delivered =>
           tr = before ++ [EClose path_x; EPastePost PASTE_DOCUMENTS (py "boom");
                           ESendEmbed FAILED_TITLE (notice_for url); EUnlink path_x]
           /\ precedes is_paste_upload is_notice tr
           /\ precedes is_notice is_unlink tr
       | Refused _ =>
           tr = before ++ [EClose path_x; EPastePost PASTE_DOCUMENTS (py "boom")]
           /\ List.filter is_notice tr = []
           /\ List.filter is_unlink tr = []
       end.
Proof.
  pose (d := list_to_map [(py "status", py "error"); (py "log", py "boom")]
             : gmap (list N) (list N)).
  assert (image_path_of (_prepare_input (py "`x`")) = Ok path_x) as H1
    by (vm_compute; reflexivity).
  assert ((∅ : gmap (list N) (list Byte.byte)) !! path_x = None) as H2
    by reflexivity.
  assert (substitute example_template (_prepare_input (py "`x`"))
          = Ok (py "\begin{document}x\end{document}")) as H3
    by (vm_compute; reflexivity).
  assert (render_post failing_net LATEX_API_URL
            (png_payload (py "\begin{document}x\end{document}"))
          = HttpOk (Some (JDict d))) as H4 by reflexivity.
  assert (d !! py "status" = Some (py "error")) as H5 by (vm_compute; reflexivity).
  assert (py "error" <> py "success") as H6 by (vm_compute; discriminate).
  assert (d !! py "log" = Some (py "boom")) as H7 by (vm_compute; reflexivity).
  exact (failure_steps_order failing_net example_template delivering (py "`x`") path_x
           (py "\begin{document}x\end{document}") ∅ d
           (py "error") (py "boom") H1 H2 H3 H4 H5 H6 H7).
Defined.

(** ** C5: a transport error *)

(** C5. When the submit POST or the artifact GET is answered with an error
    status, the invocation ends with that [ClientResponseError] raised, it
    has sent neither a failure notice nor an image, it has deleted
    nothing, and the file opened at the cache path is still there. *)
Theorem transport_error_propagates
    (net : network) (TEMPLATE : template) (ctx : channel)
    (raw path document : pystr)
    (fs : filesystem) (status : N) :
  image_path_of (_prepare_input raw) = Ok path ->
  fs !! path = None ->
  substitute TEMPLATE (_prepare_input raw) = Ok document ->
  transport_failure net document status ->
  exists (fs' : filesystem) (tr : list event),
    latex net TEMPLATE ctx raw fs = (Raise (ClientResponseError status), fs', tr)
    /\ List.filter is_notice tr = []
    /\ List.filter is_image tr = []
    /\ List.filter is_unlink tr = []
    /\ is_Some (fs' !! path).
Proof.
  intros Hpath Hmiss Hdoc [Hp | (d & filename & Hp & Hs & Hf & Hg)].
  - rewrite (latex_post_error_run net TEMPLATE ctx raw path document fs
               Hpath Hmiss Hdoc status Hp).
    eexists _, _. split; [reflexivity |].
    repeat split. rewrite lookup_insert_eq. eexists; reflexivity.
  - rewrite (latex_get_error_run net TEMPLATE ctx raw path document fs
               Hpath Hmiss Hdoc d filename status Hp Hs Hf Hg).
    eexists _, _. split; [reflexivity |].
    repeat split. rewrite lookup_insert_eq. eexists; reflexivity.
Qed.

Lemma transport_error_propagates_witness :
  exists (fs' : filesystem) (tr : list event),
    latex down_net example_template delivering (py "`x`") ∅
    = (Raise (ClientResponseError 502), fs', tr)
    /\ List.filter is_notice tr = []
    /\ List.filter is_image tr = []
    /\ List.filter is_unlink tr = []
    /\ is_Some (fs' !! path_x).
Proof.
  apply (transport_error_propagates down_net example_template delivering
           (py "`x`") path_x (py "\begin{document}x\end{document}") ∅ 502).
  - vm_compute. reflexivity.
  - reflexivity.
  - vm_compute. reflexivity.
  - left. reflexivity.
Defined.

(** ** C8: a transport error poisons the cache *)

(** A later invocation that finds a file at the cache path of its query:
    it makes no request and hands that file to the chat. *)
Lemma latex_hit_later (net : network) (TEMPLATE : template) (ctx : channel)
    (raw path : pystr) (fs : filesystem) (content : bytes) :
  image_path_of (_prepare_input raw) = Ok path ->
  fs !! path = Some content ->
  exists (r : result unit) (tr : list event),
    latex net TEMPLATE ctx raw fs = (r, fs, tr)
    /\ List.filter is_network_call tr = []
    /\ match send ctx (File (py "latex.png") content) with
       | Delivered =>
           r = Ok tt
           /\ List.filter is_image tr = [ESendFile path (py "latex.png") content]
       | Refused refusal =>
           r = Raise (HTTPException refusal) /\ List.filter is_image tr = []
       end.
Proof.
  intros Hpath Hfs.
  rewrite (latex_hit net TEMPLATE ctx raw path fs content Hpath Hfs).
  destruct (send ctx (File (py "latex.png") content));
    eexists _, _; (split; [reflexivity |]); split; try reflexivity;
    split; reflexivity.
Qed.

(** C8. The cache file is opened for writing before the first request to
    the rendering service.  When that request, or the download, is
    answered with an error status, an empty file is left at the cache
    path, and as long as that file stays as it is, any later invocation
    whose input normalizes to the same query, whatever the services, the
    template and the rest of the cache then are, makes no request at all
    and sends that empty file as the image: the file handed to the chat is
    the empty one, and it is the one image sent when the chat takes it. *)
Theorem transport_error_poisons_cache
    (net : network) (TEMPLATE : template) (ctx : channel)
    (raw path document : pystr)
    (fs : filesystem) (status : N) :
  image_path_of (_prepare_input raw) = Ok path ->
  fs !! path = None ->
  substitute TEMPLATE (_prepare_input raw) = Ok document ->
  transport_failure net document status ->
  exists (fs' : filesystem) (tr : list event),
    latex net TEMPLATE ctx raw fs = (Raise (ClientResponseError status), fs', tr)
    /\ precedes is_open is_network_call tr
    /\ fs' !! path = Some []
    /\ forall (later : filesystem) (net' : network) (TEMPLATE' : template)
              (ctx' : channel) (raw' : pystr),
         later !! path = fs' !! path ->
         _prepare_input raw' = _prepare_input raw ->
         exists (r' : result unit) (tr' : list event),
           latex net' TEMPLATE' ctx' raw' later = (r', later, tr')
           /\ List.filter is_network_call tr' = []
           /\ match send ctx' (File (py "latex.png") []) with
              | Delivered =>
                  r' = Ok tt
                  /\ List.filter is_image tr' = [ESendFile path (py "latex.png") []]
              | Refused refusal =>
                  r' = Raise (HTTPException refusal)
                  /\ List.filter is_image tr' = []
              end.
Proof.
  intros Hpath Hmiss Hdoc Hfail.
  assert (forall (later : filesystem) (net' : network) (TEMPLATE' : template)
                 (ctx' : channel) (raw' : pystr),
            later !! path = <[path := []]> fs !! path ->
            _prepare_input raw' = _prepare_input raw ->
            exists (r' : result unit) (tr' : list event),
              latex net' TEMPLATE' ctx' raw' later = (r', later, tr')
              /\ List.filter is_network_call tr' = []
              /\ match send ctx' (File (py "latex.png") []) with
                 | Delivered =>
                     r' = Ok tt
                     /\ List.filter is_image tr'
                        = [ESendFile path (py "latex.png") []]
                 | Refused refusal =>
                     r' = Raise (HTTPException refusal)
                     /\ List.filter is_image tr' = []
                 end)
    as Hlater.
  { intros later net' TEMPLATE' ctx' raw' Hstill Hsame.
    rewrite lookup_insert_eq in Hstill.
    rewrite <- Hsame in Hpath.
    exact (latex_hit_later net' TEMPLATE' ctx' raw' path later [] Hpath Hstill). }
  destruct Hfail as [Hp | (d & filename & Hp & Hs & Hf & Hg)].
  - rewrite (latex_post_error_run net TEMPLATE ctx raw path document fs
               Hpath Hmiss Hdoc status Hp).
    eexists _, _. split; [reflexivity |].
    split; [cbv [precedes first_index is_open is_network_call option_map]; lia |].
    split; [apply lookup_insert_eq | exact Hlater].
  - rewrite (latex_get_error_run net TEMPLATE ctx raw path document fs
               Hpath Hmiss Hdoc d filename status Hp Hs Hf Hg).
    eexists _, _. split; [reflexivity |].
    split; [cbv [precedes first_index is_open is_network_call option_map]; lia |].
    split; [apply lookup_insert_eq | exact Hlater].
Qed.

Lemma transport_error_poisons_cache_witness :
  exists (fs' : filesystem) (tr : list event),
    latex down_net example_template delivering (py "`x`") ∅
    = (Raise (ClientResponseError 502), fs', tr)
    /\ precedes is_open is_network_call tr
    /\ fs' !! path_x = Some []
    /\ forall (later : filesystem) (net' : network) (TEMPLATE' : template)
              (ctx' : channel) (raw' : pystr),
         later !! path_x = fs' !! path_x ->
         _prepare_input raw' = _prepare_input (py "`x`") ->
         exists (r' : result unit) (tr' : list event),
           latex net' TEMPLATE' ctx' raw' later = (r', later, tr')
           /\ List.filter is_network_call tr' = []
           /\ match send ctx' (File (py "latex.png") []) with
              | Delivered =>
                  r' = Ok tt
                  /\ List.filter is_image tr' = [ESendFile path_x (py "latex.png") []]
              | Refused refusal =>
                  r' = Raise (HTTPException refusal)
                  /\ List.filter is_image tr' = []
              end.
Proof.
  assert (image_path_of (_prepare_input (py "`x`")) = Ok path_x) as H1
    by (vm_compute; reflexivity).
  assert ((∅ : gmap (list N) (list Byte.byte)) !! path_x = None) as H2
    by reflexivity.
  assert (substitute example_template (_prepare_input (py "`x`"))
          = Ok (py "\begin{document}x\end{document}")) as H3
    by (vm_compute; reflexivity).
  assert (transport_failure down_net (py "\begin{document}x\end{document}") 502)
    as H4 by (left; reflexivity).
  exact (transport_error_poisons_cache down_net example_template delivering (py "`x`")
           path_x (py "\begin{document}x\end{document}") ∅ 502 H1 H2 H3 H4).
Defined.

(** ** C4: the cache round trip *)

(** C4. After an invocation that rendered a query and stored the image,
    and as long as the stored file stays as it is, any later invocation
    whose input normalizes to the same query, whatever the services, the
    template and the rest of the cache then are, makes no request and
    sends exactly the bytes that were stored: the file handed to the chat
    holds those bytes, and it is the one image sent when the chat takes
    it.  The image is stored also when the chat refuses it to the
    invocation that rendered it. *)
Theorem cache_round_trip
    (net : network) (TEMPLATE : template) (ctx : channel)
    (raw path document : pystr)
    (fs : filesystem) (d : gmap (list N) (list N)) (filename : pystr)
    (image : bytes) :
  image_path_of (_prepare_input raw) = Ok path ->
  fs !! path = None ->
  substitute TEMPLATE (_prepare_input raw) = Ok document ->
  render_post net LATEX_API_URL (png_payload document) = HttpOk (Some (JDict d)) ->
  d !! py "status" = Some (py "success") ->
  d !! py "filename" = Some filename ->
  render_get net (artifact_url filename) (png_payload document) = HttpOk image ->
  exists (r : result unit) (fs' : filesystem) (tr : list event),
    latex net TEMPLATE ctx raw fs = (r, fs', tr)
    /\ match send ctx (File (py "latex.png") image) with
       | Delivered => r = Ok tt
       | Refused refusal => r = Raise (HTTPException refusal)
       end
    /\ fs' !! path = Some image
    /\ forall (later : filesystem) (net' : network) (TEMPLATE' : template)
              (ctx' : channel) (raw' : pystr),
         later !! path = fs' !! path ->
         _prepare_input raw' = _prepare_input raw ->
         exists (r' : result unit) (tr' : list event),
           latex net' TEMPLATE' ctx' raw' later = (r', later, tr')
           /\ List.filter is_network_call tr' = []
           /\ match send ctx' (File (py "latex.png") image) with
              | Delivered =>
                  r' = Ok tt
                  /\ List.filter is_image tr'
                     = [ESendFile path (py "latex.png") image]
              | Refused refusal =>
                  r' = Raise (HTTPException refusal)
                  /\ List.filter is_image tr' = []
              end.
Proof.
  intros Hpath Hmiss Hdoc Hp Hs Hf Hg.
  rewrite (latex_success_run net TEMPLATE ctx raw path document fs
             Hpath Hmiss Hdoc d filename image Hp Hs Hf Hg).
  assert (forall (later : filesystem) (net' : network) (TEMPLATE' : template)
                 (ctx' : channel) (raw' : pystr),
            later !! path = <[path := image]> fs !! path ->
            _prepare_input raw' = _prepare_input raw ->
            exists (r' : result unit) (tr' : list event),
              latex net' TEMPLATE' ctx' raw' later = (r', later, tr')
              /\ List.filter is_network_call tr' = []
              /\ match send ctx' (File (py "latex.png") image) with
                 | Delivered =>
                     r' = Ok tt
                     /\ List.filter is_image tr'
                        = [ESendFile path (py "latex.png") image]
                 | Refused refusal =>
                     r' = Raise (HTTPException refusal)
                     /\ List.filter is_image tr' = []
                 end)
    as Hlater.
  { intros later net' TEMPLATE' ctx' raw' Hstill Hsame.
    rewrite lookup_insert_eq in Hstill.
    rewrite <- Hsame in Hpath.
    exact (latex_hit_later net' TEMPLATE' ctx' raw' path later image Hpath Hstill). }
  destruct (send ctx (File (py "latex.png") image)) as [| refusal].
  - eexists _, _, _. split; [reflexivity |]. split; [reflexivity |].
    split; [apply lookup_insert_eq | exact Hlater].
  - eexists _, _, _. split; [reflexivity |]. split; [reflexivity |].
    split; [apply lookup_insert_eq | exact Hlater].
Qed.

Lemma cache_round_trip_witness :
  exists (r : result unit) (fs' : filesystem) (tr : list event),
    latex working_net example_template delivering (py "`x`") ∅ = (r, fs', tr)
    /\ match send delivering
               (File (py "latex.png") [Byte.x89; Byte.x50; Byte.x4e]) with
       | Delivered => r = Ok tt
       | Refused refusal => r = Raise (HTTPException refusal)
       end
    /\ fs' !! path_x = Some [Byte.x89; Byte.x50; Byte.x4e]
    /\ forall (later : filesystem) (net' : network) (TEMPLATE' : template)
              (ctx' : channel) (raw' : pystr),
         later !! path_x = fs' !! path_x ->
         _prepare_input raw' = _prepare_input (py "`x`") ->
         exists (r' : result unit) (tr' : list event),
           latex net' TEMPLATE' ctx' raw' later = (r', later, tr')
           /\ List.filter is_network_call tr' = []
           /\ match send ctx' (File (py "latex.png") [Byte.x89; Byte.x50; Byte.x4e]) with
              | Delivered =>
                  r' = Ok tt
                  /\ List.filter is_image tr'
                     = [ESendFile path_x (py "latex.png")
                          [Byte.x89; Byte.x50; Byte.x4e]]
              | Refused refusal =>
                  r' = Raise (HTTPException refusal)
                  /\ List.filter is_image tr' = []
              end.
Proof.
  pose (d := list_to_map [(py "status", py "success"); (py "filename", py "out.png")]
             : gmap (list N) (list N)).
  assert (image_path_of (_prepare_input (py "`x`")) = Ok path_x) as H1
    by (vm_compute; reflexivity).
  assert ((∅ : gmap (list N) (list Byte.byte)) !! path_x = None) as H2
    by reflexivity.
  assert (substitute example_template (_prepare_input (py "`x`"))
          = Ok (py "\begin{document}x\end{document}")) as H3
    by (vm_compute; reflexivity).
  assert (render_post working_net LATEX_API_URL
            (png_payload (py "\begin{document}x\end{document}"))
          = HttpOk (Some (JDict d))) as H4 by reflexivity.
  assert (d !! py "status" = Some (py "success")) as H5 by (vm_compute; reflexivity).
  assert (d !! py "filename" = Some (py "out.png")) as H6 by (vm_compute; reflexivity).
  assert (render_get working_net (artifact_url (py "out.png"))
            (png_payload (py "\begin{document}x\end{document}"))
          = HttpOk [Byte.x89; Byte.x50; Byte.x4e]) as H7 by reflexivity.
  exact (cache_round_trip working_net example_template delivering (py "`x`") path_x
           (py "\begin{document}x\end{document}") ∅ d (py "out.png")
           [Byte.x89; Byte.x50; Byte.x4e] H1 H2 H3 H4 H5 H6 H7).
Defined.

(** ** C6: the outcomes of the render client *)

(** C6. [_generate_image] tells a logical failure from a transport
    failure.  An accepted submission whose status field is not "success"
    raises [InvalidLatexError] with exactly the log field of the answer,
    after the one POST and nothing else.  An error status on the POST, or
    on the GET that follows a successful submission, raises
    [ClientResponseError], with no second attempt at either request.
    Otherwise the artifact is fetched from the endpoint followed by a
    slash and the file name of the answer, and the body of that response
    is written, as it is, to the output file. *)
Theorem generate_image_outcomes
    (net : network) (document out_file : pystr) (fs : filesystem) :
  let data := png_payload document in
  let post := render_post net LATEX_API_URL data in
  let run := _generate_image net document out_file fs in
  (forall d status logs,
     post = HttpOk (Some (JDict d)) ->
     d !! py "status" = Some status ->
     status <> py "success" ->
     d !! py "log" = Some logs ->
     run = (Raise (InvalidLatexError logs), fs, [ERenderPost LATEX_API_URL data]))
  /\ (forall status,
        post = HttpError status ->
        run = (Raise (ClientResponseError status), fs,
               [ERenderPost LATEX_API_URL data]))
  /\ (forall d filename status,
        post = HttpOk (Some (JDict d)) ->
        d !! py "status" = Some (py "success") ->
        d !! py "filename" = Some filename ->
        render_get net (LATEX_API_URL ++ py "/" ++ filename) data = HttpError status ->
        run = (Raise (ClientResponseError status), fs,
               [ERenderPost LATEX_API_URL data;
                ERenderGet (LATEX_API_URL ++ py "/" ++ filename) data]))
  /\ (forall d filename image,
        post = HttpOk (Some (JDict d)) ->
        d !! py "status" = Some (py "success") ->
        d !! py "filename" = Some filename ->
        render_get net (LATEX_API_URL ++ py "/" ++ filename) data = HttpOk image ->
        run = (Ok tt, alter (fun old => old ++ image) out_file fs,
               [ERenderPost LATEX_API_URL data;
                ERenderGet (LATEX_API_URL ++ py "/" ++ filename) data;
                EWrite out_file image])).
Proof.
  intros data post run. subst data post run. repeat split.
  - intros d status logs. apply generate_image_invalid.
  - intros status. apply generate_image_post_error.
  - intros d filename status. apply generate_image_get_error.
  - intros d filename image. apply generate_image_success.
Qed.

Lemma generate_image_outcomes_witness :
  _generate_image failing_net (py "x") path_x (<[path_x := []]> ∅)
  = (Raise (InvalidLatexError (py "boom")), <[path_x := []]> ∅,
     [ERenderPost LATEX_API_URL (png_payload (py "x"))])
  /\ _generate_image down_net (py "x") path_x (<[path_x := []]> ∅)
     = (Raise (ClientResponseError 502), <[path_x := []]> ∅,
        [ERenderPost LATEX_API_URL (png_payload (py "x"))])
  /\ _generate_image working_net (py "x") path_x (<[path_x := []]> ∅)
     = (Ok tt,
        alter (fun old => old ++ [Byte.x89; Byte.x50; Byte.x4e]) path_x
              (<[path_x := []]> ∅),
        [ERenderPost LATEX_API_URL (png_payload (py "x"));
         ERenderGet (LATEX_API_URL ++ py "/" ++ py "out.png") (png_payload (py "x"));
         EWrite path_x [Byte.x89; Byte.x50; Byte.x4e]]).
Proof.
  pose (bad := list_to_map [(py "status", py "error"); (py "log", py "boom")]
               : gmap (list N) (list N)).
  pose (good := list_to_map [(py "status", py "success"); (py "filename", py "out.png")]
                : gmap (list N) (list N)).
  assert (bad !! py "status" = Some (py "error")) as B1 by (vm_compute; reflexivity).
  assert (py "error" <> py "success") as B2 by (vm_compute; discriminate).
  assert (bad !! py "log" = Some (py "boom")) as B3 by (vm_compute; reflexivity).
  assert (good !! py "status" = Some (py "success")) as G1 by (vm_compute; reflexivity).
  assert (good !! py "filename" = Some (py "out.png")) as G2 by (vm_compute; reflexivity).
  split; [| split].
  - exact (proj1 (generate_image_outcomes failing_net (py "x") path_x
                    (<[path_x := []]> ∅))
             bad (py "error") (py "boom") eq_refl B1 B2 B3).
  - exact (proj1 (proj2 (generate_image_outcomes down_net (py "x") path_x
                           (<[path_x := []]> ∅)))
             502 eq_refl).
  - exact (proj2 (proj2 (proj2 (generate_image_outcomes working_net (py "x") path_x
                                  (<[path_x := []]> ∅))))
             good (py "out.png") [Byte.x89; Byte.x50; Byte.x4e] eq_refl G1 G2 eq_refl).
Defined.

(** ** C7: the outcomes of the paste client *)

(** C7. [_upload_to_pastebin] always returns, after one POST of the text
    to the documents endpoint of the paste service and without touching
    the file system.  It returns a URL exactly when the request succeeded
    with a JSON object that has a [key] field, and the URL is then the
    base URL, a slash, the key, and [.txt?noredirect]; in every other case
    it returns nothing, and no exception leaves it. *)
Theorem upload_returns_url_iff_key (net : network) (text : pystr) :
  exists r : option pystr,
    (forall fs : filesystem,
       _upload_to_pastebin net text fs
       = (Ok r, fs, [EPastePost (PASTEBIN_URL ++ py "/documents") text]))
    /\ forall url : pystr,
         r = Some url <->
         exists (d : gmap (list N) (list N)) (key : pystr),
           paste_post net (PASTEBIN_URL ++ py "/documents") text
           = HttpOk (Some (JDict d))
           /\ d !! py "key" = Some key
           /\ url = PASTEBIN_URL ++ py "/" ++ key ++ py ".txt?noredirect".
Proof.
  exact (upload_to_pastebin_run net text).
Qed.

(** ** C10: the cache key and the template *)

Section Confined.

Variable P : event -> Prop.
Variable path : pystr.

Lemma confined_ret {A} (a : A) : confined P path (ret a).
Proof. intros fs r fs1 t [= <- <- <-]. split; [constructor | reflexivity]. Qed.

Lemma confined_raise {A} (e : exn) : confined P path (@raise A e).
Proof. intros fs r fs1 t [= <- <- <-]. split; [constructor | reflexivity]. Qed.

Lemma confined_of_result {A} (r : result A) : confined P path (of_result r).
Proof. destruct r; [apply confined_ret | apply confined_raise]. Qed.

Lemma confined_emit (e : event) : P e -> confined P path (emit e).
Proof.
  intros He fs r fs1 t [= <- <- <-]. split; [| reflexivity].
  constructor; [exact He | constructor].
Qed.

Lemma confined_bind {A B} (m : M A) (f : A -> M B) :
  confined P path m ->
  (forall a fs fs1 t, m fs = (Ok a, fs1, t) -> confined P path (f a)) ->
  confined P path (bind m f).
Proof.
  intros Hm Hf fs r fs2 t. unfold bind.
  destruct (m fs) as [[[a | e] fs1] t1] eqn:Em.
  - destruct (f a fs1) as [[r2 fs2'] t2] eqn:Ef. intros [= <- <- <-].
    destruct (Hm _ _ _ _ Em) as [Ht1 Hfs1].
    destruct (Hf a _ _ _ Em _ _ _ _ Ef) as [Ht2 Hfs2].
    split; [apply Forall_app; auto |].
    intros q Hq. rewrite Hfs2, Hfs1 by assumption. reflexivity.
  - intros [= <- <- <-]. exact (Hm _ _ _ _ Em).
Qed.

Lemma confined_attempt {A} (m : M A) :
  confined P path m -> confined P path (attempt m).
Proof.
  intros Hm fs r fs1 t. unfold attempt.
  destruct (m fs) as [[r0 fs0] t0] eqn:Em. intros [= <- <- <-].
  exact (Hm _ _ _ _ Em).
Qed.

Hypothesis P_here : forall e, event_path e = Some path -> P e.
Hypothesis P_elsewhere : forall e, event_path e = None ->
  (forall url data, e <> ERenderPost url data) -> P e.

Lemma confined_path_exists : confined P path (path_exists path).
Proof.
  intros fs r fs1 t [= <- <- <-]. split; [| reflexivity].
  constructor; [apply P_here; reflexivity | constructor].
Qed.

Lemma confined_open_wb : confined P path (open_wb path).
Proof.
  intros fs r fs1 t [= <- <- <-]. split.
  - constructor; [apply P_here; reflexivity | constructor].
  - intros q Hq. apply lookup_insert_ne. congruence.
Qed.

Lemma confined_file_write data : confined P path (file_write path data).
Proof.
  intros fs r fs1 t [= <- <- <-]. split.
  - constructor; [apply P_here; reflexivity | constructor].
  - intros q Hq. apply lookup_alter_ne. congruence.
Qed.

Lemma confined_file_close : confined P path (file_close path).
Proof. apply confined_emit, P_here. reflexivity. Qed.

Lemma confined_unlink : confined P path (unlink path).
Proof.
  intros fs r fs1 t. unfold unlink. destruct (fs !! path).
  - intros [= <- <- <-]. split.
    + constructor; [apply P_here; reflexivity | constructor].
    + intros q Hq. apply lookup_delete_ne. congruence.
  - intros [= <- <- <-]. split; [constructor | reflexivity].
Qed.

Lemma confined_send_file ctx name : confined P path (send_file ctx path name).
Proof.
  intros fs r fs1 t. unfold send_file.
  destruct (fs !! path) as [content |];
    [destruct (send ctx (File name content)) |].
  - intros [= <- <- <-]. split; [| reflexivity].
    constructor; [apply P_here; reflexivity | constructor].
  - intros [= <- <- <-]. split; [constructor | reflexivity].
  - intros [= <- <- <-]. split; [constructor | reflexivity].
Qed.

Lemma confined_send_embed ctx title description :
  confined P path (send_embed ctx title description).
Proof.
  unfold send_embed. destruct (send ctx (Embed title description)).
  - apply confined_emit, P_elsewhere; [reflexivity | discriminate].
  - apply confined_raise.
Qed.

Lemma confined_http_request {A} (e : event) (reply : http A) :
  P e -> confined P path (http_request e reply).
Proof.
  intros He. unfold http_request.
  apply confined_bind; [apply confined_emit, He |].
  intros _ _ _ _ _. destruct reply; [apply confined_raise | apply confined_ret].
Qed.

Lemma confined_response_json body : confined P path (response_json body).
Proof. destruct body; [apply confined_ret | apply confined_raise]. Qed.

Lemma confined_getitem j key : confined P path (getitem j key).
Proof.
  destruct j as [d |]; simpl; [| apply confined_raise].
  destruct (d !! key); [apply confined_ret | apply confined_raise].
Qed.

Lemma confined_contains j key : confined P path (contains j key).
Proof. destruct j; [apply confined_ret | apply confined_raise]. Qed.

Variable net : network.
Variable ctx : channel.

Lemma confined_upload text : confined P path (_upload_to_pastebin net text).
Proof.
  unfold _upload_to_pastebin, upload_attempt.
  apply confined_bind.
  - apply confined_attempt, confined_bind.
    + apply confined_http_request, P_elsewhere; [reflexivity | discriminate].
    + intros body _ _ _ _. apply confined_bind; [apply confined_response_json |].
      intros response _ _ _ _. apply confined_bind; [apply confined_contains |].
      intros [|] _ _ _ _; [| apply confined_ret].
      apply confined_bind; [apply confined_getitem |].
      intros key _ _ _ _. apply confined_ret.
  - intros [url | e] _ _ _ _; apply confined_ret.
Qed.

Lemma confined_on_invalid_latex logs :
  confined P path (on_invalid_latex net ctx logs path).
Proof.
  unfold on_invalid_latex.
  apply confined_bind; [apply confined_upload |].
  intros url _ _ _ _.
  apply confined_bind; [apply confined_send_embed |].
  intros _ _ _ _ _.
  apply confined_bind; [apply confined_unlink |].
  intros _ _ _ _ _. apply confined_ret.
Qed.

Lemma confined_generate_image document :
  P (ERenderPost LATEX_API_URL (Payload document (py "png"))) ->
  confined P path (_generate_image net document path).
Proof.
  intros Hpost. unfold _generate_image.
  apply confined_bind; [apply confined_http_request, Hpost |].
  intros body _ _ _ _. apply confined_bind; [apply confined_response_json |].
  intros response _ _ _ _. apply confined_bind; [apply confined_getitem |].
  intros status _ _ _ _. apply confined_bind.
  { destruct (bool_decide (status = py "success")); [apply confined_ret |].
    apply confined_bind; [apply confined_getitem |].
    intros logs _ _ _ _. apply confined_raise. }
  intros _ _ _ _ _. apply confined_bind; [apply confined_getitem |].
  intros filename _ _ _ _. apply confined_bind.
  { apply confined_http_request, P_elsewhere; [reflexivity | discriminate]. }
  intros image _ _ _ _. apply confined_file_write.
Qed.

Variable TEMPLATE : template.

Lemma confined_render_to_cache query :
  (forall document, substitute TEMPLATE query = Ok document ->
     P (ERenderPost LATEX_API_URL (Payload document (py "png")))) ->
  confined P path (render_to_cache net TEMPLATE ctx query path).
Proof.
  intros Hpost. unfold render_to_cache.
  apply confined_bind.
  - apply confined_attempt. unfold with_open.
    apply confined_bind; [apply confined_open_wb |].
    intros _ _ _ _ _. apply confined_bind.
    + apply confined_attempt, confined_bind; [apply confined_of_result |].
      intros document fs0 fs1 t Hdoc. apply confined_generate_image, Hpost.
      destruct (substitute TEMPLATE query);
        cbv [of_result ret raise] in Hdoc; congruence.
    + intros r _ _ _ _. apply confined_bind; [apply confined_file_close |].
      intros _ _ _ _ _. apply confined_of_result.
  - intros [a | e] _ _ _ _; [apply confined_ret |].
    destruct e; try apply confined_raise. apply confined_on_invalid_latex.
Qed.

End Confined.

Lemma latex_confined (net : network) (TEMPLATE : template) (ctx : channel)
    (raw path : pystr) :
  image_path_of (_prepare_input raw) = Ok path ->
  confined (keyed_event TEMPLATE (_prepare_input raw) path) path
    (latex net TEMPLATE ctx raw).
Proof.
  intros Hpath.
  assert (forall e, event_path e = Some path ->
            keyed_event TEMPLATE (_prepare_input raw) path e) as Hhere.
  { intros e He. split.
    - intros q Hq. congruence.
    - intros url data ->. discriminate. }
  assert (forall e, event_path e = None ->
            (forall url data, e <> ERenderPost url data) ->
            keyed_event TEMPLATE (_prepare_input raw) path e) as Helse.
  { intros e He Hne. split.
    - intros q Hq. congruence.
    - intros url data ->. destruct (Hne url data eq_refl). }
  unfold latex. rewrite Hpath.
  apply confined_bind; [apply confined_of_result |].
  intros p _ _ _ [= <- _ _].
  apply confined_bind; [apply confined_path_exists, Hhere |].
  intros cached _ _ _ _.
  apply confined_bind.
  - destruct (negb cached); [| apply confined_ret].
    apply confined_render_to_cache; try assumption.
    intros document Hdoc. split.
    + intros q [=].
    + intros url data [= _ <-]. exact Hdoc.
  - intros [|] _ _ _ _; [apply confined_ret | apply confined_send_file, Hhere].
Qed.

Lemma latex_checks_cache_first (net : network) (TEMPLATE : template)
    (ctx : channel) (raw path : pystr) (fs : filesystem) :
  image_path_of (_prepare_input raw) = Ok path ->
  exists r fs' rest, latex net TEMPLATE ctx raw fs = (r, fs', EExists path :: rest).
Proof.
  intros Hpath. unfold latex. rewrite Hpath.
  cbv beta iota zeta delta [bind of_result ret path_exists].
  match goal with
  | |- context [match ?m ?f with _ => _ end] =>
      destruct (m f) as [[[fl | e] fs1] t1]
  end.
  - match goal with
    | |- context [match ?m ?f with _ => _ end] =>
        destruct (m f) as [[r2 fs2] t2]
    end.
    eexists _, _, _. reflexivity.
  - eexists _, _, _. reflexivity.
Qed.

(** C10. The cache path of an invocation is [cache_path] of the MD5 hex
    digest of the UTF-8 bytes of the normalized query: an expression in
    which the template does not occur.  Whatever
    the template, the services, the chat and the cache are, the invocation first
    tests that path, every file it opens, writes, closes, deletes or sends
    is at that path, it leaves every other file as it was, and a document
    it submits for rendering is the template applied to the query. *)
Theorem cache_key_ignores_template
    (net : network) (TEMPLATE : template) (ctx : channel) (raw : pystr)
    (fs : filesystem) (data : bytes) :
  encode (_prepare_input raw) = Some data ->
  let path := cache_path (md5_hexdigest data) in
  exists (r : result unit) (fs' : filesystem) (rest : list event),
    latex net TEMPLATE ctx raw fs = (r, fs', EExists path :: rest)
    /\ Forall (fun e => forall q, event_path e = Some q -> q = path) rest
    /\ (forall q, q <> path -> fs' !! q = fs !! q)
    /\ Forall (fun e => forall url document,
                 e = ERenderPost url document ->
                 substitute TEMPLATE (_prepare_input raw) = Ok (code document))
              rest.
Proof.
  intros Hdata path.
  assert (image_path_of (_prepare_input raw) = Ok path) as Hpath.
  { unfold image_path_of. rewrite Hdata. reflexivity. }
  destruct (latex_checks_cache_first net TEMPLATE ctx raw path fs Hpath)
    as (r & fs' & rest & Hrun).
  exists r, fs', rest. split; [exact Hrun |].
  destruct (latex_confined net TEMPLATE ctx raw path Hpath _ _ _ _ Hrun)
    as [Hall Hframe].
  apply Forall_cons in Hall as [_ Hall].
  split; [| split; [exact Hframe |]].
  - eapply Forall_impl; [exact Hall |]. intros e [He _]. exact He.
  - eapply Forall_impl; [exact Hall |]. intros e [_ He]. exact He.
Qed.

Lemma cache_key_ignores_template_witness :
  exists (r : result unit) (fs' : filesystem) (rest : list event),
    latex working_net example_template delivering (py "`x`") ∅
    = (r, fs', EExists path_x :: rest)
    /\ Forall (fun e => forall q, event_path e = Some q -> q = path_x) rest
    /\ (forall q, q <> path_x ->
          fs' !! q = (∅ : gmap (list N) (list Byte.byte)) !! q)
    /\ Forall (fun e => forall url document,
                 e = ERenderPost url document ->
                 substitute example_template (_prepare_input (py "`x`"))
                 = Ok (code document))
              rest.
Proof.
  assert (encode (_prepare_input (py "`x`")) = Some [Byte.x78]) as H1
    by (vm_compute; reflexivity).
  exact (cache_key_ignores_template working_net example_template delivering
           (py "`x`") ∅ [Byte.x78] H1).
Defined.

(** ** The matcher finds matches only *)

Lemma starts_with_spec (v s : pystr) :
  starts_with v s = true -> s = v ++ drop (length v) s.
Proof.
  revert s. induction v as [| x v IH]; intros [| y s]; simpl; try discriminate; auto.
  intros H. apply andb_prop in H as [Hx Hv].
  apply N.eqb_eq in Hx as ->. f_equal. apply IH, Hv.
Qed.

Lemma take_consumed (w s : pystr) :
  take (length (w ++ s) - length s)%nat (w ++ s) = w.
Proof.
  rewrite length_app.
  replace (length w + length s - length s)%nat with (length w) by lia.
  apply take_app_length.
Qed.

Lemma star_loop_sound (k : pystr -> groups -> option mstate)
    (r : regex) (greedy : bool) body :
  sound_for r body ->
  forall n s g res,
    star_loop body greedy k n s g = Some res ->
    exists w s' g',
      s = w ++ s' /\ matches (RStar greedy r) w g g' /\ k s' g' = Some res.
Proof.
  intros Hbody. induction n as [| n IH]; intros s g res; simpl; [discriminate |].
  set (again := body s g _).
  assert (again = Some res ->
          exists w s' g',
            s = w ++ s' /\ matches (RStar greedy r) w g g' /\ k s' g' = Some res)
    as Hagain.
  { subst again. intros H.
    apply Hbody in H as (w1 & s1 & g1 & -> & Hm1 & Hk1).
    destruct (length s1 <? length (w1 ++ s1))%nat eqn:Hlt; [| discriminate].
    apply Nat.ltb_lt in Hlt. rewrite length_app in Hlt.
    apply IH in Hk1 as (w2 & s2 & g2 & -> & Hm2 & Hk2).
    exists (w1 ++ w2), s2, g2. split; [apply app_assoc |]. split; [| exact Hk2].
    apply MStarMore with g1; try assumption.
    intros ->. simpl in Hlt. lia. }
  assert (k s g = Some res ->
          exists w s' g',
            s = w ++ s' /\ matches (RStar greedy r) w g g' /\ k s' g' = Some res)
    as Hstop.
  { intros H. exists [], s, g. split; [reflexivity |]. split; [constructor | exact H]. }
  destruct greedy; unfold orelse.
  - destruct again as [res' |]; [intros [= <-]; auto | auto].
  - destruct (k s g) as [res' |]; [intros [= <-]; auto | auto].
Qed.


Lemma rmatch_sound (r : regex) : sound_for r (rmatch r).
Proof.
  induction r as [| c | p | r1 IH1 r2 IH2 | r1 IH1 r2 IH2 | greedy r IH
                  | name r IH | name | name ry IHy rn IHn];
    intros s g k res; cbn [rmatch].
  - intros H. exists [], s, g. split; [reflexivity |]. split; [constructor | exact H].
  - destruct s as [| x s]; [discriminate |].
    destruct (N.eqb_spec x c) as [-> |]; [| discriminate].
    intros H. exists [c], s, g. split; [reflexivity |]. split; [constructor | exact H].
  - destruct s as [| x s]; [discriminate |].
    destruct (p x) eqn:Hp; [| discriminate].
    intros H. exists [x], s, g. split; [reflexivity |].
    split; [constructor; exact Hp | exact H].
  - intros H. apply IH1 in H as (w1 & s1 & g1 & -> & Hm1 & H).
    apply IH2 in H as (w2 & s2 & g2 & -> & Hm2 & H).
    exists (w1 ++ w2), s2, g2. split; [apply app_assoc |].
    split; [econstructor; eassumption | exact H].
  - unfold orelse. destruct (rmatch r1 s g k) as [res' |] eqn:E1.
    + intros [= <-]. apply IH1 in E1 as (w & s' & g' & -> & Hm & H).
      exists w, s', g'. split; [reflexivity |]. split; [apply MAltL, Hm | exact H].
    + intros E2. apply IH2 in E2 as (w & s' & g' & -> & Hm & H).
      exists w, s', g'. split; [reflexivity |]. split; [apply MAltR, Hm | exact H].
  - apply star_loop_sound, IH.
  - intros H. apply IH in H as (w & s' & g' & -> & Hm & H).
    rewrite take_consumed in H.
    exists w, s', (<[name := w]> g'). split; [reflexivity |].
    split; [constructor; exact Hm | exact H].
  - destruct (g !! name) as [v |] eqn:Hv; [| discriminate].
    destruct (starts_with v s) eqn:Hs; [| discriminate].
    intros H. exists v, (drop (length v) s), g.
    split; [apply starts_with_spec, Hs |]. split; [constructor; exact Hv | exact H].
  - destruct (g !! name) as [v |] eqn:Hv; intros H.
    + apply IHy in H as (w & s' & g' & -> & Hm & H).
      exists w, s', g'. split; [reflexivity |].
      split; [eapply MCondYes; eassumption | exact H].
    + apply IHn in H as (w & s' & g' & -> & Hm & H).
      exists w, s', g'. split; [reflexivity |].
      split; [eapply MCondNo; eassumption | exact H].
Qed.

(** ** What the parts of [FORMATTED_CODE_REGEX] match *)

Ltac invert_match :=
  match goal with
  | H : matches REmpty _ _ _ |- _ => inversion H; subst; clear H
  | H : matches (RChar _) _ _ _ |- _ => inversion H; subst; clear H
  | H : matches (RSet _) _ _ _ |- _ => inversion H; subst; clear H
  | H : matches (RSeq _ _) _ _ _ |- _ => inversion H; subst; clear H
  | H : matches (RAlt _ _) _ _ _ |- _ => inversion H; subst; clear H
  | H : matches (ROpt _) _ _ _ |- _ => inversion H; subst; clear H
  | H : matches (RGroup _ _) _ _ _ |- _ => inversion H; subst; clear H
  | H : matches (RBackref _) _ _ _ |- _ => inversion H; subst; clear H
  | H : matches (RCond _ _ _) _ _ _ |- _ => inversion H; subst; clear H
  end.

Lemma matches_set_star (greedy : bool) (p : N -> bool) w g g' :
  matches (RStar greedy (RSet p)) w g g' ->
  Forall (fun c => p c = true) w /\ g' = g.
Proof.
  remember (RStar greedy (RSet p)) as r eqn:Er. intros H.
  induction H; try discriminate.
  - split; [constructor | reflexivity].
  - injection Er as -> ->. invert_match.
    destruct (IHmatches2 eq_refl) as [Hall ->].
    split; [constructor; assumption | reflexivity].
Qed.

Lemma matches_delim w g g' :
  matches RE_DELIM w g g' ->
  (w = TRIPLE /\ g' = <["delim" := w]> (<["block" := w]> g))
  \/ ((w = [BACKTICK] \/ w = [BACKTICK; BACKTICK]) /\ g' = <["delim" := w]> g).
Proof.
  unfold RE_DELIM, RLit. intros H. repeat invert_match.
  - left. split; reflexivity.
  - right. split; [right; reflexivity | reflexivity].
  - right. split; [left; reflexivity | reflexivity].
Qed.

Lemma matches_lang w g g' :
  matches RE_LANG w g g' ->
  (w = [] /\ g' = g)
  \/ (is_Some (g !! "block")
      /\ exists letters,
           letters <> [] /\ Forall (fun c => is_letter c = true) letters
           /\ w = letters ++ [NEWLINE] /\ g' = <["lang" := letters]> g).
Proof.
  unfold RE_LANG, RPlus. intros H. repeat invert_match; auto.
  right. split; [eexists; eassumption |].
  match goal with
  | H : matches (RStar _ _) _ _ _ |- _ =>
      apply matches_set_star in H as [Hall ->]
  end.
  eexists (_ :: _). split; [discriminate |].
  split; [constructor; eassumption |]. split; reflexivity.
Qed.

Lemma matches_blank_lines w g g' :
  matches RE_BLANK_LINES w g g' -> blank_lines w /\ g' = g.
Proof.
  unfold RE_BLANK_LINES.
  remember (RStar true (RSeq (RStar true (RSet is_blank)) (RChar NEWLINE))) as r eqn:Er.
  intros H. induction H; try discriminate.
  - split; [constructor | reflexivity].
  - injection Er as -> ->. repeat invert_match.
    match goal with
    | H : matches (RStar _ (RSet _)) _ _ _ |- _ =>
        apply matches_set_star in H as [Hall ->]
    end.
    destruct (IHmatches2 eq_refl) as [Hmore ->].
    split; [| reflexivity].
    rewrite <- app_assoc. apply BlankLine; assumption.
Qed.

Lemma matches_code w g g' :
  matches RE_CODE w g g' -> g' = <["code" := w]> g.
Proof.
  unfold RE_CODE. intros H. invert_match.
  match goal with
  | H : matches (RStar _ (RSet _)) _ _ _ |- _ =>
      apply matches_set_star in H as [_ ->]
  end.
  reflexivity.
Qed.

Lemma matches_trailing w g g' :
  matches RE_TRAILING w g g' -> spaces w /\ g' = g.
Proof. apply matches_set_star. Qed.

Lemma matches_close w g g' :
  matches RE_CLOSE w g g' -> g !! "delim" = Some w /\ g' = g.
Proof. unfold RE_CLOSE. intros H. invert_match. auto. Qed.

(** Every match of the pattern is a well-formed fence, and its groups
    [delim] and [code] hold the delimiter and the code of that fence. *)
Lemma matches_fence w g :
  matches FORMATTED_CODE_REGEX w ∅ g ->
  exists d l b c t,
    w = fence_text d l b c t /\ well_formed_fence d l b t
    /\ g !! "code" = Some c /\ g !! "delim" = Some d.
Proof.
  unfold FORMATTED_CODE_REGEX. intros H.
  inversion H as [| | | ? ? d w1 ? g1 ? Hd H1 | | | | | | | |]; subst; clear H.
  inversion H1 as [| | | ? ? l w2 ? g2 ? Hl H2 | | | | | | | |]; subst; clear H1.
  inversion H2 as [| | | ? ? b w3 ? g3 ? Hb H3 | | | | | | | |]; subst; clear H2.
  inversion H3 as [| | | ? ? c w4 ? g4 ? Hc H4 | | | | | | | |]; subst; clear H3.
  inversion H4 as [| | | ? ? t w5 ? g5 ? Ht H5 | | | | | | | |]; subst; clear H4.
  apply matches_blank_lines in Hb as [Hb ->].
  apply matches_code in Hc as ->.
  apply matches_trailing in Ht as [Ht ->].
  apply matches_close in H5 as [Hclose ->].
  rewrite lookup_insert_ne in Hclose by discriminate.
  assert (g1 !! "delim" = Some d /\ is_delimiter d
          /\ (is_Some (g1 !! "block") -> d = TRIPLE)) as (Hgd & Hdel & Hblock).
  { apply matches_delim in Hd as [[-> ->] | [Hw ->]].
    - rewrite lookup_insert_eq. split; [reflexivity |].
      split; [right; right; reflexivity | reflexivity].
    - rewrite lookup_insert_eq. split; [reflexivity |].
      split; [destruct Hw; [left | right; left]; assumption |].
      rewrite lookup_insert_ne, lookup_empty by discriminate.
      intros [? [=]]. }
  assert (g2 !! "delim" = Some d /\ language_line d l) as (Hgd2 & Hlang).
  { apply matches_lang in Hl as [[-> ->] | (Hsome & letters & Hne & Hall & -> & ->)].
    - split; [assumption | left; reflexivity].
    - rewrite lookup_insert_ne by discriminate. split; [assumption |].
      right. split; [apply Hblock, Hsome |]. exists letters. auto. }
  rewrite Hgd2 in Hclose. injection Hclose as <-.
  exists d, l, b, c, t. split; [reflexivity |].
  split; [repeat split; assumption |].
  split; [apply lookup_insert_eq |].
  rewrite lookup_insert_ne by discriminate. assumption.
Qed.

(** The same for [re_match]: the matched prefix of the text is a fence. *)
Lemma re_match_fence text e g :
  re_match FORMATTED_CODE_REGEX text = Some (e, g) ->
  exists d l b c t,
    text = fence_text d l b c t ++ drop e text
    /\ e = length (fence_text d l b c t)
    /\ well_formed_fence d l b t
    /\ g !! "code" = Some c /\ g !! "delim" = Some d.
Proof.
  unfold re_match.
  destruct (rmatch FORMATTED_CODE_REGEX text ∅ accept)
    as [[rest g0] |] eqn:E; [| discriminate].
  intros [= <- <-].
  apply rmatch_sound in E as (w & s' & g' & -> & Hm & [= <- <-]).
  apply matches_fence in Hm as (d & l & b & c & t & -> & Hwf & Hc & Hd).
  exists d, l, b, c, t.
  rewrite length_app.
  replace (length (fence_text d l b c t) + length s' - length s')%nat
    with (length (fence_text d l b c t)) by lia.
  rewrite drop_app_length. auto.
Qed.

(** ** The matcher finds a match where there is one *)

Lemma orelse_left {A} (x y : option A) : x <> None -> orelse x y <> None.
Proof. destruct x; [intros _; discriminate | contradiction]. Qed.

Lemma orelse_right {A} (x y : option A) : y <> None -> orelse x y <> None.
Proof. destruct x; [intros _; discriminate | auto]. Qed.

Lemma matches_complete r w g g' : matches r w g g' -> complete_at r w g g'.
Proof.
  induction 1 as
    [ g | c g | p x g Hp
    | r1 r2 w1 w2 g g1 g2 _ [IH1 _] _ [IH2 _]
    | r1 r2 w g g' _ [IH _] | r1 r2 w g g' _ [IH _]
    | greedy r g
    | greedy r w1 w2 g g1 g2 _ [IH1 _] Hne _ [_ IH2]
    | name r w g g' _ [IH _]
    | name v g Hv
    | name ry rn v w g g' Hv _ [IH _]
    | name ry rn w g g' Hv _ [IH _] ].
  - split; [| discriminate]. intros s' k Hk. exact Hk.
  - split; [| discriminate]. intros s' k Hk. cbn [rmatch app].
    rewrite N.eqb_refl. exact Hk.
  - split; [| discriminate]. intros s' k Hk. cbn [rmatch app].
    rewrite Hp. exact Hk.
  - split; [| discriminate]. intros s' k Hk. cbn [rmatch].
    rewrite <- app_assoc. apply IH1, IH2, Hk.
  - split; [| discriminate]. intros s' k Hk. cbn [rmatch].
    apply orelse_left, IH, Hk.
  - split; [| discriminate]. intros s' k Hk. cbn [rmatch].
    apply orelse_right, IH, Hk.
  - assert (forall n s' k, (length ([] ++ s') < n)%nat -> k s' g <> None ->
              star_loop (rmatch r) greedy k n ([] ++ s') g <> None) as Hloop.
    { intros [| n] s' k Hn Hk; [lia |]. cbn [star_loop app].
      destruct greedy; [apply orelse_right | apply orelse_left]; exact Hk. }
    split.
    + intros s' k Hk. cbn [rmatch]. apply Hloop; [lia | exact Hk].
    + intros greedy' r1 [= -> ->]. exact Hloop.
  - assert (forall n s' k, (length ((w1 ++ w2) ++ s') < n)%nat -> k s' g2 <> None ->
              star_loop (rmatch r) greedy k n ((w1 ++ w2) ++ s') g <> None) as Hloop.
    { intros [| n] s' k Hn Hk; [lia |]. cbn [star_loop].
      assert (rmatch r ((w1 ++ w2) ++ s') g
                (fun s1 g1 =>
                   if (length s1 <? length ((w1 ++ w2) ++ s'))%nat
                   then star_loop (rmatch r) greedy k n s1 g1 else None)
              <> None) as Hagain.
      { rewrite <- app_assoc. apply IH1.
        assert (length (w2 ++ s') < length (w1 ++ w2 ++ s'))%nat as Hlt.
        { rewrite (length_app w1). destruct w1; [contradiction | simpl; lia]. }
        rewrite (proj2 (Nat.ltb_lt _ _) Hlt).
        apply (IH2 greedy r eq_refl); [| exact Hk].
        rewrite <- app_assoc in Hn. lia. }
      destruct greedy; [apply orelse_left | apply orelse_right]; exact Hagain. }
    split.
    + intros s' k Hk. cbn [rmatch]. apply Hloop; [lia | exact Hk].
    + intros greedy' r1 [= -> ->]. exact Hloop.
  - split; [| discriminate]. intros s' k Hk. cbn [rmatch].
    apply IH. rewrite take_consumed. exact Hk.
  - split; [| discriminate]. intros s' k Hk. cbn [rmatch]. rewrite Hv.
    assert (starts_with v (v ++ s') = true) as ->.
    { clear. induction v as [| x v IH]; [reflexivity |].
      cbn [starts_with app]. rewrite N.eqb_refl. exact IH. }
    rewrite drop_app_length. exact Hk.
  - split; [| discriminate]. intros s' k Hk. cbn [rmatch]. rewrite Hv.
    apply IH, Hk.
  - split; [| discriminate]. intros s' k Hk. cbn [rmatch]. rewrite Hv.
    apply IH, Hk.
Qed.

Lemma matches_star_of_set (greedy : bool) (p : N -> bool) w g :
  Forall (fun c => p c = true) w -> matches (RStar greedy (RSet p)) w g g.
Proof.
  induction 1 as [| x w Hx _ IH]; [constructor |].
  change (x :: w) with ([x] ++ w).
  apply MStarMore with g; [constructor; exact Hx | discriminate | exact IH].
Qed.

Lemma matches_of_blank_lines b g : blank_lines b -> matches RE_BLANK_LINES b g g.
Proof.
  induction 1 as [| blanks more Hblanks _ IH]; [constructor |].
  rewrite app_assoc.
  apply MStarMore with g; [| destruct blanks; discriminate | exact IH].
  apply MSeq with g; [apply matches_star_of_set, Hblanks | constructor].
Qed.

Lemma matches_of_delimiter d :
  is_delimiter d ->
  exists g, matches RE_DELIM d ∅ g /\ g !! "delim" = Some d
            /\ (d = TRIPLE -> is_Some (g !! "block")).
Proof.
  unfold RE_DELIM. intros [-> | [-> | ->]].
  - eexists. split; [| split; [apply lookup_insert_eq | discriminate]].
    apply MGroup, MAltR.
    change [BACKTICK] with ([BACKTICK] ++ []).
    econstructor; [constructor | apply MAltR; constructor].
  - eexists. split; [| split; [apply lookup_insert_eq | discriminate]].
    apply MGroup, MAltR.
    change [BACKTICK; BACKTICK] with ([BACKTICK] ++ [BACKTICK]).
    econstructor; [constructor | apply MAltL; constructor].
  - eexists. split; [| split; [apply lookup_insert_eq |]].
    + apply MGroup, MAltL, MGroup.
      change TRIPLE with ([BACKTICK] ++ [BACKTICK] ++ [BACKTICK] ++ []).
      repeat (econstructor; [constructor |]). constructor.
    + intros _. rewrite lookup_insert_ne by discriminate.
      rewrite lookup_insert_eq. eexists; reflexivity.
Qed.

Lemma matches_of_language_line d l g :
  language_line d l -> (d = TRIPLE -> is_Some (g !! "block")) ->
  g !! "delim" = Some d ->
  exists g', matches RE_LANG l g g' /\ g' !! "delim" = Some d.
Proof.
  unfold RE_LANG. intros [-> | (-> & letters & Hne & Hall & ->)] Hblock Hd.
  - exists g. split; [| exact Hd].
    destruct (g !! "block") as [v |] eqn:Hb.
    + eapply MCondYes; [exact Hb | apply MAltR; constructor].
    + apply MCondNo; [exact Hb | constructor].
  - destruct (Hblock eq_refl) as [v Hb].
    exists (<["lang" := letters]> g).
    split; [| rewrite lookup_insert_ne by discriminate; exact Hd].
    eapply MCondYes; [exact Hb |]. apply MAltL.
    econstructor; [| constructor]. apply MGroup.
    destruct letters as [| x letters]; [contradiction |].
    apply Forall_cons in Hall as [Hx Hall].
    change (x :: letters) with ([x] ++ letters).
    econstructor; [constructor; exact Hx | apply matches_star_of_set, Hall].
Qed.

Lemma fence_matches d l b c t :
  well_formed_fence d l b t ->
  exists g, matches FORMATTED_CODE_REGEX (fence_text d l b c t) ∅ g.
Proof.
  intros (Hd & Hl & Hb & Ht).
  destruct (matches_of_delimiter d Hd) as (g1 & Hm1 & Hg1 & Hblock).
  destruct (matches_of_language_line d l g1 Hl Hblock Hg1) as (g2 & Hm2 & Hg2).
  exists (<["code" := c]> g2).
  unfold FORMATTED_CODE_REGEX, fence_text.
  econstructor; [exact Hm1 |].
  econstructor; [exact Hm2 |].
  econstructor; [apply matches_of_blank_lines, Hb |].
  econstructor.
  { apply MGroup, matches_star_of_set. apply Forall_forall. reflexivity. }
  econstructor; [apply matches_star_of_set, Ht |].
  constructor. rewrite lookup_insert_ne by discriminate. exact Hg2.
Qed.

Lemma fence_is_matched d l b c t rest :
  well_formed_fence d l b t ->
  re_match FORMATTED_CODE_REGEX (fence_text d l b c t ++ rest) <> None.
Proof.
  intros Hwf. destruct (fence_matches d l b c t Hwf) as (g & Hm).
  unfold re_match.
  destruct (rmatch FORMATTED_CODE_REGEX (fence_text d l b c t ++ rest) ∅
              accept) as [[s' g'] |] eqn:E; [discriminate |].
  exfalso. revert E.
  apply (proj1 (matches_complete _ _ _ _ Hm)). discriminate.
Qed.

(** ** A fence between single backticks, and what follows it *)

Lemma close_fails_on (y : N) s (g : groups) :
  y <> BACKTICK -> g !! "delim" = Some [BACKTICK] ->
  rmatch RE_CLOSE (y :: s) g accept = None.
Proof.
  intros Hy Hg. unfold RE_CLOSE. cbn [rmatch]. rewrite Hg.
  cbn [starts_with]. destruct (N.eqb_spec BACKTICK y); [congruence | reflexivity].
Qed.

Lemma star_loop_S body greedy k n s g :
  star_loop body greedy k (S n) s g
  = (if greedy
     then orelse (body s g (fun s1 g1 =>
                    if (length s1 <? length s)%nat
                    then star_loop body greedy k n s1 g1 else None))
                 (k s g)
     else orelse (k s g)
                 (body s g (fun s1 g1 =>
                    if (length s1 <? length s)%nat
                    then star_loop body greedy k n s1 g1 else None))).
Proof. reflexivity. Qed.

Lemma rmatch_set_cons p x s g k :
  rmatch (RSet p) (x :: s) g k = if p x then k s g else None.
Proof. reflexivity. Qed.

Lemma trailing_close_fails u :
  no_close u ->
  forall n rest (g : groups),
    g !! "delim" = Some [BACKTICK] ->
    star_loop (rmatch (RSet is_space)) true
      (fun s1 g1 => rmatch RE_CLOSE s1 g1 accept) n (u ++ BACKTICK :: rest) g = None.
Proof.
  induction 1 as [z Hz Hs | y u Hy Hu IH]; intros [| n] rest g Hg; try reflexivity.
  - rewrite star_loop_S. cbn [app]. rewrite rmatch_set_cons, Hs. cbn [orelse].
    apply close_fails_on; assumption.
  - rewrite star_loop_S. cbn [app]. rewrite rmatch_set_cons.
    rewrite (IH n rest g Hg).
    rewrite close_fails_on by assumption.
    destruct (is_space y); [| reflexivity].
    destruct (_ <? _)%nat; reflexivity.
Qed.

Lemma trailing_close_succeeds n rest (g : groups) :
  g !! "delim" = Some [BACKTICK] ->
  star_loop (rmatch (RSet is_space)) true
    (fun s1 g1 => rmatch RE_CLOSE s1 g1 accept) (S n) (BACKTICK :: rest) g
  = Some (rest, g).
Proof.
  intros Hg. rewrite star_loop_S, rmatch_set_cons.
  change (is_space BACKTICK) with false. cbn [orelse].
  unfold RE_CLOSE. cbn [rmatch]. rewrite Hg. reflexivity.
Qed.

Lemma lazy_scan (k : pystr -> groups -> option mstate)
    u tail (g : groups) res :
  (forall v, v <> [] -> v `suffix_of` u -> k (v ++ tail) g = None) ->
  k tail g = Some res ->
  forall n, (length (u ++ tail) < n)%nat ->
  star_loop (rmatch (RSet any_char)) false k n (u ++ tail) g = Some res.
Proof.
  induction u as [| y u IH]; intros Hfail Hk [| n] Hn; try (simpl in Hn; lia).
  - rewrite star_loop_S. cbn [app]. rewrite Hk. reflexivity.
  - rewrite star_loop_S. rewrite (Hfail (y :: u)) by (try discriminate; reflexivity).
    cbn [orelse app]. rewrite rmatch_set_cons. cbn [any_char].
    replace (length (u ++ tail) <? length (y :: u ++ tail))%nat with true
      by (symmetry; apply Nat.ltb_lt; simpl; lia).
    apply IH; [| assumption | simpl in Hn; lia].
    intros v Hv Hsuf. apply Hfail; [assumption |]. apply suffix_cons_r, Hsuf.
Qed.

Lemma is_blank_is_space x : is_space x = false -> is_blank x = false.
Proof.
  unfold is_space, is_blank. intros H.
  destruct (N.eqb_spec x 32) as [-> |]; [discriminate H |].
  destruct (N.eqb_spec x 9) as [-> |]; [discriminate H |]. reflexivity.
Qed.

Lemma newline_is_space x : is_space x = false -> N.eqb x NEWLINE = false.
Proof.
  intros H. destruct (N.eqb_spec x NEWLINE) as [-> |]; [discriminate H | reflexivity].
Qed.

Lemma no_close_suffix u v :
  no_close u -> v <> [] -> v `suffix_of` u -> no_close v.
Proof.
  intros Hu. revert v.
  induction Hu as [z Hz Hs | y u Hy Hu IH]; intros [| a v] Hv Hsuf;
    try contradiction.
  - apply suffix_cons_inv in Hsuf as [-> | Hsuf]; [constructor; assumption |].
    apply suffix_nil_inv in Hsuf. contradiction.
  - apply suffix_cons_inv in Hsuf as [-> | Hsuf]; [constructor; assumption |].
    apply IH; assumption.
Qed.

Lemma blank_lines_skip x s g k :
  is_space x = false -> rmatch RE_BLANK_LINES (x :: s) g k = k (x :: s) g.
Proof.
  intros Hx. unfold RE_BLANK_LINES. cbn [rmatch].
  rewrite star_loop_S. cbv beta iota.
  rewrite star_loop_S. cbv beta iota.
  rewrite (is_blank_is_space x Hx). cbn [orelse].
  rewrite (newline_is_space x Hx). reflexivity.
Qed.

Lemma single_backtick x c1 rest :
  is_space x = false -> no_close (x :: c1) ->
  rmatch FORMATTED_CODE_REGEX (BACKTICK :: (x :: c1) ++ BACKTICK :: rest) ∅ accept
  = Some (rest, <["code" := x :: c1]> (<["delim" := [BACKTICK]]> ∅)).
Proof.
  intros Hx Hc.
  assert (x <> BACKTICK) as Hbt by (inversion Hc; assumption).
  unfold FORMATTED_CODE_REGEX.
  cbn [rmatch RE_DELIM RLit ROpt app].
  rewrite N.eqb_refl.
  replace (N.eqb x BACKTICK) with false by (symmetry; apply N.eqb_neq; assumption).
  cbn [orelse].
  change (BACKTICK :: x :: c1 ++ BACKTICK :: rest)
    with ([BACKTICK] ++ (x :: c1 ++ BACKTICK :: rest)).
  rewrite take_consumed.
  set (g := <["delim" := [BACKTICK]]> (∅ : groups)).
  assert (g !! "delim" = Some [BACKTICK]) as Hg by apply lookup_insert_eq.
  cbn [rmatch RE_LANG].
  assert (g !! "block" = None) as ->
    by (subst g; rewrite lookup_insert_ne by discriminate; apply lookup_empty).
  rewrite blank_lines_skip by assumption.
  unfold RE_CODE, RE_TRAILING. cbn [rmatch].
  change (x :: c1 ++ BACKTICK :: rest) with ((x :: c1) ++ BACKTICK :: rest).
  apply lazy_scan.
  - intros v Hv Hsuf.
    apply trailing_close_fails; [eapply no_close_suffix; eassumption |].
    rewrite lookup_insert_ne by discriminate. exact Hg.
  - rewrite take_consumed. cbn [length].
    apply trailing_close_succeeds.
    rewrite lookup_insert_ne by discriminate. exact Hg.
  - lia.
Qed.

Lemma no_close_of_plain (c2 : pystr) (z : N) :
  Forall (fun a => a <> BACKTICK) (c2 ++ [z]) -> is_space z = false ->
  no_close (c2 ++ [z]).
Proof.
  intros Hall Hz. induction c2 as [| y c2 IH]; cbn [app] in *.
  - apply Forall_cons in Hall as [Hbt _]. constructor; assumption.
  - apply Forall_cons in Hall as [Hy Hall]. constructor; auto.
Qed.

Lemma prepare_input_of_match text e g :
  re_match FORMATTED_CODE_REGEX text = Some (e, g) ->
  exists d l b c t,
    text = fence_text d l b c t ++ drop e text
    /\ e = length (fence_text d l b c t)
    /\ well_formed_fence d l b t
    /\ _prepare_input text = c.
Proof.
  intros H. destruct (re_match_fence text e g H)
    as (d & l & b & c & t & Htext & He & Hwf & Hc & _).
  exists d, l, b, c, t. repeat (split; [assumption |]).
  unfold _prepare_input, group. rewrite H, Hc. reflexivity.
Qed.

(** ** C3: what [_prepare_input] strips *)



Lemma match_covers_code text e g :
  re_match FORMATTED_CODE_REGEX text = Some (e, g) ->
  (length (_prepare_input text) + 2 <= e <= length text)%nat.
Proof.
  intros H.
  destruct (prepare_input_of_match text e g H)
    as (d & l & b & c & t & Htext & He & (Hd & _) & ->).
  apply (f_equal length) in Htext. rewrite length_app, <- He in Htext.
  unfold fence_text in He. rewrite !length_app in He.
  assert (1 <= length d)%nat
    by (destruct Hd as [-> | [-> | ->]]; simpl; lia).
  lia.
Qed.

(** ** C9: what follows the fence *)

(** C9. The pattern need not reach the end of the input.  When it matches
    and text is left after the closing delimiter, [_prepare_input]
    returns the code of the fence only: the input is the opening part of
    the fence, the result, the closing part of the fence, and the text
    that was left, which is not empty and is not in the result; and the
    result is not the input.  Every input that begins with a well-formed
    fence, whatever follows it, is so reduced to the code of a fence at
    its front, and is never returned unchanged.  In particular a body
    without backticks that neither starts nor ends with whitespace, put
    between single backticks, is returned alone whatever text follows the
    closing backtick. *)
Theorem prepare_input_discards_trailing_text :
  (forall text e g,
     re_match FORMATTED_CODE_REGEX text = Some (e, g) ->
     (e < length text)%nat ->
     exists opening closing,
       text = opening ++ _prepare_input text ++ closing ++ drop e text
       /\ opening <> [] /\ closing <> [] /\ drop e text <> []
       /\ length (opening ++ _prepare_input text ++ closing) = e
       /\ _prepare_input text <> text)
  /\ (forall d l b c t rest,
        well_formed_fence d l b t ->
        let text := fence_text d l b c t ++ rest in
        exists d' l' b' c' t' rest',
          text = fence_text d' l' b' c' t' ++ rest'
          /\ well_formed_fence d' l' b' t'
          /\ _prepare_input text = c'
          /\ _prepare_input text <> text)
  /\ (forall c rest x c1 c2 z,
        c = x :: c1 -> c = c2 ++ [z] ->
        Forall (fun a => a <> BACKTICK) c ->
        is_space x = false -> is_space z = false ->
        _prepare_input ([BACKTICK] ++ c ++ [BACKTICK] ++ rest) = c)
  /\ _prepare_input (py "`code` trailing words") = py "code".
Proof.
  assert (forall text e g,
            re_match FORMATTED_CODE_REGEX text = Some (e, g) ->
            _prepare_input text <> text) as Hchanged.
  { intros text e g H Heq. apply match_covers_code in H.
    rewrite Heq in H. lia. }
  split; [| split; [| split]].
  - intros text e g H Hlt.
    destruct (prepare_input_of_match text e g H)
      as (d & l & b & c & t & Htext & He & (Hd & _) & Hc).
    assert (d <> []) as Hdne by (destruct Hd as [-> | [-> | ->]]; discriminate).
    assert (fence_text d l b c t = (d ++ l ++ b) ++ c ++ t ++ d) as Hshape
      by (unfold fence_text; rewrite <- !app_assoc; reflexivity).
    exists (d ++ l ++ b), (t ++ d).
    split; [| split; [| split; [| split; [| split]]]].
    + rewrite Htext at 1. rewrite Hc, Hshape, <- !app_assoc. reflexivity.
    + destruct d; [contradiction | discriminate].
    + destruct t; [destruct d; [contradiction | discriminate] | discriminate].
    + intros Hnil. apply (f_equal length) in Hnil.
      rewrite length_drop in Hnil. simpl in Hnil. lia.
    + rewrite Hc, He, Hshape, <- !app_assoc. reflexivity.
    + exact (Hchanged text e g H).
  - intros d l b c t rest Hwf text.
    destruct (re_match FORMATTED_CODE_REGEX text) as [[e g] |] eqn:H;
      [| destruct (fence_is_matched d l b c t rest Hwf H)].
    destruct (prepare_input_of_match text e g H)
      as (d' & l' & b' & c' & t' & Htext & _ & Hwf' & Hc).
    exists d', l', b', c', t', (drop e text).
    split; [exact Htext |]. split; [exact Hwf' |]. split; [exact Hc |].
    exact (Hchanged text e g H).
  - intros c rest x c1 c2 z Hhead Hlast Hall Hx Hz.
    assert (no_close c) as Hc
      by (rewrite Hlast in *; apply no_close_of_plain; assumption).
    subst c. cbn [app].
    unfold _prepare_input, re_match.
    change (BACKTICK :: x :: c1 ++ BACKTICK :: rest)
      with (BACKTICK :: (x :: c1) ++ BACKTICK :: rest).
    rewrite (single_backtick x c1 rest Hx Hc).
    unfold group. rewrite lookup_insert_eq. reflexivity.
  - vm_compute. reflexivity.
Qed.

Lemma prepare_input_discards_trailing_text_witness :
  (exists opening closing,
     py "`` a b `` and more"
     = opening ++ _prepare_input (py "`` a b `` and more") ++ closing
       ++ drop 9 (py "`` a b `` and more")
     /\ opening <> [] /\ closing <> [] /\ drop 9 (py "`` a b `` and more") <> []
     /\ length (opening ++ _prepare_input (py "`` a b `` and more") ++ closing)
        = 9%nat
     /\ _prepare_input (py "`` a b `` and more") <> py "`` a b `` and more")
  /\ (let text := fence_text (py "``") [] [] (py "x") (py " ") ++ py "tail" in
      exists d' l' b' c' t' rest',
        text = fence_text d' l' b' c' t' ++ rest'
        /\ well_formed_fence d' l' b' t'
        /\ _prepare_input text = c'
        /\ _prepare_input text <> text)
  /\ _prepare_input ([BACKTICK] ++ py "x + y" ++ [BACKTICK] ++ py " please")
     = py "x + y".
Proof.
  assert (re_match FORMATTED_CODE_REGEX (py "`` a b `` and more")
          = Some (9%nat, <["code" := py " a b"]> (<["delim" := py "``"]> ∅)))
    as H1 by (vm_compute; reflexivity).
  assert (9 < length (py "`` a b `` and more"))%nat as H2 by (vm_compute; lia).
  assert (well_formed_fence (py "``") [] [] (py " ")) as H3.
  { split; [right; left; reflexivity |]. split; [left; reflexivity |].
    split; [constructor |]. repeat constructor. }
  assert (py "x + y" = 120 :: py " + y") as H4 by reflexivity.
  assert (py "x + y" = py "x + " ++ [121]) as H5 by reflexivity.
  assert (Forall (fun a => a <> BACKTICK) (py "x + y")) as H6
    by (repeat constructor; discriminate).
  destruct prepare_input_discards_trailing_text as (Hmatch & Hfence & Hplain & _).
  split; [exact (Hmatch _ _ _ H1 H2) |].
  split; [exact (Hfence _ _ _ (py "x") _ (py "tail") H3) |].
  exact (Hplain (py "x + y") (py " please") 120 (py " + y") (py "x + ") 121
           H4 H5 H6 eq_refl eq_refl).
Defined.

(** Which fence is found depends on what follows: two backticks alone are
    an empty fence, and followed by a backtick they open a longer one. *)
Remark fence_found_depends_on_what_follows :
  _prepare_input (py "``") = []
  /\ _prepare_input (py "``" ++ py "`x```") = py "x".
Proof. split; vm_compute; reflexivity. Qed.

(** ** The digest of the cache key, on the test suite of RFC 1321 *)

Example md5_of_empty :
  md5_hexdigest [] = py "d41d8cd98f00b204e9800998ecf8427e".
Proof. vm_compute. reflexivity. Qed.

Example md5_of_abc :
  option_map md5_hexdigest (encode (py "abc"))
  = Some (py "900150983cd24fb0d6963f7d28e17f72").
Proof. vm_compute. reflexivity. Qed.

Example md5_of_eighty_digits :
  option_map md5_hexdigest
    (encode (py "12345678901234567890123456789012345678901234567890123456789012345678901234567890"))
  = Some (py "57edf4a22be3c955ac49da2e2107b67a").
Proof. vm_compute. reflexivity. Qed.

(** [str.encode()] on one, two, three and four bytes, and on a surrogate. *)
Example encode_widths :
  encode [97; 233; 8364; 128512]
  = Some [Byte.x61; Byte.xc3; Byte.xa9; Byte.xe2; Byte.x82; Byte.xac;
          Byte.xf0; Byte.x9f; Byte.x98; Byte.x80]
  /\ encode [55296] = None.
Proof. split; vm_compute; reflexivity. Qed.

(** * More of the command *)

(** ** Every way the render client ends *)

Lemma generate_image_ends (net : network) (document out_file : pystr)
    (fs : filesystem) :
  exists r fs' t,
    _generate_image net document out_file fs = (r, fs', t)
    /\ render_outcome net document out_file fs r fs' t.
Proof.
  destruct (render_post net LATEX_API_URL (png_payload document))
    as [status | [[d |] |]] eqn:Hp.
  - eexists _, _, _. split; [apply generate_image_post_error, Hp |].
    apply RenderPostError, Hp.
  - destruct (d !! py "status") as [status |] eqn:Hs.
    + destruct (decide (status = py "success")) as [-> | Hne].
      * destruct (d !! py "filename") as [filename |] eqn:Hf.
        -- destruct (render_get net (artifact_url filename) (png_payload document))
             as [code | image] eqn:Hg.
           ++ eexists _, _, _.
              split; [eapply generate_image_get_error; eassumption |].
              eapply RenderGetError; eassumption.
           ++ eexists _, _, _.
              split; [eapply generate_image_success; eassumption |].
              eapply RenderSuccess; eassumption.
        -- eexists _, _, _. split; [| eapply RenderNoFilename; eassumption].
           unfold _generate_image. fold (png_payload document).
           run. rewrite Hp. run. rewrite Hs. run.
           rewrite bool_decide_eq_true_2 by reflexivity.
           run. rewrite Hf. reflexivity.
      * destruct (d !! py "log") as [logs |] eqn:Hl.
        -- eexists _, _, _.
           split; [eapply generate_image_invalid; eassumption |].
           eapply RenderInvalid; eassumption.
        -- eexists _, _, _. split; [| eapply RenderNoLog; eassumption].
           unfold _generate_image. fold (png_payload document).
           run. rewrite Hp. run. rewrite Hs. run.
           rewrite bool_decide_eq_false_2 by assumption.
           rewrite Hl. reflexivity.
    + eexists _, _, _. split; [| eapply RenderNoStatus; eassumption].
      unfold _generate_image. fold (png_payload document).
      run. rewrite Hp. run. rewrite Hs. reflexivity.
  - eexists _, _, _. split; [| apply RenderNotObject, Hp].
    unfold _generate_image. fold (png_payload document).
    run. rewrite Hp. reflexivity.
  - eexists _, _, _. split; [| apply RenderNotJson, Hp].
    unfold _generate_image. fold (png_payload document).
    run. rewrite Hp. reflexivity.
Qed.

Lemma substitute_raises (t : template) (text : pystr) (e : exn) :
  substitute t text = Raise e ->
  (exists name, e = KeyError name /\ name <> py "text") \/ e = ValueError.
Proof.
  induction t as [| part t IH]; unfold substitute; [discriminate |].
  fold substitute. destruct part as [s | name |]; cbv beta iota zeta.
  - destruct (substitute t text); [discriminate | exact IH].
  - case_bool_decide as Hname.
    + destruct (substitute t text); [discriminate | exact IH].
    + intros [= <-]. left. exists name. auto.
  - intros [= <-]. right. reflexivity.
Qed.

(** ** Every way the command ends *)

Lemma latex_outcome_of_run (net : network) (TEMPLATE : template) (ctx : channel)
    (raw : pystr) (fs : filesystem) :
  exists r fs' tr,
    latex net TEMPLATE ctx raw fs = (r, fs', tr)
    /\ latex_outcome net TEMPLATE ctx raw fs r fs' tr.
Proof.
  destruct (image_path_of (_prepare_input raw)) as [path | e] eqn:Hpath.
  2:{ unfold image_path_of in Hpath.
      destruct (encode (_prepare_input raw)) eqn:He;
        cbv beta iota in Hpath; [discriminate |].
      injection Hpath as <-.
      eexists _, _, _. split; [| apply LatexNotEncodable, He].
      unfold latex, image_path_of. rewrite He. reflexivity. }
  destruct (fs !! path) as [content |] eqn:Hfs.
  { rewrite (latex_hit net TEMPLATE ctx raw path fs content Hpath Hfs).
    destruct (send ctx (File (py "latex.png") content)) as [| refusal] eqn:Hsend;
      eexists _, _, _; (split; [reflexivity |]).
    - eapply LatexCached; eassumption.
    - eapply LatexCachedRefused; eassumption. }
  destruct (substitute TEMPLATE (_prepare_input raw)) as [document | e] eqn:Hdoc.
  2:{ eexists _, _, _. split; [| eapply LatexTemplateError; eassumption].
      rewrite (latex_miss _ _ _ _ _ _ Hpath Hfs), render_to_cache_run, Hdoc.
      destruct (substitute_raises _ _ _ Hdoc) as [(name & -> & _) | ->];
        reflexivity. }
  destruct (generate_image_ends net document path (<[path := []]> fs))
    as (r & fs1 & t & Hgen & Hout).
  rewrite (latex_miss _ _ _ _ _ _ Hpath Hfs), render_to_cache_run.
  rewrite (rendering_run net TEMPLATE raw path document fs Hdoc), Hgen.
  destruct Hout as
    [ status Hp | Hp | Hp | d Hp Hs | d status Hp Hs Hne Hl
    | d status logs Hp Hs Hne Hl | d Hp Hs Hf | d filename status Hp Hs Hf Hg
    | d filename image Hp Hs Hf Hg ].
  1-5, 7-8:
    (eexists _, _, _; split; [reflexivity |];
     eapply LatexRenderError; try eassumption; try discriminate;
     econstructor; eassumption).
  - destruct (on_invalid_latex_run net ctx logs path (<[path := []]> fs) []
                (lookup_insert_eq _ _ _)) as (url & Hurl & ->).
    destruct (send ctx (Embed FAILED_TITLE (notice_for url)))
      as [| refusal] eqn:Hsend.
    + rewrite delete_insert_eq, delete_id by assumption.
      eexists _, _, _. split; cycle 1.
      * eapply LatexInvalid; try eassumption.
        eapply RenderInvalid; eassumption.
      * reflexivity.
    + eexists _, _, _. split; cycle 1.
      * eapply LatexInvalidRefused; try eassumption.
        eapply RenderInvalid; eassumption.
      * reflexivity.
  - rewrite alter_insert_eq, lookup_insert_eq. cbn [app].
    destruct (send ctx (File (py "latex.png") image)) as [| refusal] eqn:Hsend.
    + eexists _, _, _. split; cycle 1.
      * eapply LatexRendered; try eassumption.
        rewrite <- (alter_insert_eq fs path (fun old => old ++ image) []).
        eapply RenderSuccess; eassumption.
      * reflexivity.
    + eexists _, _, _. split; cycle 1.
      * eapply LatexRenderedRefused; try eassumption.
        rewrite <- (alter_insert_eq fs path (fun old => old ++ image) []).
        eapply RenderSuccess; eassumption.
      * reflexivity.
Qed.

(** What the trace of the render client never holds. *)
Lemma render_outcome_trace net document out_file fs r fs' t :
  render_outcome net document out_file fs r fs' t ->
  List.filter is_notice t = [] /\ List.filter is_image t = []
  /\ List.filter is_paste_upload t = [] /\ List.filter is_unlink t = []
  /\ List.filter is_open t = [] /\ List.filter is_close t = []
  /\ (length (List.filter is_network_call t) <= 2)%nat
  /\ Forall (fun e => forall q, event_path e = Some q -> q = out_file) t.
Proof.
  intros H. destruct H; repeat split; cbn; try lia;
    repeat constructor; try discriminate; intros q [= <-]; reflexivity.
Qed.

(** ** The render client and the output file *)

(** X1. [_generate_image] sends the POST first and never repeats a
    request; when it raises, whatever the exception, the file system is
    exactly as it was and nothing was written; when it returns, it has
    appended the body of the one GET to the output file and done nothing
    else to the file system. *)
Theorem generate_image_writes_only_on_success
    (net : network) (document out_file : pystr) (fs : filesystem) :
  let run := _generate_image net document out_file fs in
  (exists rest,
     run.2 = ERenderPost LATEX_API_URL (Payload document (py "png")) :: rest
     /\ (length (List.filter is_network_call run.2) <= 2)%nat)
  /\ match run.1.1 with
     | Raise e =>
         run.1.2 = fs
         /\ Forall (fun ev => forall p data, ev <> EWrite p data) run.2
     | Ok _ =>
         exists url image,
           render_get net url (Payload document (py "png")) = HttpOk image
           /\ run.1.2 = alter (fun old => old ++ image) out_file fs
           /\ last run.2 = Some (EWrite out_file image)
     end.
Proof.
  intros run. subst run.
  destruct (generate_image_ends net document out_file fs)
    as (r & fs' & t & -> & Hout).
  cbn [fst snd]. destruct Hout; (split; [eexists; split; [reflexivity | cbn; lia] |]);
    try (split; [reflexivity | repeat constructor; discriminate]).
  eexists _, _. split; [eassumption |]. split; reflexivity.
Qed.

(** ** Every invocation *)

Lemma filter_snoc_trace (f : event -> bool) (t tail : list event) :
  List.filter f t = [] -> List.filter f (t ++ tail) = List.filter f tail.
Proof. intros H. rewrite List.filter_app, H. reflexivity. Qed.

(** X2. An invocation sends at most one message.  One that returns has
    sent exactly one, an image or a failure notice, and has contacted the
    paste service exactly when the message is a failure notice.  One that
    raises has sent nothing; it has contacted the paste service only when
    what it raises is the refusal of the failure notice by the chat, since
    the send comes after the upload.  What it raises is never
    [InvalidLatexError] nor [FileNotFoundError]: the first is always
    handled, and the file deleted or sent is always there. *)
Theorem latex_one_message_or_none
    (net : network) (TEMPLATE : template) (ctx : channel) (raw : pystr)
    (fs : filesystem) :
  let run := latex net TEMPLATE ctx raw fs in
  match run.1.1 with
  | Ok _ =>
      (length (List.filter is_notice run.2)
       + length (List.filter is_image run.2) = 1)%nat
      /\ length (List.filter is_paste_upload run.2)
         = length (List.filter is_notice run.2)
  | Raise e =>
      List.filter is_notice run.2 = []
      /\ List.filter is_image run.2 = []
      /\ (length (List.filter is_paste_upload run.2) <= 1)%nat
      /\ (List.filter is_paste_upload run.2 <> [] ->
          exists refusal notice,
            e = HTTPException refusal
            /\ send ctx (Embed FAILED_TITLE notice) = Refused refusal)
      /\ (forall logs, e <> InvalidLatexError logs)
      /\ (forall path, e <> FileNotFoundError path)
  end.
Proof.
  intros run. subst run.
  destruct (latex_outcome_of_run net TEMPLATE ctx raw fs)
    as (r & fs' & tr & -> & Hout).
  cbn [fst snd].
  destruct Hout as
    [ He | path content Hpath Hfs Hsend | path content refusal Hpath Hfs Hsend
    | path e Hpath Hfs Hdoc
    | path document e t Hpath Hfs Hdoc Hren Hne
    | path document logs t url Hpath Hfs Hdoc Hren Hurl Hsend
    | path document logs t url refusal Hpath Hfs Hdoc Hren Hurl Hsend
    | path document image t Hpath Hfs Hdoc Hren Hsend
    | path document image t refusal Hpath Hfs Hdoc Hren Hsend ].
  - repeat split; try discriminate. cbn. lia. intros H; destruct (H eq_refl).
  - split; reflexivity.
  - repeat split; try discriminate. cbn. lia. intros H; destruct (H eq_refl).
  - repeat split; try reflexivity; try (cbn; lia);
      try (intros H; destruct (H eq_refl));
      destruct (substitute_raises _ _ _ Hdoc) as [(name & -> & _) | ->];
      discriminate.
  - destruct (render_outcome_trace _ _ _ _ _ _ _ Hren)
      as (Hn & Hi & Hu & _).
    cbn [List.filter is_notice is_image is_paste_upload].
    rewrite !filter_snoc_trace by assumption.
    repeat split; try reflexivity; try exact Hne; try (cbn; lia).
    + intros H; destruct (H eq_refl).
    + inversion Hren; discriminate.
  - destruct (render_outcome_trace _ _ _ _ _ _ _ Hren)
      as (Hn & Hi & Hu & _).
    cbn [List.filter is_notice is_image is_paste_upload].
    rewrite !filter_snoc_trace by assumption. split; reflexivity.
  - destruct (render_outcome_trace _ _ _ _ _ _ _ Hren)
      as (Hn & Hi & Hu & _).
    cbn [List.filter is_notice is_image is_paste_upload].
    rewrite !filter_snoc_trace by assumption.
    repeat split; try reflexivity; try discriminate; try (cbn; lia).
    intros _. eexists _, _. split; [reflexivity | exact Hsend].
  - destruct (render_outcome_trace _ _ _ _ _ _ _ Hren)
      as (Hn & Hi & Hu & _).
    cbn [List.filter is_notice is_image is_paste_upload].
    rewrite !filter_snoc_trace by assumption. split; reflexivity.
  - destruct (render_outcome_trace _ _ _ _ _ _ _ Hren)
      as (Hn & Hi & Hu & _).
    cbn [List.filter is_notice is_image is_paste_upload].
    rewrite !filter_snoc_trace by assumption.
    repeat split; try reflexivity; try discriminate; try (cbn; lia).
    intros H; destruct (H eq_refl).
Qed.

(** X3. No invocation modifies or removes a file that was in the cache
    before it: whatever the query, the services, the chat and the outcome,
    every file that was there is there afterwards with the same content. *)
Theorem latex_keeps_cache_entries
    (net : network) (TEMPLATE : template) (ctx : channel) (raw : pystr)
    (fs : filesystem) (p : pystr) (content : bytes) :
  fs !! p = Some content ->
  (latex net TEMPLATE ctx raw fs).1.2 !! p = Some content.
Proof.
  intros Hp.
  destruct (latex_outcome_of_run net TEMPLATE ctx raw fs)
    as (r & fs' & tr & -> & Hout).
  cbn [fst snd].
  destruct Hout as
    [ He | path content0 Hpath Hfs Hsend | path content0 refusal Hpath Hfs Hsend
    | path e Hpath Hfs Hdoc
    | path document e t Hpath Hfs Hdoc Hren Hne
    | path document logs t url Hpath Hfs Hdoc Hren Hurl Hsend
    | path document logs t url refusal Hpath Hfs Hdoc Hren Hurl Hsend
    | path document image t Hpath Hfs Hdoc Hren Hsend
    | path document image t refusal Hpath Hfs Hdoc Hren Hsend ];
    try exact Hp;
    (rewrite lookup_insert_ne; [exact Hp | intros ->; congruence]).
Qed.

Lemma latex_keeps_cache_entries_witness :
  (latex failing_net example_template delivering (py "`x`")
     (<[py "cache/other.png" := [Byte.x01]]> ∅)).1.2 !! py "cache/other.png"
  = Some [Byte.x01].
Proof.
  apply (latex_keeps_cache_entries failing_net example_template delivering
           (py "`x`") (<[py "cache/other.png" := [Byte.x01]]> ∅)
           (py "cache/other.png") [Byte.x01]).
  vm_compute. reflexivity.
Defined.

(** X4. An image is only ever sent from the cache path of the normalized
    query, under the name [latex.png], by an invocation that returns; and
    the bytes sent are the bytes that the cache holds at that path when
    the invocation ends. *)
Theorem latex_sends_what_is_cached
    (net : network) (TEMPLATE : template) (ctx : channel) (raw : pystr)
    (fs : filesystem) (p name : pystr) (content : bytes) :
  In (ESendFile p name content) (latex net TEMPLATE ctx raw fs).2 ->
  (latex net TEMPLATE ctx raw fs).1.1 = Ok tt
  /\ image_path_of (_prepare_input raw) = Ok p
  /\ name = py "latex.png"
  /\ (latex net TEMPLATE ctx raw fs).1.2 !! p = Some content.
Proof.
  destruct (latex_outcome_of_run net TEMPLATE ctx raw fs)
    as (r & fs' & tr & -> & Hout).
  cbn [fst snd].
  assert (forall t, List.filter is_image t = [] ->
            ~ In (ESendFile p name content) t) as Hnone.
  { intros t Ht Hin.
    assert (In (ESendFile p name content) (List.filter is_image t)) as Hin'
      by (apply List.filter_In; split; [exact Hin | reflexivity]).
    rewrite Ht in Hin'. destruct Hin'. }
  destruct Hout as
    [ He | path content0 Hpath Hfs Hsend | path content0 refusal Hpath Hfs Hsend
    | path e Hpath Hfs Hdoc
    | path document e t Hpath Hfs Hdoc Hren Hne
    | path document logs t url Hpath Hfs Hdoc Hren Hurl Hsend
    | path document logs t url refusal Hpath Hfs Hdoc Hren Hurl Hsend
    | path document image t Hpath Hfs Hdoc Hren Hsend
    | path document image t refusal Hpath Hfs Hdoc Hren Hsend ].
  - intros [].
  - intros [[=] | [[= <- <- <-] | []]]. auto.
  - intros [[=] | []].
  - intros [[=] | [[=] | [[=] | []]]].
  - destruct (render_outcome_trace _ _ _ _ _ _ _ Hren) as (_ & Hi & _).
    intros [[=] | [[=] | Hin]].
    apply in_app_or in Hin as [Hin | [[=] | []]].
    destruct (Hnone t Hi Hin).
  - destruct (render_outcome_trace _ _ _ _ _ _ _ Hren) as (_ & Hi & _).
    intros [[=] | [[=] | Hin]].
    apply in_app_or in Hin as [Hin | [[=] | [[=] | [[=] | [[=] | []]]]]].
    destruct (Hnone t Hi Hin).
  - destruct (render_outcome_trace _ _ _ _ _ _ _ Hren) as (_ & Hi & _).
    intros [[=] | [[=] | Hin]].
    apply in_app_or in Hin as [Hin | [[=] | [[=] | []]]].
    destruct (Hnone t Hi Hin).
  - destruct (render_outcome_trace _ _ _ _ _ _ _ Hren) as (_ & Hi & _).
    intros [[=] | [[=] | Hin]].
    apply in_app_or in Hin as [Hin | [[=] | [[= <- <- <-] | []]]].
    + destruct (Hnone t Hi Hin).
    + repeat split; try assumption. apply lookup_insert_eq.
  - destruct (render_outcome_trace _ _ _ _ _ _ _ Hren) as (_ & Hi & _).
    intros [[=] | [[=] | Hin]].
    apply in_app_or in Hin as [Hin | [[=] | []]].
    destruct (Hnone t Hi Hin).
Qed.

Lemma latex_sends_what_is_cached_witness :
  (latex working_net example_template delivering (py "`x`") ∅).1.1 = Ok tt
  /\ image_path_of (_prepare_input (py "`x`")) = Ok path_x
  /\ py "latex.png" = py "latex.png"
  /\ (latex working_net example_template delivering (py "`x`") ∅).1.2 !! path_x
     = Some [Byte.x89; Byte.x50; Byte.x4e].
Proof.
  apply (latex_sends_what_is_cached working_net example_template delivering
           (py "`x`") ∅ path_x (py "latex.png") [Byte.x89; Byte.x50; Byte.x4e]).
  vm_compute. do 6 right. left. reflexivity.
Defined.

(** X5. An invocation opens the output file at most once and closes it
    each time it opened it, also when the rendering raises; and it makes
    at most two requests in all: the POST, and then either the GET or the
    paste upload. *)
Theorem latex_closes_the_file_and_bounds_requests
    (net : network) (TEMPLATE : template) (ctx : channel) (raw : pystr)
    (fs : filesystem) :
  let tr := (latex net TEMPLATE ctx raw fs).2 in
  length (List.filter is_open tr) = length (List.filter is_close tr)
  /\ (length (List.filter is_open tr) <= 1)%nat
  /\ (length (List.filter is_network_call tr) <= 2)%nat
  /\ (List.filter is_open tr = [] \/ precedes is_open is_close tr).
Proof.
  intros tr. subst tr.
  destruct (latex_outcome_of_run net TEMPLATE ctx raw fs)
    as (r & fs' & tr & -> & Hout).
  cbn [fst snd].
  destruct Hout as
    [ He | path content Hpath Hfs Hsend | path content refusal Hpath Hfs Hsend
    | path e Hpath Hfs Hdoc
    | path document e t Hpath Hfs Hdoc Hren Hne
    | path document logs t url Hpath Hfs Hdoc Hren Hurl Hsend
    | path document logs t url refusal Hpath Hfs Hdoc Hren Hurl Hsend
    | path document image t Hpath Hfs Hdoc Hren Hsend
    | path document image t refusal Hpath Hfs Hdoc Hren Hsend ];
    try (inversion Hren; subst);
    (split; [reflexivity |]); (split; [cbn; lia |]); (split; [cbn; lia |]);
    try (left; reflexivity);
    right; cbv [precedes first_index is_open is_close option_map app]; lia.
Qed.

(** X6. Whenever an invocation that missed the cache raises, whatever the
    exception, nothing was deleted, nothing else in the cache has changed,
    and the file it opened stays at the cache path.  That file is empty,
    unless the image was rendered and written and what is raised is the
    refusal of the image by the chat: the file then holds the image.  Any
    later invocation for the same query finds the file, makes no request,
    and hands the file to the chat. *)
Theorem latex_error_leaves_the_file
    (net : network) (TEMPLATE : template) (ctx : channel) (raw path : pystr)
    (fs : filesystem) (e : exn) :
  image_path_of (_prepare_input raw) = Ok path ->
  fs !! path = None ->
  (latex net TEMPLATE ctx raw fs).1.1 = Raise e ->
  exists content : bytes,
    (latex net TEMPLATE ctx raw fs).1.2 = <[path := content]> fs
    /\ List.filter is_unlink (latex net TEMPLATE ctx raw fs).2 = []
    /\ (content = []
        \/ exists refusal,
             e = HTTPException refusal
             /\ send ctx (File (py "latex.png") content) = Refused refusal
             /\ In (EWrite path content) (latex net TEMPLATE ctx raw fs).2)
    /\ forall (net' : network) (TEMPLATE' : template) (ctx' : channel)
              (raw' : pystr),
         _prepare_input raw' = _prepare_input raw ->
         latex net' TEMPLATE' ctx' raw' (latex net TEMPLATE ctx raw fs).1.2
         = match send ctx' (File (py "latex.png") content) with
           | Delivered =>
               (Ok tt, (latex net TEMPLATE ctx raw fs).1.2,
                [EExists path; ESendFile path (py "latex.png") content])
           | Refused refusal =>
               (Raise (HTTPException refusal),
                (latex net TEMPLATE ctx raw fs).1.2, [EExists path])
           end.
Proof.
  intros Hpath0 Hfs0.
  destruct (latex_outcome_of_run net TEMPLATE ctx raw fs)
    as (r & fs' & tr & -> & Hout).
  cbn [fst snd]. intros ->.
  assert (forall (content : bytes) (net' : network) (TEMPLATE' : template)
                 (ctx' : channel) (raw' : pystr),
            _prepare_input raw' = _prepare_input raw ->
            latex net' TEMPLATE' ctx' raw' (<[path := content]> fs)
            = match send ctx' (File (py "latex.png") content) with
              | Delivered =>
                  (Ok tt, <[path := content]> fs,
                   [EExists path; ESendFile path (py "latex.png") content])
              | Refused refusal =>
                  (Raise (HTTPException refusal), <[path := content]> fs,
                   [EExists path])
              end) as Hlater.
  { intros content net' TEMPLATE' ctx' raw' Hsame. apply latex_hit.
    - rewrite Hsame. exact Hpath0.
    - apply lookup_insert_eq. }
  inversion Hout as
    [ He | | path' content' refusal Hpath Hfs Hsend
    | path' e' Hpath Hfs Hdoc
    | path' document e' t Hpath Hfs Hdoc Hren Hne |
    | path' document logs t url refusal Hpath Hfs Hdoc Hren Hurl Hsend |
    | path' document image t refusal Hpath Hfs Hdoc Hren Hsend ]; subst.
  - unfold image_path_of in Hpath0. rewrite He in Hpath0. discriminate.
  - assert (path' = path) as -> by congruence. congruence.
  - assert (path' = path) as -> by congruence.
    exists []. split; [reflexivity |]. split; [reflexivity |].
    split; [left; reflexivity | exact (Hlater [])].
  - assert (path' = path) as -> by congruence.
    exists []. split; [reflexivity |].
    destruct (render_outcome_trace _ _ _ _ _ _ _ Hren) as (_ & _ & _ & Hu & _).
    split; [| split; [left; reflexivity | exact (Hlater [])]].
    cbn [List.filter is_unlink]. rewrite filter_snoc_trace by assumption.
    reflexivity.
  - assert (path' = path) as -> by congruence.
    exists []. split; [reflexivity |].
    destruct (render_outcome_trace _ _ _ _ _ _ _ Hren) as (_ & _ & _ & Hu & _).
    split; [| split; [left; reflexivity | exact (Hlater [])]].
    cbn [List.filter is_unlink]. rewrite filter_snoc_trace by assumption.
    reflexivity.
  - assert (path' = path) as -> by congruence.
    exists image. split; [reflexivity |].
    destruct (render_outcome_trace _ _ _ _ _ _ _ Hren) as (_ & _ & _ & Hu & _).
    split; [| split; [| exact (Hlater image)]].
    + cbn [List.filter is_unlink]. rewrite filter_snoc_trace by assumption.
      reflexivity.
    + right. exists refusal. split; [reflexivity |]. split; [exact Hsend |].
      right. right. apply in_or_app. left.
      inversion Hren as
        [ | | | | | | | | d filename image' Hp Hs Hf Hg Himg Hfile Htrace ].
      assert (image' = image) as ->.
      { rewrite alter_insert_eq in Hfile.
        apply (f_equal (fun m : filesystem => m !! path)) in Hfile.
        rewrite !lookup_insert_eq in Hfile. cbn [app] in Hfile. congruence. }
      right. right. left. reflexivity.
Qed.

(** X7. When the rendering service reports a failure without a [log]
    field, the failure is not reported to the user: [KeyError] for [log]
    leaves the invocation, after the one POST, with no upload and no
    message. *)
Theorem missing_log_escapes_as_key_error
    (net : network) (TEMPLATE : template) (ctx : channel)
    (raw path document : pystr)
    (fs : filesystem) (d : gmap (list N) (list N)) (status : pystr) :
  image_path_of (_prepare_input raw) = Ok path ->
  fs !! path = None ->
  substitute TEMPLATE (_prepare_input raw) = Ok document ->
  render_post net LATEX_API_URL (png_payload document) = HttpOk (Some (JDict d)) ->
  d !! py "status" = Some status ->
  status <> py "success" ->
  d !! py "log" = None ->
  latex net TEMPLATE ctx raw fs
  = (Raise (KeyError (py "log")), <[path := []]> fs,
     [EExists path; EOpen path;
      ERenderPost LATEX_API_URL (png_payload document); EClose path]).
Proof.
  intros Hpath Hfs Hdoc Hp Hs Hne Hl.
  rewrite (latex_miss _ _ _ _ _ _ Hpath Hfs), render_to_cache_run.
  rewrite (rendering_run net TEMPLATE raw path document fs Hdoc).
  destruct (generate_image_ends net document path (<[path := []]> fs))
    as (r & fs1 & t & -> & Hout).
  inversion Hout; subst; try congruence.
  reflexivity.
Qed.

(** ** The template *)

(** X8. When the template does not take the query, the invocation raises
    what [substitute] raises after it has opened and closed the output
    file and before any request: the rendering service is never
    contacted, nothing is sent, and the empty file stays in the cache. *)
Theorem template_error_before_any_request
    (net : network) (TEMPLATE : template) (ctx : channel) (raw path : pystr)
    (fs : filesystem) (e : exn) :
  image_path_of (_prepare_input raw) = Ok path ->
  fs !! path = None ->
  substitute TEMPLATE (_prepare_input raw) = Raise e ->
  latex net TEMPLATE ctx raw fs
  = (Raise e, <[path := []]> fs, [EExists path; EOpen path; EClose path]).
Proof.
  intros Hpath Hfs Hdoc.
  rewrite (latex_miss _ _ _ _ _ _ Hpath Hfs), render_to_cache_run, Hdoc.
  destruct (substitute_raises _ _ _ Hdoc) as [(name & -> & _) | ->]; reflexivity.
Qed.

(** ** The query that has no UTF-8 encoding *)

(** A code point that UTF-8 encodes: not a surrogate, and in range. *)
Lemma encode_char_none (c : N) :
  encode_char c = None <-> (55296 <= c <= 57343 \/ 1114112 <= c).
Proof.
  unfold encode_char.
  destruct (N.ltb_spec c 128); [split; [discriminate | lia] |].
  destruct (N.ltb_spec c 2048); [split; [discriminate | lia] |].
  destruct (N.leb_spec 55296 c); destruct (N.leb_spec c 57343); cbn [andb];
    try (split; [intros _; lia | reflexivity]);
    (destruct (N.ltb_spec c 65536); [split; [discriminate | lia] |];
     destruct (N.ltb_spec c 1114112); [split; [discriminate | lia] |];
     split; [intros _; lia | reflexivity]).
Qed.

Lemma encode_cons (c : N) (s : pystr) :
  encode (c :: s)
  = match encode_char c, encode s with
    | Some b, Some bs => Some (b ++ bs)
    | _, _ => None
    end.
Proof. reflexivity. Qed.

Lemma encode_none (s : pystr) :
  encode s = None <-> Exists (fun c => 55296 <= c <= 57343 \/ 1114112 <= c) s.
Proof.
  induction s as [| c s IH].
  - split; [discriminate | intros H; inversion H].
  - rewrite encode_cons, Exists_cons, <- IH, <- encode_char_none.
    destruct (encode_char c); destruct (encode s);
      (split;
       [ intros H; first [discriminate | left; reflexivity | right; reflexivity]
       | intros [H | H]; first [discriminate | reflexivity] ]).
Qed.

(** X10. A query whose normalized text holds a surrogate code point, which
    UTF-8 cannot encode, makes the invocation raise [UnicodeEncodeError]
    before it looks at the cache: no file is created, no request is made,
    nothing is sent.  These are the only queries for which it does. *)
Theorem unencodable_query_has_no_effect
    (net : network) (TEMPLATE : template) (ctx : channel) (raw : pystr)
    (fs : filesystem) :
  (Exists (fun c => 55296 <= c <= 57343 \/ 1114112 <= c) (_prepare_input raw) ->
   latex net TEMPLATE ctx raw fs = (Raise UnicodeEncodeError, fs, []))
  /\ ((latex net TEMPLATE ctx raw fs).1.1 = Raise UnicodeEncodeError ->
      Exists (fun c => 55296 <= c <= 57343 \/ 1114112 <= c) (_prepare_input raw)).
Proof.
  split.
  - intros Hbad. apply encode_none in Hbad.
    unfold latex, image_path_of. rewrite Hbad. reflexivity.
  - destruct (latex_outcome_of_run net TEMPLATE ctx raw fs)
      as (r & fs' & tr & -> & Hout).
    cbn [fst snd]. intros ->. apply encode_none.
    inversion Hout as
      [ He | | | path' e' Hpath Hfs Hdoc
      | path' document e' t Hpath Hfs Hdoc Hren Hne | | | | ]; subst.
    + exact He.
    + destruct (substitute_raises _ _ _ Hdoc) as [(name & [=] & _) | [=]].
    + inversion Hren.
Qed.

(** ** After a logical failure *)

(** X11. A logical render failure whose notice the chat takes is not
    cached: the invocation leaves the whole file system as it found it, so
    that the next invocation for the same query misses the cache again and
    submits the document again; when the rendering service then accepts
    it, the image is downloaded, stored and handed to the chat.  When the
    chat refuses the notice, the failure is cached: the deletion is not
    reached, the empty file stays, and the next invocation for the same
    query makes no request and hands the empty file to the chat. *)
Theorem logical_failure_cached_only_when_notice_refused
    (net net' : network) (TEMPLATE : template) (ctx ctx' : channel)
    (raw path document : pystr)
    (fs : filesystem) (d d' : gmap (list N) (list N))
    (status logs filename : pystr) (image : bytes) :
  image_path_of (_prepare_input raw) = Ok path ->
  fs !! path = None ->
  substitute TEMPLATE (_prepare_input raw) = Ok document ->
  render_post net LATEX_API_URL (png_payload document) = HttpOk (Some (JDict d)) ->
  d !! py "status" = Some status ->
  status <> py "success" ->
  d !! py "log" = Some logs ->
  render_post net' LATEX_API_URL (png_payload document) = HttpOk (Some (JDict d')) ->
  d' !! py "status" = Some (py "success") ->
  d' !! py "filename" = Some filename ->
  render_get net' (artifact_url filename) (png_payload document) = HttpOk image ->
  exists url : option pystr,
    (forall fs0, (_upload_to_pastebin net logs fs0).1.1 = Ok url)
    /\ match send ctx (Embed FAILED_TITLE (notice_for url)) with
       | Delivered =>
           (latex net TEMPLATE ctx raw fs).1 = (Ok tt, fs)
           /\ latex net' TEMPLATE ctx' raw (latex net TEMPLATE ctx raw fs).1.2
              = match send ctx' (File (py "latex.png") image) with
                | Delivered =>
                    (Ok tt, <[path := image]> fs,
                     [EExists path; EOpen path;
                      ERenderPost LATEX_API_URL (png_payload document);
                      ERenderGet (artifact_url filename) (png_payload document);
                      EWrite path image; EClose path;
                      ESendFile path (py "latex.png") image])
                | Refused refusal' =>
                    (Raise (HTTPException refusal'), <[path := image]> fs,
                     [EExists path; EOpen path;
                      ERenderPost LATEX_API_URL (png_payload document);
                      ERenderGet (artifact_url filename) (png_payload document);
                      EWrite path image; EClose path])
                end
       | Refused refusal =>
           (latex net TEMPLATE ctx raw fs).1
           = (Raise (HTTPException refusal), <[path := []]> fs)
           /\ latex net' TEMPLATE ctx' raw (latex net TEMPLATE ctx raw fs).1.2
              = match send ctx' (File (py "latex.png") []) with
                | Delivered =>
                    (Ok tt, <[path := []]> fs,
                     [EExists path; ESendFile path (py "latex.png") []])
                | Refused refusal' =>
                    (Raise (HTTPException refusal'), <[path := []]> fs,
                     [EExists path])
                end
       end.
Proof.
  intros Hpath Hfs Hdoc Hp Hs Hne Hl Hp' Hs' Hf' Hg'.
  destruct (latex_invalid_run net TEMPLATE ctx raw path document fs
              Hpath Hfs Hdoc d status logs Hp Hs Hne Hl) as (r & Hr & ->).
  exists r. split; [exact Hr |].
  destruct (send ctx (Embed FAILED_TITLE (notice_for r))) as [| refusal].
  - cbn [fst snd]. split; [reflexivity |].
    exact (latex_success_run net' TEMPLATE ctx' raw path document fs
             Hpath Hfs Hdoc d' filename image Hp' Hs' Hf' Hg').
  - cbn [fst snd]. split; [reflexivity |].
    apply latex_hit; [exact Hpath | apply lookup_insert_eq].
Qed.

(** ** The name of the cache file *)

Lemma le_bytes_length (count : nat) (x : N) : length (MD5.le_bytes count x) = count.
Proof. unfold MD5.le_bytes. rewrite length_map, length_seq. reflexivity. Qed.

Lemma digest_length (msg : bytes) : length (MD5.digest msg) = 16%nat.
Proof.
  unfold MD5.digest.
  destruct (fold_left MD5.compress _ MD5.init) as [[[a b] c] d].
  rewrite length_map, !length_app, !le_bytes_length. reflexivity.
Qed.

Lemma hex_digit_lower_hex (n : N) : n < 16 -> is_lower_hex (MD5.hex_digit n).
Proof.
  unfold MD5.hex_digit, is_lower_hex. intros Hn.
  destruct (N.ltb_spec n 10); lia.
Qed.

Lemma hexdigest_shape (msg : bytes) :
  length (md5_hexdigest msg) = 32%nat /\ Forall is_lower_hex (md5_hexdigest msg).
Proof.
  unfold md5_hexdigest, MD5.hexdigest.
  pose proof (digest_length msg) as Hlen. revert Hlen.
  generalize (MD5.digest msg) as bs. intros bs Hlen.
  assert (forall l : bytes,
            length (flat_map (fun b => [MD5.hex_digit (Byte.to_N b / 16);
                                        MD5.hex_digit (Byte.to_N b mod 16)]) l)
            = (2 * length l)%nat
            /\ Forall is_lower_hex
                 (flat_map (fun b => [MD5.hex_digit (Byte.to_N b / 16);
                                      MD5.hex_digit (Byte.to_N b mod 16)]) l))
    as Hflat.
  { induction l as [| b l [IHlen IHall]]; [split; [reflexivity | constructor] |].
    cbn [flat_map app length]. split; [rewrite IHlen; lia |].
    pose proof (Byte.to_N_bounded b) as Hb.
    constructor; [apply hex_digit_lower_hex |
                  constructor; [apply hex_digit_lower_hex | exact IHall]].
    - apply N.Div0.div_lt_upper_bound. lia.
    - apply N.mod_lt. discriminate. }
  destruct (Hflat bs) as [H1 H2]. split; [rewrite H1, Hlen; reflexivity | exact H2].
Qed.

(** X12. Whatever the query, the cache path is the cache directory, one
    slash, thirty-two lowercase hexadecimal digits and [.png]: forty-two
    characters, none of which comes from the query, so that the file is
    always directly inside the cache directory. *)
Theorem image_path_shape (query path : pystr) :
  image_path_of query = Ok path ->
  exists digest,
    path = CACHE_DIRECTORY ++ py "/" ++ digest ++ py ".png"
    /\ length digest = 32%nat
    /\ Forall is_lower_hex digest
    /\ length path = 42%nat
    /\ Forall (fun c => c <> 47) (drop 6 path).
Proof.
  unfold image_path_of. destruct (encode query) as [data |]; [| discriminate].
  intros [= <-]. exists (md5_hexdigest data).
  destruct (hexdigest_shape data) as [Hlen Hhex].
  split; [reflexivity |]. split; [exact Hlen |]. split; [exact Hhex |].
  unfold cache_path. split.
  - rewrite !length_app, Hlen. reflexivity.
  - change (CACHE_DIRECTORY ++ py "/" ++ md5_hexdigest data ++ py ".png")
      with (py "cache/" ++ md5_hexdigest data ++ py ".png").
    change 6%nat with (length (py "cache/")).
    rewrite drop_app_length. apply Forall_app. split.
    + eapply Forall_impl; [exact Hhex |]. unfold is_lower_hex. intros c Hc. lia.
    + repeat constructor; discriminate.
Qed.

(** ** What [_prepare_input] leaves alone, and what it can return *)

Lemma delimiter_backticks (d : pystr) :
  is_delimiter d ->
  exists d', d = BACKTICK :: d' /\ List.filter is_backtick d = d.
Proof.
  intros [-> | [-> | ->]]; eexists; split; reflexivity.
Qed.

(** X13. [_prepare_input] only looks for a fence at the very start of the
    text and needs the fence to be closed: a text that does not start with
    a backtick, the empty text among them, and a text with fewer than two
    backticks, are returned as they are. *)
Theorem prepare_input_unchanged_without_fence (text : pystr) :
  head text <> Some BACKTICK
  \/ (length (List.filter is_backtick text) < 2)%nat ->
  _prepare_input text = text.
Proof.
  intros Hno. unfold _prepare_input.
  destruct (re_match FORMATTED_CODE_REGEX text) as [[e g] |] eqn:H; [| reflexivity].
  exfalso.
  destruct (re_match_fence text e g H)
    as (d & l & b & c & t & Htext & _ & (Hd & _) & _).
  destruct (delimiter_backticks d Hd) as (d' & Hd' & Hfilter).
  destruct Hno as [Hhead | Hcount].
  - apply Hhead. rewrite Htext. unfold fence_text. rewrite Hd'. reflexivity.
  - rewrite Htext in Hcount. unfold fence_text in Hcount.
    rewrite !List.filter_app, !length_app, Hfilter in Hcount.
    rewrite Hd' in Hcount. cbn [length] in Hcount. lia.
Qed.

Lemma prepare_input_unchanged_without_fence_witness :
  _prepare_input (py "x = `a") = py "x = `a"
  /\ _prepare_input (py "`unclosed") = py "`unclosed".
Proof.
  split.
  - apply (prepare_input_unchanged_without_fence (py "x = `a")).
    left. vm_compute. discriminate.
  - apply (prepare_input_unchanged_without_fence (py "`unclosed")).
    right. vm_compute. lia.
Defined.

(** X14. What [_prepare_input] returns is always a part of the text, in
    one piece: it never adds or reorders characters; and when it is not
    the text itself it is at least two characters shorter and starts after
    the first character of the text. *)
Theorem prepare_input_returns_part_of_input (text : pystr) :
  exists before after,
    text = before ++ _prepare_input text ++ after
    /\ (_prepare_input text = text
        \/ (before <> [] /\ after <> []
            /\ length (_prepare_input text) + 2 <= length text)%nat).
Proof.
  destruct (re_match FORMATTED_CODE_REGEX text) as [[e g] |] eqn:H.
  - destruct (prepare_input_of_match text e g H)
      as (d & l & b & c & t & Htext & He & (Hd & _) & Hc).
    destruct (delimiter_backticks d Hd) as (d' & Hd' & _).
    exists (d ++ l ++ b), (t ++ d ++ drop e text).
    split.
    + rewrite Htext at 1. rewrite Hc. unfold fence_text.
      rewrite <- !app_assoc. reflexivity.
    + right. pose proof (match_covers_code text e g H) as Hlen.
      split; [rewrite Hd'; discriminate |].
      split; [rewrite Hd'; destruct t; discriminate | lia].
  - exists [], []. unfold _prepare_input. rewrite H.
    split; [rewrite app_nil_r; reflexivity | left; reflexivity].
Qed.

(** ** The examples of the properties above *)

Lemma latex_error_leaves_the_file_witness :
  exists content : bytes,
    (latex working_net example_template refusing (py "`x`") ∅).1.2
    = <[path_x := content]> ∅
    /\ List.filter is_unlink
         (latex working_net example_template refusing (py "`x`") ∅).2 = []
    /\ (content = []
        \/ exists refusal,
             HTTPException 403 = HTTPException refusal
             /\ send refusing (File (py "latex.png") content) = Refused refusal
             /\ In (EWrite path_x content)
                   (latex working_net example_template refusing (py "`x`") ∅).2)
    /\ forall (net' : network) (TEMPLATE' : template) (ctx' : channel)
              (raw' : pystr),
         _prepare_input raw' = _prepare_input (py "`x`") ->
         latex net' TEMPLATE' ctx' raw'
           (latex working_net example_template refusing (py "`x`") ∅).1.2
         = match send ctx' (File (py "latex.png") content) with
           | Delivered =>
               (Ok tt, (latex working_net example_template refusing (py "`x`") ∅).1.2,
                [EExists path_x; ESendFile path_x (py "latex.png") content])
           | Refused refusal =>
               (Raise (HTTPException refusal),
                (latex working_net example_template refusing (py "`x`") ∅).1.2,
                [EExists path_x])
           end.
Proof.
  assert (image_path_of (_prepare_input (py "`x`")) = Ok path_x) as H1
    by (vm_compute; reflexivity).
  assert ((∅ : gmap (list N) (list Byte.byte)) !! path_x = None) as H2
    by reflexivity.
  assert ((latex working_net example_template refusing (py "`x`") ∅).1.1
          = Raise (HTTPException 403)) as H3 by (vm_compute; reflexivity).
  exact (latex_error_leaves_the_file working_net example_template refusing
           (py "`x`") path_x ∅ (HTTPException 403) H1 H2 H3).
Defined.

Lemma missing_log_escapes_as_key_error_witness :
  latex nolog_net example_template delivering (py "`x`") ∅
  = (Raise (KeyError (py "log")), <[path_x := []]> ∅,
     [EExists path_x; EOpen path_x;
      ERenderPost LATEX_API_URL (png_payload (py "\begin{document}x\end{document}"));
      EClose path_x]).
Proof.
  pose (d := list_to_map [(py "status", py "error"); (py "description", py "boom")]
             : gmap (list N) (list N)).
  assert (image_path_of (_prepare_input (py "`x`")) = Ok path_x) as H1
    by (vm_compute; reflexivity).
  assert ((∅ : gmap (list N) (list Byte.byte)) !! path_x = None) as H2
    by reflexivity.
  assert (substitute example_template (_prepare_input (py "`x`"))
          = Ok (py "\begin{document}x\end{document}")) as H3
    by (vm_compute; reflexivity).
  assert (render_post nolog_net LATEX_API_URL
            (png_payload (py "\begin{document}x\end{document}"))
          = HttpOk (Some (JDict d))) as H4 by reflexivity.
  assert (d !! py "status" = Some (py "error")) as H5 by (vm_compute; reflexivity).
  assert (py "error" <> py "success") as H6 by (vm_compute; discriminate).
  assert (d !! py "log" = None) as H7 by (vm_compute; reflexivity).
  exact (missing_log_escapes_as_key_error nolog_net example_template delivering
           (py "`x`") path_x (py "\begin{document}x\end{document}") ∅ d (py "error")
           H1 H2 H3 H4 H5 H6 H7).
Defined.

Lemma template_error_before_any_request_witness :
  latex working_net bad_template delivering (py "`x`") ∅
  = (Raise (KeyError (py "body")), <[path_x := []]> ∅,
     [EExists path_x; EOpen path_x; EClose path_x]).
Proof.
  assert (image_path_of (_prepare_input (py "`x`")) = Ok path_x) as H1
    by (vm_compute; reflexivity).
  assert ((∅ : gmap (list N) (list Byte.byte)) !! path_x = None) as H2
    by reflexivity.
  assert (substitute bad_template (_prepare_input (py "`x`"))
          = Raise (KeyError (py "body"))) as H3 by (vm_compute; reflexivity).
  exact (template_error_before_any_request working_net bad_template delivering
           (py "`x`") path_x ∅ (KeyError (py "body")) H1 H2 H3).
Defined.

Lemma unencodable_query_has_no_effect_witness :
  latex working_net example_template delivering [120; 55357] ∅
  = (Raise UnicodeEncodeError, ∅, []).
Proof.
  apply (proj1 (unencodable_query_has_no_effect working_net example_template
                  delivering [120; 55357] ∅)).
  assert (_prepare_input [120; 55357] = [120; 55357]) as ->
    by (vm_compute; reflexivity).
  apply Exists_cons_tl, Exists_cons_hd. left. lia.
Defined.

Lemma logical_failure_cached_only_when_notice_refused_witness :
  exists url : option pystr,
    (forall fs0, (_upload_to_pastebin failing_net (py "boom") fs0).1.1 = Ok url)
    /\ match send refusing (Embed FAILED_TITLE (notice_for url)) with
       | Delivered =>
           (latex failing_net example_template refusing (py "`x`") ∅).1 = (Ok tt, ∅)
           /\ latex working_net example_template delivering (py "`x`")
                (latex failing_net example_template refusing (py "`x`") ∅).1.2
              = match send delivering
                        (File (py "latex.png") [Byte.x89; Byte.x50; Byte.x4e]) with
                | Delivered =>
                    (Ok tt, <[path_x := [Byte.x89; Byte.x50; Byte.x4e]]> ∅,
                     [EExists path_x; EOpen path_x;
                      ERenderPost LATEX_API_URL
                        (png_payload (py "\begin{document}x\end{document}"));
                      ERenderGet (artifact_url (py "out.png"))
                        (png_payload (py "\begin{document}x\end{document}"));
                      EWrite path_x [Byte.x89; Byte.x50; Byte.x4e]; EClose path_x;
                      ESendFile path_x (py "latex.png")
                        [Byte.x89; Byte.x50; Byte.x4e]])
                | Refused refusal' =>
                    (Raise (HTTPException refusal'),
                     <[path_x := [Byte.x89; Byte.x50; Byte.x4e]]> ∅,
                     [EExists path_x; EOpen path_x;
                      ERenderPost LATEX_API_URL
                        (png_payload (py "\begin{document}x\end{document}"));
                      ERenderGet (artifact_url (py "out.png"))
                        (png_payload (py "\begin{document}x\end{document}"));
                      EWrite path_x [Byte.x89; Byte.x50; Byte.x4e]; EClose path_x])
                end
       | Refused refusal =>
           (latex failing_net example_template refusing (py "`x`") ∅).1
           = (Raise (HTTPException refusal), <[path_x := []]> ∅)
           /\ latex working_net example_template delivering (py "`x`")
                (latex failing_net example_template refusing (py "`x`") ∅).1.2
              = match send delivering (File (py "latex.png") []) with
                | Delivered =>
                    (Ok tt, <[path_x := []]> ∅,
                     [EExists path_x; ESendFile path_x (py "latex.png") []])
                | Refused refusal' =>
                    (Raise (HTTPException refusal'), <[path_x := []]> ∅,
                     [EExists path_x])
                end
       end.
Proof.
  pose (bad := list_to_map [(py "status", py "error"); (py "log", py "boom")]
               : gmap (list N) (list N)).
  pose (good := list_to_map [(py "status", py "success"); (py "filename", py "out.png")]
                : gmap (list N) (list N)).
  assert (image_path_of (_prepare_input (py "`x`")) = Ok path_x) as H1
    by (vm_compute; reflexivity).
  assert ((∅ : gmap (list N) (list Byte.byte)) !! path_x = None) as H2
    by reflexivity.
  assert (substitute example_template (_prepare_input (py "`x`"))
          = Ok (py "\begin{document}x\end{document}")) as H3
    by (vm_compute; reflexivity).
  assert (render_post failing_net LATEX_API_URL
            (png_payload (py "\begin{document}x\end{document}"))
          = HttpOk (Some (JDict bad))) as H4 by reflexivity.
  assert (bad !! py "status" = Some (py "error")) as H5 by (vm_compute; reflexivity).
  assert (py "error" <> py "success") as H6 by (vm_compute; discriminate).
  assert (bad !! py "log" = Some (py "boom")) as H7 by (vm_compute; reflexivity).
  assert (render_post working_net LATEX_API_URL
            (png_payload (py "\begin{document}x\end{document}"))
          = HttpOk (Some (JDict good))) as H8 by reflexivity.
  assert (good !! py "status" = Some (py "success")) as H9
    by (vm_compute; reflexivity).
  assert (good !! py "filename" = Some (py "out.png")) as H10
    by (vm_compute; reflexivity).
  assert (render_get working_net (artifact_url (py "out.png"))
            (png_payload (py "\begin{document}x\end{document}"))
          = HttpOk [Byte.x89; Byte.x50; Byte.x4e]) as H11 by reflexivity.
  exact (logical_failure_cached_only_when_notice_refused
           failing_net working_net example_template refusing delivering
           (py "`x`") path_x (py "\begin{document}x\end{document}") ∅ bad good
           (py "error") (py "boom") (py "out.png") [Byte.x89; Byte.x50; Byte.x4e]
           H1 H2 H3 H4 H5 H6 H7 H8 H9 H10 H11).
Defined.

Lemma image_path_shape_witness :
  exists digest,
    path_x = CACHE_DIRECTORY ++ py "/" ++ digest ++ py ".png"
    /\ length digest = 32%nat
    /\ Forall is_lower_hex digest
    /\ length path_x = 42%nat
    /\ Forall (fun c => c <> 47) (drop 6 path_x).
Proof.
  assert (image_path_of (py "x") = Ok path_x) as H1 by (vm_compute; reflexivity).
  exact (image_path_shape (py "x") path_x H1).
Defined.

(** * More of the fence *)

(** ** Where the lazy search for the closing delimiter stops *)

Lemma rmatch_seq r1 r2 s g k :
  rmatch (RSeq r1 r2) s g k = rmatch r1 s g (fun s1 g1 => rmatch r2 s1 g1 k).
Proof. reflexivity. Qed.

Lemma rmatch_star greedy r s g k :
  rmatch (RStar greedy r) s g k = star_loop (rmatch r) greedy k (S (length s)) s g.
Proof. reflexivity. Qed.

Lemma rmatch_group name r s g k :
  rmatch (RGroup name r) s g k
  = rmatch r s g (fun s1 g1 =>
      k s1 (<[name := take (length s - length s1)%nat s]> g1)).
Proof. reflexivity. Qed.

(** A lazy repetition of [.] stops at the first place where the
    continuation succeeds. *)
Lemma lazy_first (k : pystr -> groups -> option mstate) n s g res :
  star_loop (rmatch (RSet any_char)) false k n s g = Some res ->
  exists u tail,
    s = u ++ tail /\ k tail g = Some res
    /\ forall v, v <> [] -> v `suffix_of` u -> k (v ++ tail) g = None.
Proof.
  revert s. induction n as [| n IH]; intros s; [discriminate |].
  rewrite star_loop_S. unfold orelse.
  destruct (k s g) as [res' |] eqn:Hk.
  - intros [= <-]. exists [], s. split; [reflexivity |]. split; [exact Hk |].
    intros v Hv Hsuf. apply suffix_nil_inv in Hsuf. contradiction.
  - destruct s as [| y s]; [discriminate |].
    rewrite rmatch_set_cons. cbn [any_char].
    destruct (length s <? length (y :: s))%nat; [| discriminate].
    intros H. apply IH in H as (u & tail & -> & Htail & Hnone).
    exists (y :: u), tail. split; [reflexivity |]. split; [exact Htail |].
    intros [| a v] Hv Hsuf; [contradiction |].
    apply suffix_cons_inv in Hsuf as [-> | Hsuf].
    + exact Hk.
    + apply Hnone; assumption.
Qed.

(** Whether whitespace and the closing delimiter match depends on the
    group [delim] only. *)
Lemma trailing_close_depends_on_delim s g1 g2 res :
  rmatch RE_TRAILING s g1 (fun s1 g => rmatch RE_CLOSE s1 g accept) = Some res ->
  g2 !! "delim" = g1 !! "delim" ->
  exists t d rest,
    s = t ++ d ++ rest /\ spaces t /\ g1 !! "delim" = Some d
    /\ res = (rest, g1)
    /\ rmatch RE_TRAILING s g2 (fun s1 g => rmatch RE_CLOSE s1 g accept) <> None.
Proof.
  intros H Hsame.
  apply rmatch_sound in H as (t & s1 & g' & -> & Ht & H).
  apply matches_trailing in Ht as [Ht ->].
  apply rmatch_sound in H as (d & rest & g' & -> & Hd & [= <-]).
  apply matches_close in Hd as [Hd ->].
  exists t, d, rest. repeat (split; [first [reflexivity | assumption] |]).
  assert (matches RE_TRAILING t g2 g2) as Mt by (apply matches_star_of_set, Ht).
  apply (proj1 (matches_complete _ _ _ _ Mt)).
  assert (matches RE_CLOSE d g2 g2) as Md
    by (constructor; rewrite Hsame; exact Hd).
  apply (proj1 (matches_complete _ _ _ _ Md)). discriminate.
Qed.

(** The part of the pattern from the group [code] on. *)
Lemma code_has_no_trailing_space s g res :
  rmatch RE_CODE s g
    (fun s1 g1 => rmatch RE_TRAILING s1 g1 (fun s2 g2 => rmatch RE_CLOSE s2 g2 accept))
  = Some res ->
  exists c t d rest,
    s = c ++ t ++ d ++ rest /\ spaces t /\ g !! "delim" = Some d
    /\ res = (rest, <["code" := c]> g)
    /\ (forall c' z, c = c' ++ [z] -> is_space z = false).
Proof.
  unfold RE_CODE. rewrite rmatch_group, rmatch_star. intros H.
  apply lazy_first in H as (c & tail & -> & Htail & Hnone).
  rewrite take_consumed in Htail.
  destruct (trailing_close_depends_on_delim tail (<["code" := c]> g)
              (<["code" := c]> g) res Htail eq_refl)
    as (t & d & rest & -> & Ht & Hd & -> & _).
  rewrite lookup_insert_ne in Hd by discriminate.
  exists c, t, d, rest. repeat (split; [first [reflexivity | assumption] |]).
  intros c' z -> . destruct (is_space z) eqn:Hz; [exfalso | reflexivity].
  specialize (Hnone [z] ltac:(discriminate) ltac:(apply suffix_app_r; reflexivity)).
  cbv beta in Hnone.
  change ((c' ++ [z]) ++ t ++ d ++ rest) with ((c' ++ [z]) ++ (t ++ d ++ rest)) in Hnone.
  rewrite <- (app_assoc c' [z]) in Hnone.
  rewrite take_consumed in Hnone.
  revert Hnone. unfold RE_TRAILING at 1. rewrite rmatch_star, star_loop_S.
  cbn [app]. rewrite rmatch_set_cons, Hz.
  replace (length (t ++ d ++ rest) <? length (z :: t ++ d ++ rest))%nat
    with true by (symmetry; apply Nat.ltb_lt; simpl; lia).
  cbn [length].
  change (star_loop (rmatch (RSet is_space)) true
            (fun s1 g0 => rmatch RE_CLOSE s1 g0 accept)
            (S (length (t ++ d ++ rest))) (t ++ d ++ rest) (<["code" := c']> g))
    with (rmatch RE_TRAILING (t ++ d ++ rest) (<["code" := c']> g)
            (fun s1 g0 => rmatch RE_CLOSE s1 g0 accept)).
  intros Hnone.
  destruct (trailing_close_depends_on_delim (t ++ d ++ rest)
              (<["code" := c' ++ [z]]> g) (<["code" := c']> g) _ Htail)
    as (_ & _ & _ & _ & _ & _ & _ & Hne).
  { rewrite !lookup_insert_ne by discriminate. reflexivity. }
  apply Hne. unfold orelse in Hnone.
  destruct (rmatch RE_TRAILING (t ++ d ++ rest) (<["code" := c']> g) _);
    [discriminate | reflexivity].
Qed.

(** The continuation of the pattern after the blank lines, reached by every
    match. *)
Lemma match_reaches_code text res :
  rmatch FORMATTED_CODE_REGEX text ∅ accept = Some res ->
  exists s g,
    rmatch RE_CODE s g
      (fun s1 g1 => rmatch RE_TRAILING s1 g1 (fun s2 g2 => rmatch RE_CLOSE s2 g2 accept))
    = Some res.
Proof.
  unfold FORMATTED_CODE_REGEX. rewrite rmatch_seq. intros H.
  apply rmatch_sound in H as (w1 & s1 & g1 & _ & _ & H).
  cbv beta in H. rewrite rmatch_seq in H.
  apply rmatch_sound in H as (w2 & s2 & g2 & _ & _ & H).
  cbv beta in H. rewrite rmatch_seq in H.
  apply rmatch_sound in H as (w3 & s3 & g3 & _ & _ & H).
  cbv beta in H. exists s3, g3. exact H.
Qed.

(** X15. The code that [_prepare_input] takes out of a fence never ends
    with whitespace: the whitespace before the closing delimiter, newlines
    included, is dropped, all of it. *)
Theorem prepare_input_drops_trailing_whitespace (text : pystr) (c : pystr) (z : N) :
  re_match FORMATTED_CODE_REGEX text <> None ->
  _prepare_input text = c ++ [z] ->
  is_space z = false.
Proof.
  unfold _prepare_input, re_match.
  destruct (rmatch FORMATTED_CODE_REGEX text ∅ accept) as [[rest g] |] eqn:H;
    [intros _ | intros Hn; destruct (Hn eq_refl)].
  destruct (match_reaches_code text _ H) as (s & g0 & Hcode).
  destruct (code_has_no_trailing_space s g0 _ Hcode)
    as (c0 & t & d & rest0 & _ & _ & _ & [= _ ->] & Hlast).
  unfold group. rewrite lookup_insert_eq.
  intros Heq. exact (Hlast c z Heq).
Qed.

(** ** How the matcher runs through a fence *)

Lemma rmatch_alt r1 r2 s g k :
  rmatch (RAlt r1 r2) s g k = orelse (rmatch r1 s g k) (rmatch r2 s g k).
Proof. reflexivity. Qed.

Lemma rmatch_char_cons c x s g k :
  rmatch (RChar c) (x :: s) g k = if x =? c then k s g else None.
Proof. reflexivity. Qed.

Lemma rmatch_cond name r_yes r_no s g k :
  rmatch (RCond name r_yes r_no) s g k
  = match g !! name with
    | Some _ => rmatch r_yes s g k
    | None => rmatch r_no s g k
    end.
Proof. reflexivity. Qed.

Lemma rmatch_backref name s g k :
  rmatch (RBackref name) s g k
  = match g !! name with
    | Some v => if starts_with v s then k (drop (length v) s) g else None
    | None => None
    end.
Proof. reflexivity. Qed.

Lemma starts_with_app (v s : pystr) : starts_with v (v ++ s) = true.
Proof.
  induction v as [| x v IH]; [reflexivity |].
  cbn [starts_with app]. rewrite N.eqb_refl. exact IH.
Qed.

(** A greedy repetition of one character class runs to the end of the
    characters of the class when the continuation succeeds there. *)
Lemma greedy_run (p : N -> bool) (k : pystr -> groups -> option mstate)
    w s g res :
  Forall (fun c => p c = true) w ->
  (forall x s', s = x :: s' -> p x = false) ->
  k s g = Some res ->
  forall n, (length (w ++ s) < n)%nat ->
  star_loop (rmatch (RSet p)) true k n (w ++ s) g = Some res.
Proof.
  intros Hw Hs Hk. induction Hw as [| a w Ha _ IH]; intros [| n] Hn;
    try (cbn [length app] in Hn; lia); rewrite star_loop_S; cbn [app].
  - destruct s as [| x s'].
    + cbn [rmatch orelse]. exact Hk.
    + rewrite rmatch_set_cons, (Hs x s' eq_refl). cbn [orelse]. exact Hk.
  - rewrite rmatch_set_cons, Ha.
    replace (length (w ++ s) <? length (a :: w ++ s))%nat with true
      by (symmetry; apply Nat.ltb_lt; simpl; lia).
    rewrite IH by (cbn [length app] in Hn; lia). reflexivity.
Qed.

(** It fails when the continuation fails at every place it can stop. *)
Lemma greedy_fail (p : N -> bool) (k : pystr -> groups -> option mstate)
    w s g :
  (forall x s', s = x :: s' -> p x = false) ->
  (forall v, v `suffix_of` w -> k (v ++ s) g = None) ->
  forall n, star_loop (rmatch (RSet p)) true k n (w ++ s) g = None.
Proof.
  intros Hs. induction w as [| a w IH]; intros Hk [| n]; try reflexivity;
    rewrite star_loop_S; cbn [app].
  - pose proof (Hk [] ltac:(reflexivity)) as H0. cbn [app] in H0. rewrite H0.
    destruct s as [| x s']; [reflexivity |].
    rewrite rmatch_set_cons, (Hs x s' eq_refl). reflexivity.
  - pose proof (Hk (a :: w) ltac:(reflexivity)) as H0. cbn [app] in H0.
    rewrite H0, rmatch_set_cons.
    rewrite IH by (intros v Hv; apply Hk, suffix_cons_r, Hv).
    destruct (p a); [| reflexivity].
    destruct (_ <? _)%nat; reflexivity.
Qed.

Lemma close_fails_before (y : N) s d (g : groups) :
  y <> BACKTICK -> g !! "delim" = Some (BACKTICK :: d) ->
  rmatch RE_CLOSE (y :: s) g accept = None.
Proof.
  intros Hy Hg. unfold RE_CLOSE. rewrite rmatch_backref, Hg.
  cbn [starts_with]. destruct (N.eqb_spec BACKTICK y); [congruence | reflexivity].
Qed.

(** Inside a body that has no backtick and does not end with whitespace,
    whitespace and the closing delimiter do not match. *)
Lemma trailing_close_fails_inside u :
  no_close u ->
  forall n tail d (g : groups),
    g !! "delim" = Some (BACKTICK :: d) ->
    star_loop (rmatch (RSet is_space)) true
      (fun s1 g1 => rmatch RE_CLOSE s1 g1 accept) n (u ++ tail) g = None.
Proof.
  induction 1 as [z Hz Hs | y u Hy Hu IH]; intros [| n] tail d g Hg;
    try reflexivity; rewrite star_loop_S; cbn [app]; rewrite rmatch_set_cons.
  - rewrite Hs. cbn [orelse]. eapply close_fails_before; eassumption.
  - rewrite (IH n tail d g Hg).
    rewrite (close_fails_before y _ d g Hy Hg).
    destruct (is_space y); [| reflexivity].
    destruct (_ <? _)%nat; reflexivity.
Qed.

(** After the body: the whitespace, the delimiter, and the rest is left. *)
Lemma trailing_close_run t d rest (g : groups) :
  spaces t -> g !! "delim" = Some (BACKTICK :: d) ->
  rmatch RE_TRAILING (t ++ (BACKTICK :: d) ++ rest) g
    (fun s1 g1 => rmatch RE_CLOSE s1 g1 accept)
  = Some (rest, g).
Proof.
  intros Ht Hg. unfold RE_TRAILING. rewrite rmatch_star.
  apply greedy_run; [exact Ht | | | lia].
  - intros x s' [= <- _]. reflexivity.
  - unfold RE_CLOSE. rewrite rmatch_backref, Hg, starts_with_app.
    rewrite drop_app_length. reflexivity.
Qed.

(** The code, the whitespace and the closing delimiter. *)
Lemma code_run c t d rest (g : groups) :
  no_close c -> spaces t -> g !! "delim" = Some (BACKTICK :: d) ->
  rmatch RE_CODE (c ++ t ++ (BACKTICK :: d) ++ rest) g
    (fun s1 g1 => rmatch RE_TRAILING s1 g1 (fun s2 g2 => rmatch RE_CLOSE s2 g2 accept))
  = Some (rest, <["code" := c]> g).
Proof.
  intros Hc Ht Hg. unfold RE_CODE. rewrite rmatch_group, rmatch_star.
  apply lazy_scan.
  - intros v Hv Hsuf. unfold RE_TRAILING. rewrite rmatch_star.
    eapply trailing_close_fails_inside; [eapply no_close_suffix; eassumption |].
    rewrite lookup_insert_ne by discriminate. exact Hg.
  - rewrite take_consumed. apply trailing_close_run; [exact Ht |].
    rewrite lookup_insert_ne by discriminate. exact Hg.
  - lia.
Qed.

(** The blank lines before a body that does not start with whitespace. *)
Lemma blank_lines_run b :
  blank_lines b ->
  forall n x s (g : groups) (k : pystr -> groups -> option mstate) res,
    is_space x = false ->
    k (x :: s) g = Some res ->
    (length (b ++ x :: s) < n)%nat ->
    star_loop (rmatch (RSeq (RStar true (RSet is_blank)) (RChar NEWLINE)))
      true k n (b ++ x :: s) g = Some res.
Proof.
  induction 1 as [| blanks more Hblanks _ IH]; intros [| n] x s g k res Hx Hk Hn;
    try (cbn [length app] in Hn; lia); rewrite star_loop_S, rmatch_seq, rmatch_star.
  - cbn [app]. rewrite star_loop_S, rmatch_set_cons, (is_blank_is_space x Hx).
    cbn [orelse]. rewrite rmatch_char_cons, (newline_is_space x Hx).
    cbn [orelse]. exact Hk.
  - rewrite <- !app_assoc. cbn [app].
    rewrite (greedy_run is_blank _ blanks (NEWLINE :: more ++ x :: s) g res);
      [reflexivity | exact Hblanks | intros y s' [= <- _]; reflexivity | | lia].
    rewrite rmatch_char_cons, N.eqb_refl.
    replace (length (more ++ x :: s)
             <? length (blanks ++ NEWLINE :: more ++ x :: s))%nat
      with true
      by (symmetry; apply Nat.ltb_lt;
          repeat (rewrite length_app || cbn [length]); lia).
    apply IH; [exact Hx | exact Hk |].
    rewrite <- !app_assoc in Hn. cbn [app] in Hn.
    repeat (rewrite length_app in Hn || cbn [length] in Hn).
    repeat (rewrite length_app || cbn [length]). lia.
Qed.

(** The language line: none for a delimiter that is not a block. *)
Lemma lang_not_block s (g : groups) k :
  g !! "block" = None -> rmatch RE_LANG s g k = k s g.
Proof. intros Hb. unfold RE_LANG. rewrite rmatch_cond, Hb. reflexivity. Qed.

Lemma is_letter_newline : is_letter NEWLINE = false.
Proof. reflexivity. Qed.

(** The language line of a block is taken when it is there. *)
Lemma lang_taken x letters s (g : groups) k v res :
  g !! "block" = Some v ->
  Forall (fun c => is_letter c = true) (x :: letters) ->
  k s (<["lang" := x :: letters]> g) = Some res ->
  rmatch RE_LANG ((x :: letters) ++ NEWLINE :: s) g k = Some res.
Proof.
  intros Hb Hall Hk. apply Forall_cons in Hall as [Hx Hall].
  unfold RE_LANG, ROpt, RPlus.
  rewrite rmatch_cond, Hb, rmatch_alt, rmatch_seq, rmatch_group, rmatch_seq.
  cbn [app]. rewrite rmatch_set_cons, Hx, rmatch_star.
  rewrite (greedy_run is_letter _ letters (NEWLINE :: s) g res);
    [reflexivity | exact Hall | intros y s' [= <- _]; reflexivity | | lia].
  change (x :: letters ++ NEWLINE :: s) with ((x :: letters) ++ NEWLINE :: s).
  rewrite take_consumed, rmatch_char_cons, N.eqb_refl. exact Hk.
Qed.

(** It is left out when what follows the delimiter is not one. *)
Lemma lang_skipped s (g : groups) k v :
  g !! "block" = Some v ->
  no_language_line s ->
  rmatch RE_LANG s g k = k s g.
Proof.
  intros Hb (word & y & tail & -> & Hword & Hy & Hnl).
  unfold RE_LANG, ROpt, RPlus.
  rewrite rmatch_cond, Hb, rmatch_alt, rmatch_seq, rmatch_group, rmatch_seq.
  assert (rmatch (RSet is_letter) (word ++ y :: tail) g
            (fun s1 g1 =>
               rmatch (RStar true (RSet is_letter)) s1 g1
                 (fun s2 g2 =>
                    rmatch (RChar NEWLINE) s2
                      (<["lang" := take (length (word ++ y :: tail) - length s2)%nat
                                     (word ++ y :: tail)]> g2) k))
          = None) as ->; [| reflexivity].
  destruct word as [| x word]; cbn [app]; rewrite rmatch_set_cons.
  - rewrite Hy. reflexivity.
  - apply Forall_cons in Hword as [Hx Hword]. rewrite Hx, rmatch_star.
    destruct Hnl as [[=] | Hnl].
    apply greedy_fail.
    + intros a s' [= <- _]. exact Hy.
    + intros u Hu. destruct u as [| a u]; cbn [app]; rewrite rmatch_char_cons.
      * destruct (N.eqb_spec y NEWLINE); [contradiction | reflexivity].
      * assert (is_letter a = true) as Ha.
        { destruct Hu as [pre ->]. apply Forall_app in Hword as [_ Hword].
          apply Forall_cons in Hword as [Ha _]. exact Ha. }
        destruct (N.eqb_spec a NEWLINE) as [-> |]; [discriminate | reflexivity].
Qed.

Lemma groups_after_delim_delim d : groups_after_delim d !! "delim" = Some d.
Proof.
  unfold groups_after_delim. destruct (decide (d = TRIPLE)); apply lookup_insert_eq.
Qed.

Lemma groups_after_delim_block d :
  (d = TRIPLE -> groups_after_delim d !! "block" = Some d)
  /\ (d <> TRIPLE -> groups_after_delim d !! "block" = None).
Proof.
  unfold groups_after_delim. destruct (decide (d = TRIPLE)) as [-> | Hd]; split;
    try contradiction; intros _.
  - rewrite lookup_insert_ne by discriminate. apply lookup_insert_eq.
  - rewrite lookup_insert_ne by discriminate. apply lookup_empty.
Qed.

(** The opening delimiter, before a character that is not a backtick. *)
Lemma delim_run d y s k res :
  is_delimiter d -> y <> BACKTICK ->
  k (y :: s) (groups_after_delim d) = Some res ->
  rmatch RE_DELIM (d ++ y :: s) ∅ k = Some res.
Proof.
  intros Hd Hy Hk.
  assert ((y =? BACKTICK) = false) as Hyb by (apply N.eqb_neq; exact Hy).
  unfold RE_DELIM, ROpt, RLit. unfold groups_after_delim in Hk.
  destruct Hd as [-> | [-> | ->]]; unfold TRIPLE in *; cbn [rmatch app];
    rewrite ?N.eqb_refl, ?Hyb; cbn [orelse].
  - rewrite decide_False in Hk by discriminate.
    change (BACKTICK :: y :: s) with ([BACKTICK] ++ y :: s).
    rewrite take_consumed. exact Hk.
  - rewrite decide_False in Hk by discriminate.
    change (BACKTICK :: BACKTICK :: y :: s) with ([BACKTICK; BACKTICK] ++ y :: s).
    rewrite take_consumed, Hk. reflexivity.
  - rewrite decide_True in Hk by reflexivity.
    change (BACKTICK :: BACKTICK :: BACKTICK :: y :: s)
      with ([BACKTICK; BACKTICK; BACKTICK] ++ y :: s).
    rewrite !take_consumed, Hk. reflexivity.
Qed.

(** From the blank lines to the end of the fence. *)
Lemma blank_lines_to_close b x c1 t d rest (g : groups) :
  blank_lines b -> is_space x = false -> no_close (x :: c1) -> spaces t ->
  g !! "delim" = Some (BACKTICK :: d) ->
  rmatch (RSeq RE_BLANK_LINES (RSeq RE_CODE (RSeq RE_TRAILING RE_CLOSE)))
    (b ++ (x :: c1) ++ t ++ (BACKTICK :: d) ++ rest) g accept
  = Some (rest, <["code" := x :: c1]> g).
Proof.
  intros Hb Hx Hc Ht Hg. rewrite rmatch_seq. unfold RE_BLANK_LINES.
  rewrite rmatch_star. cbn [app].
  apply blank_lines_run; [exact Hb | exact Hx | | lia].
  exact (code_run (x :: c1) t d rest g Hc Ht Hg).
Qed.

(** What follows the opening delimiter does not start with a backtick. *)
Lemma after_delimiter_no_backtick d l b x s :
  language_line d l -> blank_lines b -> x <> BACKTICK ->
  exists y s', l ++ b ++ x :: s = y :: s' /\ y <> BACKTICK.
Proof.
  intros Hl Hb Hx.
  assert (exists y s', b ++ x :: s = y :: s' /\ y <> BACKTICK) as Hbx.
  { destruct Hb as [| blanks more Hblanks _]; [eexists _, _; split; [reflexivity | exact Hx] |].
    destruct Hblanks as [| a blanks Ha _]; cbn [app];
      eexists _, _; (split; [reflexivity |]); [discriminate |].
    intros ->. discriminate. }
  destruct Hl as [-> | (_ & letters & Hne & Hall & ->)]; [exact Hbx |].
  destruct Hall as [| a letters Ha _]; [contradiction |].
  cbn [app]. eexists _, _. split; [reflexivity |]. intros ->. discriminate.
Qed.

(** X16. A fence around a plain body is undone: for a delimiter of one to
    three backticks, an optional language line after a triple backtick,
    any blank lines before the body and any whitespace after it, and a
    body without backticks that neither starts nor ends with whitespace,
    [_prepare_input] returns exactly the body, whatever follows the
    closing delimiter.  After a triple backtick without a language line,
    what follows must not itself read as one. *)
Theorem fence_round_trip (d l b c t rest : pystr) (x z : N) (c1 c2 : pystr) :
  well_formed_fence d l b t ->
  c = x :: c1 -> c = c2 ++ [z] ->
  Forall (fun a => a <> BACKTICK) c ->
  is_space x = false -> is_space z = false ->
  (d = TRIPLE -> l = [] -> no_language_line (b ++ c ++ t ++ d)) ->
  _prepare_input (fence_text d l b c t ++ rest) = c.
Proof.
  intros (Hd & Hl & Hb & Ht) Hhead Hlast Hall Hx Hz Hnolang.
  assert (no_close c) as Hc
    by (rewrite Hlast in *; apply no_close_of_plain; assumption).
  assert (x <> BACKTICK) as Hxb
    by (rewrite Hhead in Hall; apply Forall_cons in Hall as [Hxb _]; exact Hxb).
  destruct (delimiter_backticks d Hd) as (d' & Hd' & _).
  assert (fence_text d l b c t ++ rest = d ++ l ++ b ++ c ++ t ++ d ++ rest) as ->
    by (unfold fence_text; rewrite <- !app_assoc; reflexivity).
  assert (rmatch FORMATTED_CODE_REGEX (d ++ l ++ b ++ c ++ t ++ d ++ rest) ∅ accept
          = Some (rest, <["code" := c]>
                          (if decide (l = []) then groups_after_delim d
                           else <["lang" := take (length l - 1) l]>
                                  (groups_after_delim d)))) as Hrun.
  { subst c.
    destruct (after_delimiter_no_backtick d l b x (c1 ++ t ++ d ++ rest) Hl Hb Hxb)
      as (y & s' & Hs & Hy).
    unfold FORMATTED_CODE_REGEX. rewrite rmatch_seq.
    change ((x :: c1) ++ t ++ d ++ rest) with (x :: c1 ++ t ++ d ++ rest).
    rewrite Hs. apply delim_run; [exact Hd | exact Hy |]. rewrite <- Hs.
    change (x :: c1 ++ t ++ d ++ rest) with ((x :: c1) ++ t ++ d ++ rest).
    rewrite rmatch_seq.
    pose proof (groups_after_delim_delim d) as Hgd.
    destruct (groups_after_delim_block d) as [Hblock Hnoblock].
    destruct Hl as [-> | (-> & letters & Hne & Hletters & ->)].
    - rewrite decide_True by reflexivity. cbn [app].
      assert (forall k,
                rmatch RE_LANG (b ++ x :: c1 ++ t ++ d ++ rest)
                  (groups_after_delim d) k
                = k (b ++ x :: c1 ++ t ++ d ++ rest) (groups_after_delim d))
        as Hlang.
      { intros k. destruct (decide (d = TRIPLE)) as [Hd3 | Hd3].
        - apply (lang_skipped _ _ _ d (Hblock Hd3)).
          destruct (Hnolang Hd3 eq_refl) as (word & y0 & tail & Heq & Hw & Hy0 & Hnl).
          exists word, y0, (tail ++ rest). split; [| auto].
          change (b ++ x :: c1 ++ t ++ d ++ rest)
            with (b ++ (x :: c1) ++ t ++ d ++ rest).
          rewrite !app_assoc. rewrite !app_assoc in Heq. rewrite Heq.
          rewrite <- !app_assoc. reflexivity.
        - apply lang_not_block, Hnoblock, Hd3. }
      rewrite Hlang.
      change (b ++ x :: c1 ++ t ++ d ++ rest)
        with (b ++ (x :: c1) ++ t ++ d ++ rest).
      rewrite Hd' at 1. apply blank_lines_to_close; try assumption.
      rewrite Hgd, Hd'. reflexivity.
    - rewrite decide_False by (destruct letters; discriminate).
      destruct letters as [| a letters]; [contradiction |].
      rewrite <- !app_assoc. cbn [app].
      change (a :: letters ++ NEWLINE :: b ++ x :: c1 ++ t ++ TRIPLE ++ rest)
        with ((a :: letters) ++ NEWLINE :: b ++ (x :: c1) ++ t ++ TRIPLE ++ rest).
      apply (lang_taken _ _ _ _ _ TRIPLE); [apply Hblock; reflexivity | exact Hletters |].
      replace (take (length (a :: letters ++ [NEWLINE]) - 1) (a :: letters ++ [NEWLINE]))
        with (a :: letters).
      2:{ change (a :: letters ++ [NEWLINE]) with ((a :: letters) ++ [NEWLINE]).
          rewrite length_app. cbn [length].
          replace (S (length letters) + 1 - 1)%nat with (length (a :: letters))
            by (cbn [length]; lia).
          rewrite take_app_length. reflexivity. }
      apply (blank_lines_to_close b x c1 t [BACKTICK; BACKTICK] rest);
        try assumption.
      all: rewrite lookup_insert_ne by discriminate; exact Hgd. }
  unfold _prepare_input, re_match. rewrite Hrun.
  unfold group. rewrite lookup_insert_eq. reflexivity.
Qed.

(** ** Where the greedy run over the blank lines stops *)

(** A greedy repetition stops where one more iteration, with all that can
    follow it, fails. *)
Lemma greedy_last (r : regex) body (k : pystr -> groups -> option mstate) :
  sound_for r body ->
  forall n s g res,
    (length s < n)%nat ->
    star_loop body true k n s g = Some res ->
    exists s' g' m,
      k s' g' = Some res /\ (length s' <= m)%nat
      /\ body s' g' (fun s1 g1 =>
           if (length s1 <? length s')%nat
           then star_loop body true k m s1 g1 else None) = None.
Proof.
  intros Hbody. induction n as [| n IH]; intros s g res Hn; [lia |].
  rewrite star_loop_S. unfold orelse.
  destruct (body s g _) as [res' |] eqn:Hagain.
  - intros [= <-]. apply Hbody in Hagain as (w & s1 & g1 & -> & _ & H).
    destruct (length s1 <? length (w ++ s1))%nat eqn:Hlt; [| discriminate].
    apply Nat.ltb_lt in Hlt. apply IH in H; [exact H | lia].
  - intros Hk. exists s, g, n. split; [exact Hk |]. split; [lia | exact Hagain].
Qed.

Lemma code_to_close_complete c t d rest (g : groups) :
  spaces t -> g !! "delim" = Some d ->
  rmatch (RSeq RE_CODE (RSeq RE_TRAILING RE_CLOSE)) (c ++ t ++ d ++ rest) g accept
  <> None.
Proof.
  intros Ht Hd.
  assert (matches (RSeq RE_CODE (RSeq RE_TRAILING RE_CLOSE)) (c ++ t ++ d)
            g (<["code" := c]> g)) as Hm.
  { econstructor.
    - apply MGroup, (matches_star_of_set false any_char).
      apply Forall_forall. reflexivity.
    - econstructor; [apply matches_star_of_set, Ht |].
      constructor. rewrite lookup_insert_ne by discriminate. exact Hd. }
  replace (c ++ t ++ d ++ rest) with ((c ++ t ++ d) ++ rest)
    by (rewrite <- !app_assoc; reflexivity).
  apply (proj1 (matches_complete _ _ _ _ Hm)). discriminate.
Qed.

(** X17. The code that [_prepare_input] takes out of a fence never starts
    with a blank line: the lines of spaces and tabs after the opening
    delimiter, or after the language line, are dropped, all of them. *)
Theorem prepare_input_drops_leading_blank_lines
    (text blanks c : pystr) :
  re_match FORMATTED_CODE_REGEX text <> None ->
  Forall (fun a => is_blank a = true) blanks ->
  _prepare_input text <> blanks ++ [NEWLINE] ++ c.
Proof.
  unfold _prepare_input, re_match.
  destruct (rmatch FORMATTED_CODE_REGEX text ∅ accept) as [[rest g] |] eqn:H;
    [intros _ | intros Hn; destruct (Hn eq_refl)].
  intros Hblanks.
  unfold FORMATTED_CODE_REGEX in H. rewrite rmatch_seq in H.
  apply rmatch_sound in H as (w1 & s1 & g1 & _ & _ & H).
  cbv beta in H. rewrite rmatch_seq in H.
  apply rmatch_sound in H as (w2 & s2 & g2 & _ & _ & H).
  cbv beta in H. rewrite rmatch_seq in H. unfold RE_BLANK_LINES in H.
  rewrite rmatch_star in H.
  apply (greedy_last _ _ _ (rmatch_sound _)) in H as (s' & g' & m & Hk & Hm & Hstop);
    [| lia].
  cbv beta in Hk.
  destruct (code_has_no_trailing_space s' g' _ Hk)
    as (c0 & t & d & rest0 & -> & Ht & Hd & [= -> ->] & _).
  unfold group. rewrite lookup_insert_eq. intros Heq.
  change (default [] (Some c0)) with c0 in Heq. subst c0.
  revert Hstop.
  assert (matches (RSeq (RStar true (RSet is_blank)) (RChar NEWLINE))
            (blanks ++ [NEWLINE]) g' g') as Hline.
  { econstructor; [apply matches_star_of_set, Hblanks | constructor]. }
  replace ((blanks ++ [NEWLINE] ++ c) ++ t ++ d ++ rest0)
    with ((blanks ++ [NEWLINE]) ++ (c ++ t ++ d ++ rest0))
    by (rewrite <- !app_assoc; reflexivity).
  apply (proj1 (matches_complete _ _ _ _ Hline)).
  replace (length (c ++ t ++ d ++ rest0)
           <? length ((blanks ++ [NEWLINE]) ++ c ++ t ++ d ++ rest0))%nat
    with true
    by (symmetry; apply Nat.ltb_lt; rewrite (length_app (blanks ++ [NEWLINE])),
          (length_app blanks); cbn [length]; lia).
  assert (matches (RStar true (RSeq (RStar true (RSet is_blank)) (RChar NEWLINE)))
            [] g' g') as Hnone by constructor.
  apply (proj2 (matches_complete _ _ _ _ Hnone) true _ eq_refl m
           (c ++ t ++ d ++ rest0)).
  - repeat (rewrite length_app in Hm || cbn [length] in Hm).
    cbn [app]. repeat (rewrite length_app || cbn [length]). lia.
  - apply code_to_close_complete; assumption.
Qed.

(** ** The examples of the properties of the fence *)

Lemma prepare_input_drops_trailing_whitespace_witness :
  re_match FORMATTED_CODE_REGEX (py "``` x = 1  " ++ [NEWLINE] ++ py "```") <> None
  /\ _prepare_input (py "``` x = 1  " ++ [NEWLINE] ++ py "```") = py " x = " ++ [49]
  /\ is_space 49 = false.
Proof.
  assert (re_match FORMATTED_CODE_REGEX (py "``` x = 1  " ++ [NEWLINE] ++ py "```") <> None)
    as H1 by (vm_compute; discriminate).
  assert (_prepare_input (py "``` x = 1  " ++ [NEWLINE] ++ py "```") = py " x = " ++ [49])
    as H2 by (vm_compute; reflexivity).
  split; [exact H1 | split; [exact H2 |]].
  exact (prepare_input_drops_trailing_whitespace _ _ _ H1 H2).
Defined.

Lemma fence_round_trip_witness :
  _prepare_input
    (fence_text TRIPLE (py "python" ++ [NEWLINE]) [NEWLINE] (py "x = 1") [32; NEWLINE]
     ++ py " thanks")
  = py "x = 1".
Proof.
  assert (well_formed_fence TRIPLE (py "python" ++ [NEWLINE]) [NEWLINE] [32; NEWLINE])
    as H1.
  { split; [right; right; reflexivity |].
    split; [right; split; [reflexivity |]; exists (py "python");
            split; [discriminate |]; split; [| reflexivity];
            vm_compute; repeat constructor |].
    split; [| vm_compute; repeat constructor].
    exact (BlankLine [] [] (Forall_nil_2 _) BlankNone). }
  assert (py "x = 1" = 120 :: py " = 1") as H2 by reflexivity.
  assert (py "x = 1" = py "x = " ++ [49]) as H3 by reflexivity.
  assert (Forall (fun a => a <> BACKTICK) (py "x = 1")) as H4
    by (vm_compute; repeat constructor; discriminate).
  assert (is_space 120 = false) as H5 by (vm_compute; reflexivity).
  assert (is_space 49 = false) as H6 by (vm_compute; reflexivity).
  assert (TRIPLE = TRIPLE -> py "python" ++ [NEWLINE] = [] ->
          no_language_line ([NEWLINE] ++ py "x = 1" ++ [32; NEWLINE] ++ TRIPLE)) as H7
    by (intros _ H; discriminate H).
  exact (fence_round_trip TRIPLE (py "python" ++ [NEWLINE]) [NEWLINE] (py "x = 1")
           [32; NEWLINE] (py " thanks") 120 49 (py " = 1") (py "x = ")
           H1 H2 H3 H4 H5 H6 H7).
Defined.

Lemma prepare_input_drops_leading_blank_lines_witness :
  re_match FORMATTED_CODE_REGEX (py "```" ++ [NEWLINE; 32; NEWLINE] ++ py "x```") <> None
  /\ _prepare_input (py "```" ++ [NEWLINE; 32; NEWLINE] ++ py "x```")
     <> [32] ++ [NEWLINE] ++ py "x".
Proof.
  assert (re_match FORMATTED_CODE_REGEX (py "```" ++ [NEWLINE; 32; NEWLINE] ++ py "x```")
          <> None) as H1 by (vm_compute; discriminate).
  assert (Forall (fun a => is_blank a = true) [32]) as H2
    by (vm_compute; repeat constructor).
  split; [exact H1 |].
  exact (prepare_input_drops_leading_blank_lines _ [32] (py "x") H1 H2).
Defined.
